(** * Seguros Bolivar scraping session: a shallow embedding

    The development follows two source files of the repository:

    - [applications/scrapers/services/seguros_bolivar_session.py]
      (class [SegurosBolivarSession]), and
    - [applications/scrapers/views.py] (the [bolivar_radicados] and
      [bolivar_radicados_export] endpoints and their helpers).

    Python text is a sequence of code points ([str], below).  White space
    is the white space of Unicode; the case mappings are written out for
    the characters below 128 and taken from the character database of
    Unicode otherwise.  What the code calls but does not contain (the
    character database, BeautifulSoup's parser, ElementTree's parser,
    [html.unescape], [http.cookies], [urljoin], the [requests] client, the
    process environment and the clock) are the fields of an [Oracle] record
    that every session function receives: the theorems hold for every such
    record.  The two parsers, the cookie library and the client may raise.
    The world keeps the calls of [session.get] and [session.post]; the
    requests that [requests] sends by itself when it follows a redirect are
    not told apart.  An exception is a value of [exn], the classes below
    [Exception].  The two renderers of the export, which build their files
    with openpyxl and reportlab, are the fields of a [Renderer] record. *)

From Stdlib Require Import List Bool Arith NArith ZArith Lia.
From Stdlib.Strings Require Import Byte.
From stdpp Require Import base option list countable gmap.

(** ** Python text

    A Python [str] is a sequence of code points.  A character is its code
    point, a number; a text is a sequence of characters.  A literal of this
    file is read as the UTF-8 text it is written in. *)

Definition char : Type := N.

Declare Scope chr_scope.
Delimit Scope chr_scope with c.
Bind Scope chr_scope with char.

Definition char_dec (a b : char) : {a = b} + {a <> b} := N.eq_dec a b.

Module Str.

Inductive str : Type :=
| EmptyStr
| Str (c : char) (t : str).

Fixpoint append (s1 s2 : str) : str :=
  match s1 with
  | EmptyStr => s2
  | Str c s1' => Str c (append s1' s2)
  end.

Fixpoint rev_app (s1 s2 : str) : str :=
  match s1 with
  | EmptyStr => s2
  | Str a s1 => rev_app s1 (Str a s2)
  end.

Definition rev (s : str) : str := rev_app s EmptyStr.

Fixpoint eqb (s1 s2 : str) : bool :=
  match s1, s2 with
  | EmptyStr, EmptyStr => true
  | Str c1 s1', Str c2 s2' => N.eqb c1 c2 && eqb s1' s2'
  | _, _ => false
  end.

(** [s1] is a prefix of [s2]. *)
Fixpoint prefix (s1 s2 : str) {struct s2} : bool :=
  match s1 with
  | EmptyStr => true
  | Str a s1' =>
      match s2 with
      | EmptyStr => false
      | Str b s2' =>
          match char_dec a b with
          | left _ => prefix s1' s2'
          | right _ => false
          end
      end
  end.

Fixpoint codes (s : str) : list char :=
  match s with
  | EmptyStr => []
  | Str c t => c :: codes t
  end.

Fixpoint of_codes (l : list char) : str :=
  match l with
  | [] => EmptyStr
  | c :: t => Str c (of_codes t)
  end.

(** The code points of a UTF-8 text; [fuel] bounds the number of
    characters. *)
Fixpoint utf8_decode (fuel : nat) (bs : list N) : option str :=
  match fuel, bs with
  | _, [] => Some EmptyStr
  | O, _ :: _ => None
  | S fuel, b :: rest =>
      if (b <? 128)%N then option_map (Str b) (utf8_decode fuel rest)
      else if (b <? 224)%N then
        match rest with
        | b1 :: rest =>
            option_map (Str ((b - 192) * 64 + (b1 - 128))%N)
              (utf8_decode fuel rest)
        | _ => None
        end
      else if (b <? 240)%N then
        match rest with
        | b1 :: b2 :: rest =>
            option_map
              (Str ((b - 224) * 4096 + (b1 - 128) * 64 + (b2 - 128))%N)
              (utf8_decode fuel rest)
        | _ => None
        end
      else
        match rest with
        | b1 :: b2 :: b3 :: rest =>
            option_map
              (Str ((b - 240) * 262144 + (b1 - 128) * 4096
                    + (b2 - 128) * 64 + (b3 - 128))%N)
              (utf8_decode fuel rest)
        | _ => None
        end
  end.

Definition utf8_encode (c : char) : list N :=
  if (c <? 128)%N then [c]
  else if (c <? 2048)%N then [192 + c / 64; 128 + c mod 64]%N
  else if (c <? 65536)%N
  then [224 + c / 4096; 128 + (c / 64) mod 64; 128 + c mod 64]%N
  else [240 + c / 262144; 128 + (c / 4096) mod 64;
        128 + (c / 64) mod 64; 128 + c mod 64]%N.

Fixpoint to_bytes (ns : list N) : option (list byte) :=
  match ns with
  | [] => Some []
  | n :: rest =>
      match Byte.of_N n, to_bytes rest with
      | Some b, Some bs => Some (b :: bs)
      | _, _ => None
      end
  end.

Definition of_literal (bs : list byte) : option str :=
  utf8_decode (length bs) (map Byte.to_N bs).

Definition to_literal (s : str) : option (list byte) :=
  to_bytes (concat (map utf8_encode (codes s))).

Definition char_of_literal (bs : list byte) : option N :=
  match of_literal bs with
  | Some (Str c EmptyStr) => Some c
  | _ => None
  end.

Definition char_to_literal (c : N) : option (list byte) :=
  to_bytes (utf8_encode c).

End Str.

Export Str (str(..)).

Declare Scope str_scope.
Delimit Scope str_scope with str.
Bind Scope str_scope with str.
String Notation str Str.of_literal Str.to_literal : str_scope.
Infix "++" := Str.append (right associativity, at level 60) : str_scope.
Infix "+:+" := Str.append (at level 60, right associativity) : str_scope.

String Notation N Str.char_of_literal Str.char_to_literal : chr_scope.

#[global] Arguments Str.append : simpl never.

#[global] Instance str_eq_dec : EqDecision str.
Proof. solve_decision. Defined.

#[global] Instance str_inhabited : Inhabited str := populate EmptyStr.

#[global] Instance str_countable : Countable str.
Proof.
  apply (inj_countable' Str.codes Str.of_codes).
  intros s; induction s as [|c t IH]; [reflexivity|].
  cbn. rewrite IH. reflexivity.
Defined.

Open Scope str_scope.


(** ** Python [str] operations used by the sources *)

Module PyStr.

Definition LF : char := 10%N.
Definition CR : char := 13%N.

Definition chr (c : char) : str := Str c "".

(** [str.isspace], which is also what [str.strip] removes and what [\s]
    matches in a pattern on text: TAB, LF, VT, FF, CR, the separators FS,
    GS, RS, US, the space, U+0085, U+00A0, U+1680, U+2000 to U+200A,
    U+2028, U+2029, U+202F, U+205F and U+3000. *)
Definition isspace (c : char) : bool :=
  ((9 <=? c)%N && (c <=? 13)%N) || ((28 <=? c)%N && (c <=? 32)%N)
  || (c =? 133)%N || (c =? 160)%N || (c =? 5760)%N
  || ((8192 <=? c)%N && (c <=? 8202)%N)
  || (c =? 8232)%N || (c =? 8233)%N || (c =? 8239)%N
  || (c =? 8287)%N || (c =? 12288)%N.

(** The case mappings below 128. *)
Definition lower_char (c : char) : char :=
  if ((65 <=? c)%N && (c <=? 90)%N) then (c + 32)%N else c.

Definition upper_char (c : char) : char :=
  if ((97 <=? c)%N && (c <=? 122)%N) then (c - 32)%N else c.

Fixpoint map_chars (f : char -> char) (s : str) : str :=
  match s with
  | EmptyStr => EmptyStr
  | Str c t => Str (f c) (map_chars f t)
  end.

(** Every character of the text is below 128. *)
Fixpoint is_ascii (s : str) : bool :=
  match s with
  | EmptyStr => true
  | Str c t => (c <? 128)%N && is_ascii t
  end.

(** [s.lstrip()], [s.rstrip()], [s.strip()] *)
Fixpoint lstrip (s : str) : str :=
  match s with
  | EmptyStr => EmptyStr
  | Str c t => if isspace c then lstrip t else s
  end.

Definition rstrip (s : str) : str :=
  Str.rev (lstrip (Str.rev s)).

Definition strip (s : str) : str := rstrip (lstrip s).

(** What the code takes from the character database of Unicode, which is
    not part of it: [str.lower] and [str.upper] on a text that has a
    character from 128 on, and for such a character whether it is
    alphanumeric ([str.isalnum], read by [\w] and [\b]) and whether it is a
    decimal digit ([str.isdecimal], read by [\d]).  Upper-casing maps every
    character to one or more characters and white space to itself alone, so
    it keeps a text that is not empty and has no white space at either end
    so. *)
Record Unicode : Type := {
  lower_wide : str -> str;
  upper_wide : str -> str;
  isalnum_wide : char -> bool;
  isdecimal_wide : char -> bool;
  upper_wide_trimmed :
    forall s, s <> "" -> strip s = s ->
              upper_wide s <> "" /\ strip (upper_wide s) = upper_wide s
}.

(** [s.lower()] and [s.upper()] *)
Definition lower (U : Unicode) (s : str) : str :=
  if is_ascii s then map_chars lower_char s else lower_wide U s.

Definition upper (U : Unicode) (s : str) : str :=
  if is_ascii s then map_chars upper_char s else upper_wide U s.

(** [s.startswith(p)] *)
Definition startswith (p s : str) : bool := Str.prefix p s.

(** [s.endswith(p)] *)
Definition endswith (p s : str) : bool :=
  Str.prefix (Str.rev p) (Str.rev s).

(** [sub in s] *)
Fixpoint contains (sub s : str) : bool :=
  if Str.prefix sub s then true
  else match s with
       | EmptyStr => false
       | Str _ t => contains sub t
       end.

(** [s.replace(c, new)] for a one-character pattern [c]. *)
Fixpoint replace_char (c : char) (new : str) (s : str) : str :=
  match s with
  | EmptyStr => EmptyStr
  | Str d t =>
      if N.eqb c d then new +:+ replace_char c new t
      else Str d (replace_char c new t)
  end.

(** [s.split(c)] for a one-character separator: the pieces between the
    separators, empty pieces included, never an empty list. *)
Fixpoint split_go (c : char) (cur : str) (s : str) : list str :=
  match s with
  | EmptyStr => [Str.rev cur]
  | Str d t =>
      if N.eqb c d then Str.rev cur :: split_go c "" t
      else split_go c (Str d cur) t
  end.

Definition split (c : char) (s : str) : list str := split_go c "" s.

(** [s.split(c, 1)]: cut at the first separator only. *)
Fixpoint split1_go (c : char) (cur : str) (s : str) : list str :=
  match s with
  | EmptyStr => [Str.rev cur]
  | Str d t =>
      if N.eqb c d then [Str.rev cur; t]
      else split1_go c (Str d cur) t
  end.

Definition split1 (c : char) (s : str) : list str := split1_go c "" s.

(** [sep.join(parts)] *)
Fixpoint join (sep : str) (parts : list str) : str :=
  match parts with
  | [] => ""
  | [p] => p
  | p :: rest => p +:+ sep +:+ join sep rest
  end.

(** [re.sub(r"\s+", " ", s)]: every maximal run of white space becomes
    one space. [in_run] records that the previous character was white
    space, whose replacement has been written already. *)
Fixpoint collapse_go (in_run : bool) (s : str) : str :=
  match s with
  | EmptyStr => EmptyStr
  | Str c t =>
      if isspace c
      then (if in_run then collapse_go true t
            else Str " " (collapse_go true t))
      else Str c (collapse_go false t)
  end.

Definition collapse_ws (s : str) : str := collapse_go false s.

(** [re.split(r"[\n;]+", s)]: cut at every maximal run of line feeds and
    semicolons. *)
Definition is_cookie_sep (c : char) : bool :=
  N.eqb c LF || N.eqb c ";"%c.

Fixpoint split_runs_go (in_run : bool) (cur : str) (s : str)
  : list str :=
  match s with
  | EmptyStr => [Str.rev cur]
  | Str c t =>
      if is_cookie_sep c
      then (if in_run then split_runs_go true "" t
            else Str.rev cur :: split_runs_go true "" t)
      else split_runs_go false (Str c cur) t
  end.

Definition split_runs (s : str) : list str :=
  split_runs_go false "" s.

(** Truth value of a text: [bool(s)]. *)
Definition truthy (s : str) : bool :=
  match s with EmptyStr => false | _ => true end.

(** [x or ""] for an optional text. *)
Definition or_empty (o : option str) : str := default "" o.

(** Truth value of an optional text: [None] and [""] are false. *)
Definition truthy_opt (o : option str) : bool := truthy (or_empty o).

End PyStr.

(** ** The status normalizer

    [SegurosBolivarSession._normalize_estado]; the method reads nothing of
    the session.  [U] is the character database of Unicode. *)

Definition NO_ENCONTRADO : str := "NO ENCONTRADO".
Definition SIN_DESISTIR : str := "SIN DESISTIR".
Definition DESISTIDO : str := "DESISTIDO".
Definition REPORTADO : str := "REPORTADO".

Definition _normalize_estado (U : PyStr.Unicode) (raw : option str) : str :=
  let text := PyStr.strip (PyStr.or_empty raw) in
  if negb (PyStr.truthy text) then NO_ENCONTRADO
  else
    let lower := PyStr.lower U text in
    if Str.eqb lower "nuevo" then SIN_DESISTIR
    else if PyStr.contains "desist" lower then DESISTIDO
    else if PyStr.contains "report" lower then REPORTADO
    else if PyStr.contains "sin desist" lower
            || PyStr.contains "no ha pagado" lower
            || PyStr.contains "sin pagar" lower
    then SIN_DESISTIR
    else PyStr.upper U (PyStr.strip (PyStr.collapse_ws text)).

(** ** Helpers of [views.py] *)

(** [_normalize_cookie_header(raw)]; [raw] is [request.data.get("cookie") or ""]
    and [None] stands for an absent or null field. *)
Definition _normalize_cookie_header (U : PyStr.Unicode) (raw : option str)
  : str :=
  let value := PyStr.strip (PyStr.or_empty raw) in
  if negb (PyStr.truthy value) then ""
  else
    let value :=
      if PyStr.startswith "cookie:" (PyStr.lower U value)
      then PyStr.strip (default "" (PyStr.split1 ":"%c value !! 1))
      else value in
    let value := PyStr.replace_char PyStr.CR "" value in
    PyStr.join "; "
      (map PyStr.strip
         (filter (fun p => PyStr.truthy (PyStr.strip p) = true)
            (PyStr.split ";"%c
               (PyStr.replace_char PyStr.LF ";" value)))).

(** The value of the field [radicados] of a request.  An element of a list
    and a value of another type are given by the text [str] makes of them,
    which is all the function reads (a string is its own text). *)
Inductive radicados_value : Type :=
| RNone
| RStr (s : str)
| RList (items : list str)
| ROther (text : str).

(** The de-duplication loop of [_normalize_radicados]: [seen] is the set,
    [unique] the list built so far. *)
Fixpoint dedup_loop (seen : gset str) (unique rs : list str)
  : list str :=
  match rs with
  | [] => unique
  | r :: rest =>
      if decide (r ∈ seen) then dedup_loop seen unique rest
      else dedup_loop ({[ r ]} ∪ seen) (unique ++ [r])%list rest
  end.

(** The candidates of a text area: CR, comma and semicolon are turned into
    line feeds, and the text is cut at the line feeds. *)
Definition radicados_pieces (value : str) : list str :=
  PyStr.split PyStr.LF
    (PyStr.replace_char ";"%c (PyStr.chr PyStr.LF)
       (PyStr.replace_char ","%c (PyStr.chr PyStr.LF)
          (PyStr.replace_char PyStr.CR (PyStr.chr PyStr.LF) value))).

(** [[c.strip() for c in candidates if c.strip()]] *)
Definition stripped_nonempty (candidates : list str) : list str :=
  map PyStr.strip
    (filter (fun c => PyStr.truthy (PyStr.strip c) = true) candidates).

(** The list [radicados] before the de-duplication. *)
Definition radicados_candidates (value : radicados_value) : list str :=
  match value with
  | RNone => []
  | RStr s => stripped_nonempty (radicados_pieces s)
  | RList items => stripped_nonempty items
  | ROther text => stripped_nonempty [text]
  end.

(** [_normalize_radicados(value)] *)
Definition _normalize_radicados (value : radicados_value) : list str :=
  dedup_loop ∅ [] (radicados_candidates value).

(** ** BeautifulSoup trees

    What [BeautifulSoup(text, "html.parser")] builds: tags with a name, a
    dictionary of attributes and children, and strings.  A string is of
    the class [NavigableString] or of one of its subclasses: the parser
    makes a [Comment] of a comment, a [CData] of a CDATA section, and so on,
    and a [Script], a [Stylesheet], a [TemplateString] or a ruby string of
    the text inside the tag of that kind.  The soup itself is a tag (named
    [[document]]) whose children are the top-level nodes.  (bs4 4.11 and
    later.) *)

Module Soup.

Inductive string_class : Type :=
| PlainString
| CData
| Comment
| ProcessingInstruction
| Declaration
| Doctype
| Script
| Stylesheet
| TemplateString
| RubyTextString
| RubyParenthesisString.

#[global] Instance string_class_eq_dec : EqDecision string_class.
Proof. solve_decision. Defined.

#[local] Unset Elimination Schemes.

Inductive node : Type :=
| Tag (name : str) (attrs : list (str * str)) (contents : list node)
| NavigableString (cls : string_class) (s : str).

#[local] Set Elimination Schemes.

Definition tag_name (n : node) : option str :=
  match n with Tag nm _ _ => Some nm | NavigableString _ _ => None end.

Fixpoint assoc (k : str) (l : list (str * str)) : option str :=
  match l with
  | [] => None
  | (k', v) :: rest => if Str.eqb k k' then Some v else assoc k rest
  end.

(** [tag.get(key)] *)
Definition get (key : str) (n : node) : option str :=
  match n with
  | Tag _ a _ => assoc key a
  | NavigableString _ _ => None
  end.

(** [tag.descendants]: every node below the tag, in document order. *)
Fixpoint descendants (n : node) : list node :=
  match n with
  | Tag _ _ cs => flat_map (fun c => c :: descendants c) cs
  | NavigableString _ _ => []
  end.

Definition is_tag_named (names : list str) (n : node) : bool :=
  match n with
  | Tag nm _ _ => existsb (Str.eqb nm) names
  | NavigableString _ _ => false
  end.

(** [tag.find_all(names)] *)
Definition find_all (names : list str) (n : node) : list node :=
  List.filter (is_tag_named names) (descendants n).

Definition is_tag (n : node) : bool :=
  match n with Tag _ _ _ => true | NavigableString _ _ => false end.

(** [tag.find(f)] for a predicate [f] on tags *)
Definition find_by (f : node -> bool) (n : node) : option node :=
  List.find (fun d => is_tag d && f d) (descendants n).

(** [tag.find(names, {key: value})] *)
Definition find_attr (names : list str) (key value : str) (n : node)
  : option node :=
  List.find
    (fun d => is_tag_named names d
              && bool_decide (get key d = Some value))
    (descendants n).

End Soup.

(** ** ElementTree elements

    What [ET.fromstring] builds.  A tag that is not a string (the factory
    functions of comments and processing instructions) is [None]. *)

Module ET.

#[local] Unset Elimination Schemes.

Inductive element : Type :=
| Element (tag : option str) (attrib : list (str * str))
          (text : option str) (children : list element)
          (tail : option str).

#[local] Set Elimination Schemes.

Definition tag (e : element) : option str :=
  match e with Element t _ _ _ _ => t end.

Definition attrib_get (key : str) (e : element) : option str :=
  match e with Element _ a _ _ _ => Soup.assoc key a end.

Definition tail (e : element) : option str :=
  match e with Element _ _ _ _ tl => tl end.

(** The optional text as the list of what a generator yields for it:
    nothing for [None] and for the empty text. *)
Definition yield_text (o : option str) : list str :=
  match o with
  | Some s => if PyStr.truthy s then [s] else []
  | None => []
  end.

(** [root.iter()]: the element and everything below, in document order. *)
Fixpoint iter (e : element) : list element :=
  match e with
  | Element _ _ _ cs _ => e :: flat_map iter cs
  end.

(** [elem.itertext()] *)
Fixpoint itertext (e : element) : list str :=
  match e with
  | Element None _ _ _ _ => []
  | Element (Some _) _ tx cs _ =>
      (yield_text tx
       ++ flat_map (fun c => itertext c ++ yield_text (tail c)) cs)%list
  end.

(** [isinstance(elem.tag, str) and elem.tag.lower().endswith("update")] *)
Definition is_update (U : PyStr.Unicode) (e : element) : bool :=
  match tag e with
  | Some t => PyStr.endswith "update" (PyStr.lower U t)
  | None => false
  end.

(** [("".join(elem.itertext()) or "").strip()] *)
Definition stripped_text (e : element) : str :=
  PyStr.strip (PyStr.join "" (itertext e)).

End ET.

(** ** Exceptions and results *)

(** The exceptions the code meets, all of them subclasses of [Exception]:
    the two it names ([ValueError], [NotImplementedError]), those of the
    libraries ([requests]' [HTTPError] and transport errors, [CookieError],
    ElementTree's [ParseError], BeautifulSoup's [ParserRejectedMarkup]), the
    plain [Exception] it raises, and any other subclass a library may
    raise, given by the name of its class. *)
Inductive exn : Type :=
| ValueError (msg : str)
| NotImplementedError (msg : str)
| HTTPError (msg : str)
| RequestException (msg : str)
| CookieError (msg : str)
| ParseError (msg : str)
| ParserRejectedMarkup (msg : str)
| PyException (msg : str)
| OtherException (class_name msg : str).

(** [str(exc)] *)
Definition str_exc (e : exn) : str :=
  match e with
  | ValueError m | NotImplementedError m | HTTPError m | RequestException m
  | CookieError m | ParseError m | ParserRejectedMarkup m | PyException m
  | OtherException _ m => m
  end.

Inductive result (A : Type) : Type :=
| Ok (a : A)
| Raise (e : exn).

Arguments Ok {A} a.
Arguments Raise {A} e.

Definition is_ok {A} (r : result A) : bool :=
  match r with Ok _ => true | Raise _ => false end.

(** ** The world outside the process *)

(** The cookies of a session, as the jar of [requests] keeps them: by
    domain, then by path, then by name, each level in the order of its first
    entry. *)
Definition cookie_jar : Type := list (str * list (str * list (str * str))).

(** A call of [session.get] or [session.post]: the arguments of the
    call, with the headers and the jar of the session at that moment. *)
Record http_request : Type := {
  rq_method : str;
  rq_url : str;
  rq_params : list (str * str);
  rq_data : gmap str (option str);
  rq_headers : list (str * str);
  rq_allow_redirects : bool;
  rq_timeout : option nat;
  rq_cookies : cookie_jar
}.

(** What a call returns: the last response, after the redirects that
    [requests] has followed when the call allows them.  [jar_after] is
    what the cookie policy makes of the jar with the cookies that came
    with the responses. *)
Record http_response : Type := {
  status_code : nat;
  text : str;
  location : option str;
  jar_after : cookie_jar -> cookie_jar
}.

(** The libraries and the environment.  [transport] answers a call of
    [session.get] or [session.post] from the calls made before it and the
    call itself, or raises as [requests] does on a transport failure; the
    requests that [requests] itself sends on the way, when it follows
    redirects, are inside it.  [jar_on_error] is what a call that raises
    has made of the jar before it raised.  The parsers may raise:
    ElementTree on text that is not XML, BeautifulSoup on markup that
    [html.parser] rejects. *)
Record Oracle : Type := {
  unicode : PyStr.Unicode;
  html_parser : str -> result Soup.node;
  xml_fromstring : str -> result ET.element;
  html_unescape : str -> str;
  simple_cookie_load : str -> result (list (str * str));
  urljoin : str -> str -> str;
  transport : list http_request -> http_request -> result http_response;
  jar_on_error : list http_request -> http_request -> cookie_jar -> cookie_jar;
  http_error_message : http_response -> str;
  getenv : str -> option str;
  utcnow_isoformat : nat -> str;
  first_day_of_month : nat -> str
}.

(** What changes outside the session object: the calls of [session.get]
    and [session.post] made so far, and the number of times the clock was
    read.  No request goes out without such a call. *)
Record World : Type := {
  sent : list http_request;
  ticks : nat
}.

Definition log_request (rq : http_request) (w : World) : World :=
  {| sent := (sent w ++ [rq])%list; ticks := ticks w |}.

Definition tick (w : World) : World :=
  {| sent := sent w; ticks := S (ticks w) |}.

(** ** The session object *)

Record Session : Type := {
  headers : list (str * str);
  cookies : cookie_jar;
  cookie_header : str;
  use_server_auth : bool;
  user_id : option str;
  password : option str;
  poliza : option str;
  view_state_value : option str;
  primer_dia_mes : str;
  _is_authenticated : bool;
  index_url : str
}.

Definition set_view_state_value (v : option str) (s : Session) : Session :=
  {| headers := headers s; cookies := cookies s;
     cookie_header := cookie_header s; use_server_auth := use_server_auth s;
     user_id := user_id s; password := password s; poliza := poliza s;
     view_state_value := v; primer_dia_mes := primer_dia_mes s;
     _is_authenticated := _is_authenticated s; index_url := index_url s |}.

Definition set_is_authenticated (b : bool) (s : Session) : Session :=
  {| headers := headers s; cookies := cookies s;
     cookie_header := cookie_header s; use_server_auth := use_server_auth s;
     user_id := user_id s; password := password s; poliza := poliza s;
     view_state_value := view_state_value s;
     primer_dia_mes := primer_dia_mes s;
     _is_authenticated := b; index_url := index_url s |}.

Definition set_cookies_jar (j : cookie_jar) (s : Session) : Session :=
  {| headers := headers s; cookies := j;
     cookie_header := cookie_header s; use_server_auth := use_server_auth s;
     user_id := user_id s; password := password s; poliza := poliza s;
     view_state_value := view_state_value s;
     primer_dia_mes := primer_dia_mes s;
     _is_authenticated := _is_authenticated s; index_url := index_url s |}.

(** [d[key] = f(d.get(key))] on a dictionary kept in the order of
    insertion. *)
Fixpoint dict_update {A} (key : str) (f : option A -> A)
    (d : list (str * A)) : list (str * A) :=
  match d with
  | [] => [(key, f None)]
  | (k, v) :: rest =>
      if Str.eqb k key then (k, f (Some v)) :: rest
      else (k, v) :: dict_update key f rest
  end.

(** The jar with the cookie [name=value] of the domain and the path put
    into it. *)
Definition jar_put (domain path name value : str) (jar : cookie_jar)
  : cookie_jar :=
  dict_update domain
    (fun paths =>
       dict_update path
         (fun names => dict_update name (fun _ => value) (default [] names))
         (default [] paths))
    jar.

(** [session.cookies.set(key, value)]: a cookie without a domain, for the
    path [/]. *)
Definition jar_set (key value : str) (jar : cookie_jar) : cookie_jar :=
  jar_put "" "/" key value jar.

Definition jar_update (new : list (str * str)) (jar : cookie_jar)
  : cookie_jar :=
  fold_left (fun j kv => jar_set (fst kv) (snd kv) j) new jar.

(** ** Computations on a session

    A method runs on the session and the world, and returns or raises;
    what it changed before raising stays changed. *)

Definition state : Type := Session * World.

Definition M (A : Type) : Type := state -> result A * state.

Definition ret {A} (a : A) : M A := fun st => (Ok a, st).

Definition raise {A} (e : exn) : M A := fun st => (Raise e, st).

Definition bind {A B} (m : M A) (k : A -> M B) : M B :=
  fun st =>
    match m st with
    | (Ok a, st') => k a st'
    | (Raise e, st') => (Raise e, st')
    end.

Notation "'do' x <- m ;; k" := (bind m (fun x => k))
  (at level 10, x name, m at level 99, k at level 200).
Notation "'run' m ;; k" := (bind m (fun _ => k))
  (at level 10, m at level 99, k at level 200).

(** [try: m except Exception as exc: h exc] *)
Definition try_except {A} (m : M A) (h : exn -> M A) : M A :=
  fun st =>
    match m st with
    | (Ok a, st') => (Ok a, st')
    | (Raise e, st') => h e st'
    end.

Definition lift {A} (r : result A) : M A := fun st => (r, st).

Definition get_session : M Session := fun st => (Ok (fst st), st).

Definition modify_session (f : Session -> Session) : M unit :=
  fun st => (Ok tt, (f (fst st), snd st)).

(** ** Constants of the portal *)

Definition VIEW_STATE : str := "javax.faces.ViewState".

Definition INDEX_URL : str :=
  "https://www.segurosbolivar.com/indemnizaciones-web/pages/index.xhtml".

Definition LOGIN_URL : str :=
  "https://www.segurosbolivar.com/indemnizaciones-web/login.html".

Definition mk_request (method url : str) (params : list (str * str))
    (data : gmap str (option str)) (hdrs : list (str * str))
    (allow_redirects : bool) (timeout : option nat) : http_request :=
  {| rq_method := method; rq_url := url; rq_params := params;
     rq_data := data; rq_headers := hdrs;
     rq_allow_redirects := allow_redirects; rq_timeout := timeout;
     rq_cookies := [] |}.

Definition with_session (s : Session) (rq : http_request) : http_request :=
  {| rq_method := rq_method rq; rq_url := rq_url rq;
     rq_params := rq_params rq; rq_data := rq_data rq;
     rq_headers := (headers s ++ rq_headers rq)%list;
     rq_allow_redirects := rq_allow_redirects rq;
     rq_timeout := rq_timeout rq; rq_cookies := cookies s |}.

(** [status_code in (301, 302, 303, 307, 308)] *)
Definition is_redirect (code : nat) : bool :=
  existsb (Nat.eqb code) [301; 302; 303; 307; 308].

(** ** Regular expressions of the session module

    The patterns are patterns on text, so [\d], [\w], [\b] and [\s] read the
    classes of Unicode, and [re.I] folds case as [re] does. *)

Module Re.

Section Classes.

Context (U : PyStr.Unicode).

(** [\d]: a decimal digit. *)
Definition is_digit (c : char) : bool :=
  if (c <? 128)%N then (48 <=? c)%N && (c <=? 57)%N
  else PyStr.isdecimal_wide U c.

(** [\w]: an alphanumeric character or the underscore; a decimal digit is
    alphanumeric. *)
Definition is_word (c : char) : bool :=
  if (c <? 128)%N
  then ((48 <=? c)%N && (c <=? 57)%N)
       || ((65 <=? c)%N && (c <=? 90)%N)
       || ((97 <=? c)%N && (c <=? 122)%N)
       || (c =? 95)%N
  else PyStr.isalnum_wide U c || PyStr.isdecimal_wide U c.

(** [\b] before the rest [s] of the text, after a character that is a
    word character or not, or after nothing: the two sides differ. *)
Definition next_is_word (s : str) : bool :=
  match s with
  | EmptyStr => false
  | Str c _ => is_word c
  end.

Definition boundary (prev_word : bool) (s : str) : bool :=
  xorb prev_word (next_is_word s).

(** [\d+\b] at the start of [s]. *)
Fixpoint digits_then_boundary (seen_digit : bool) (s : str) : bool :=
  match s with
  | EmptyStr => seen_digit
  | Str c t =>
      if is_digit c then digits_then_boundary true t
      else seen_digit && negb (is_word c)
  end.

(** [re.search] of a pattern that starts with [\b]: [here] is tried at
    every position, knowing whether the character before it is a word
    character. *)
Fixpoint search_at_boundary (here : bool -> str -> bool) (prev_word : bool)
    (s : str) : bool :=
  if here prev_word s then true
  else match s with
       | EmptyStr => false
       | Str c t => search_at_boundary here (is_word c) t
       end.

End Classes.

(** A character of the text matches the lower-case letter [p] of a
    pattern compiled with [re.I]: its lower-case form is [p], or the dotless
    i (U+0131) for [i], or the long s (U+017F) for [s].  The characters
    whose lower-case form is a letter below 128 are the letter, its capital,
    the capital I with a dot (U+0130) for [i] and the Kelvin sign (U+212A)
    for [k]. *)
Definition matches_letter (p c : char) : bool :=
  N.eqb (PyStr.lower_char c) p
  || N.eqb p "i"%c && (N.eqb c 304 || N.eqb c 305)
  || N.eqb p "s"%c && N.eqb c 383
  || N.eqb p "k"%c && N.eqb c 8490.

Fixpoint drop_prefix (p s : str) : option str :=
  match p, s with
  | EmptyStr, _ => Some s
  | Str a p', Str b s' =>
      if N.eqb a b then drop_prefix p' s' else None
  | Str _ _, EmptyStr => None
  end.

(** The same for a word of lower-case letters in a pattern compiled with
    [re.I]. *)
Fixpoint drop_word (p s : str) : option str :=
  match p, s with
  | EmptyStr, _ => Some s
  | Str a p', Str b s' =>
      if matches_letter a b then drop_word p' s' else None
  | Str _ _, EmptyStr => None
  end.

(** The last character of the text that a word of the pattern has
    matched. *)
Fixpoint last_matched (p s : str) (prev : option char) : option char :=
  match p, s with
  | Str _ p', Str b s' => last_matched p' s' (Some b)
  | _, _ => prev
  end.

(** [re.search] of a pattern without anchors: [here] at every position. *)
Fixpoint search (here : str -> bool) (s : str) : bool :=
  if here s then true
  else match s with
       | EmptyStr => false
       | Str _ t => search here t
       end.

(** [re.fullmatch(r"j_idt\d+", name) or re.search(r"\bj_idt\d+\b", name)];
    a full match is a match of the second pattern too.  The letter [j] is
    a word character, so the first [\b] asks that no word character stands
    before it. *)
Definition j_idt (U : PyStr.Unicode) (name : str) : bool :=
  search_at_boundary U
    (fun prev_word s =>
       negb prev_word
       && match drop_prefix "j_idt" s with
          | Some rest => digits_then_boundary U false rest
          | None => false
          end)
    false name.

(** [re.compile(r"estado\s*siniestro", flags=re.I).search] *)
Definition estado_siniestro (s : str) : bool :=
  search
    (fun s => match drop_word "estado" s with
              | Some rest =>
                  match drop_word "siniestro" (PyStr.lstrip rest) with
                  | Some _ => true
                  | None => false
                  end
              | None => false
              end)
    s.

(** [\bword\b] at the start of [s], for a word of lower-case letters in a
    pattern compiled with [re.I]. *)
Definition word_here (U : PyStr.Unicode) (w : str) (prev_word : bool)
    (s : str) : bool :=
  boundary U prev_word s
  && match drop_word w s, last_matched w s None with
     | Some rest, Some last => boundary U (is_word U last) rest
     | _, _ => false
     end.

(** [re.compile(r"\b(inquilino|asegurado)\b", flags=re.I).search] *)
Definition inquilino_asegurado (U : PyStr.Unicode) (s : str) : bool :=
  search_at_boundary U
    (fun prev_word s =>
       word_here U "inquilino" prev_word s
       || word_here U "asegurado" prev_word s)
    false s.

End Re.

(** ** More of BeautifulSoup: [.string], [get_text], positions *)

Module SoupText.
Import Soup.

(** [tag.string]: the string of a tag with exactly one child, followed
    through single children; a string of any class. *)
Fixpoint node_string (n : node) : option str :=
  match n with
  | NavigableString _ s => Some s
  | Tag _ _ [c] => node_string c
  | Tag _ _ _ => None
  end.

(** The classes of the strings that [get_text] of a tag reads: those of
    its kind for a tag that holds a script, a style sheet, a template or
    ruby text, plain strings and CDATA sections for another tag. *)
Definition interesting_string_types (name : str) : list string_class :=
  if Str.eqb name "rt" then [RubyTextString]
  else if Str.eqb name "rp" then [RubyParenthesisString]
  else if Str.eqb name "style" then [Stylesheet]
  else if Str.eqb name "script" then [Script]
  else if Str.eqb name "template" then [TemplateString]
  else [PlainString; CData].

(** What [get_text(strip=True)] keeps of a node below the tag. *)
Definition stripped_string (types : list string_class) (d : node)
  : option str :=
  match d with
  | NavigableString cls s =>
      if bool_decide (cls ∈ types)
      then let t := PyStr.strip s in
           if PyStr.truthy t then Some t else None
      else None
  | Tag _ _ _ => None
  end.

(** [tag.get_text(" ", strip=True)] *)
Definition get_text_strip (n : node) : str :=
  match n with
  | Tag name _ _ =>
      PyStr.join " "
        (omap (stripped_string (interesting_string_types name))
           (descendants n))
  | NavigableString _ _ =>
      PyStr.or_empty (stripped_string [PlainString; CData] n)
  end.

(** The first position [k] with [lo <= k < hi] whose node satisfies [f]. *)
Definition find_between (f : node -> bool) (lo hi : nat) (l : list node)
  : option nat :=
  match list_find (fun d => f d = true) (drop lo (take hi l)) with
  | Some (k, _) => Some (lo + k)
  | None => None
  end.

End SoupText.

(** ** [SegurosBolivarSession] *)

Section SegurosBolivarSession.

Context (E : Oracle).

(** [self.session.get/post]: the call is made with the headers and the
    jar of the session and is recorded whether it returns or raises; when
    it returns, the jar is what the responses have made of it. *)
Definition send (rq : http_request) : M http_response :=
  fun st =>
    let s := fst st in
    let w := snd st in
    let rq' := with_session s rq in
    match transport E (sent w) rq' with
    | Ok resp =>
        (Ok resp,
         (set_cookies_jar (jar_after resp (cookies s)) s,
          log_request rq' w))
    | Raise e =>
        (Raise e,
         (set_cookies_jar (jar_on_error E (sent w) rq' (cookies s)) s,
          log_request rq' w))
    end.

(** [resp.raise_for_status()] *)
Definition raise_for_status (resp : http_response) : M unit :=
  if ((400 <=? status_code resp) && (status_code resp <? 600))%nat
  then raise (HTTPError (http_error_message E resp))
  else ret tt.

(** *** Cookies *)

(** The text that [_apply_cookie_header] gives to [SimpleCookie.load]:
    the variable [value] at that line, for a header that is not blank. *)
Definition cookie_value (cookie_header_arg : str) : str :=
  let value := PyStr.strip cookie_header_arg in
  let value :=
    if PyStr.startswith "cookie:" (PyStr.lower (unicode E) value)
    then PyStr.strip (default "" (PyStr.split1 ":"%c value !! 1))
    else value in
  let value := PyStr.replace_char PyStr.CR "" value in
  PyStr.join "; "
    (map PyStr.strip
       (filter (fun p => PyStr.truthy (PyStr.strip p) = true)
          (PyStr.split_runs value))).

Definition _apply_cookie_header (cookie_header_arg : str) : M unit :=
  if negb (PyStr.truthy (PyStr.strip cookie_header_arg)) then ret tt
  else
    do parsed <- lift (simple_cookie_load E (cookie_value cookie_header_arg)) ;;
    modify_session
      (fun s => set_cookies_jar (jar_update parsed (cookies s)) s).

(** [SegurosBolivarSession(cookie_header, use_server_auth=...)].  The
    clock is read once, for [primer_dia_mes]. *)
Definition __init__ (cookie_header_arg : option str)
    (use_server_auth_arg : bool) (w : World) : result Session * World :=
  let self :=
    {| headers := [("User-Agent", "Mozilla/5.0")];
       cookies := [];
       cookie_header := PyStr.strip (PyStr.or_empty cookie_header_arg);
       use_server_auth := use_server_auth_arg;
       user_id := getenv E "LIBERTADOR_USER";
       password := getenv E "LIBERTADOR_PASS";
       poliza := getenv E "LIBERTADOR_POLIZA";
       view_state_value := None;
       primer_dia_mes := first_day_of_month E (ticks w);
       _is_authenticated := false;
       index_url := INDEX_URL |} in
  let body :=
    if PyStr.truthy (cookie_header self)
    then _apply_cookie_header (cookie_header self)
    else ret tt in
  match body (self, tick w) with
  | (Ok _, (s, w')) => (Ok s, w')
  | (Raise e, (_, w')) => (Raise e, w')
  end.

(** *** Server-side login *)

(** [for _ in range(3)]: follow a redirect while there is one with a
    location; [n] is the number of rounds left. *)
Fixpoint follow_redirects (n : nat) (r : http_response) : M http_response :=
  match n with
  | 0 => ret r
  | S n' =>
      if is_redirect (status_code r)
      then
        if PyStr.truthy_opt (location r)
        then
          do r' <- send (mk_request "GET" (PyStr.or_empty (location r))
                           [] ∅ [] false None) ;;
          follow_redirects n' r'
        else ret r
      else follow_redirects n' r
  end.

Definition authenticate : M unit :=
  do self <- get_session ;;
  run send (mk_request "POST"
              "https://registro.segurosbolivar.com/nidp/idff/sso"
              [("id", "620"); ("sid", "0"); ("option", "credential");
               ("target", LOGIN_URL)]
              (<["Num_Documento" := user_id self]>
                 (<["Ecom_User_ID" := user_id self]>
                    (<["Ecom_Password" := password self]>
                       (<["form" := Some "INGRESA"]> ∅))))
              [] true None) ;;
  do r <- send (mk_request "GET" LOGIN_URL [] ∅ [] false None) ;;
  run follow_redirects 3 r ;;
  run send (mk_request "POST"
              "https://www.segurosbolivar.com/indemnizaciones-web/Ingreso"
              [("nov-ss-ff-silent", "");
               ("mastercdnff-indemnizacion-web3310", "")]
              (<["login" := user_id self]>
                 (<["rol" := Some "WSINMOB01"]>
                    (<["nov-ss-ff-Npst" :=
                         Some "mastercdnff-indemnizacion-web3310"]> ∅)))
              [] true None) ;;
  do landing_response <-
    send (mk_request "GET" INDEX_URL [] ∅ [] false None) ;;
  do final_response <-
    (if is_redirect (status_code landing_response)
     then
       if PyStr.truthy_opt (location landing_response)
       then send (mk_request "GET"
                    (PyStr.or_empty (location landing_response))
                    [] ∅ [] true None)
       else raise (PyException "Redirect sin Location en landing.")
     else ret landing_response) ;;
  do soup <- lift (html_parser E (text final_response)) ;;
  match Soup.find_attr ["input"] "name" VIEW_STATE soup with
  | None => raise (PyException "No se encontró ViewState.")
  | Some view_state_input =>
      modify_session
        (set_view_state_value (Soup.get "value" view_state_input))
  end.

Definition ensure_authenticated : M unit :=
  do self <- get_session ;;
  if _is_authenticated self then ret tt
  else if PyStr.truthy (cookie_header self)
  then modify_session (set_is_authenticated true)
  else if negb (use_server_auth self)
  then raise (ValueError
    "No hay cookie de sesión. Envía 'cookie' o activa 'use_server_auth'.")
  else if negb (PyStr.truthy_opt (user_id self))
          || negb (PyStr.truthy_opt (password self))
  then raise (ValueError
    "Faltan variables de entorno LIBERTADOR_USER/LIBERTADOR_PASS para autenticar.")
  else
    run authenticate ;;
    modify_session (set_is_authenticated true).

(** *** The state token and the partial responses *)

(** The loop over [root.iter()] of [_refresh_view_state_from_html]: the
    text of the first update element whose id holds the token name and
    whose stripped text is not empty. *)
Definition partial_response_view_state (root : ET.element) : option str :=
  head
    (omap
       (fun elem =>
          if negb (ET.is_update (unicode E) elem) then None
          else
            let elem_id :=
              PyStr.lower (unicode E)
                (PyStr.or_empty (ET.attrib_get "id" elem)) in
            if PyStr.contains "javax.faces.viewstate" elem_id
            then
              let value := ET.stripped_text elem in
              if PyStr.truthy value then Some value else None
            else None)
       (ET.iter root)).

(** [_refresh_view_state_from_html]; the first part answers whether the
    method has returned from inside the [try].  The HTML parser is called
    after the [try], outside it.  ([html_text or ""] is [html_text] for a
    text.) *)
Definition _refresh_view_state_from_html (html_text : str) : M unit :=
  let text := html_text in
  let lower := PyStr.lower (unicode E) text in
  do returned <-
    (if PyStr.contains "<partial-response" lower
     then
       try_except
         (do root <- lift (xml_fromstring E text) ;;
          match partial_response_view_state root with
          | Some value =>
              run modify_session (set_view_state_value (Some value)) ;;
              ret true
          | None => ret false
          end)
         (fun _ => ret false)
     else ret false) ;;
  if returned : bool then ret tt
  else
    do soup <- lift (html_parser E text) ;;
    match Soup.find_attr ["input"] "name" VIEW_STATE soup with
    | Some view_state_input =>
        if PyStr.truthy_opt (Soup.get "value" view_state_input)
        then modify_session
               (set_view_state_value (Soup.get "value" view_state_input))
        else ret tt
    | None => ret tt
    end.

(** The chunks of [_unwrap_jsf_partial_response]. *)
Definition update_chunks (root : ET.element) : list str :=
  omap
    (fun elem =>
       if negb (ET.is_update (unicode E) elem) then None
       else
         let chunk := ET.stripped_text elem in
         if negb (PyStr.truthy chunk) then None
         else Some (html_unescape E chunk))
    (ET.iter root).

(** [_unwrap_jsf_partial_response]; only [ET.fromstring] is inside the
    [try]. *)
Definition _unwrap_jsf_partial_response (response_text : str) : M str :=
  let text := response_text in
  let lower := PyStr.lower (unicode E) text in
  if negb (PyStr.contains "<partial-response" lower) then ret text
  else
    do parsed <-
      try_except
        (do root <- lift (xml_fromstring E text) ;; ret (Some root))
        (fun _ => ret None) ;;
    match parsed with
    | None => ret text
    | Some root =>
        let chunks := update_chunks root in
        match chunks with
        | [] => ret text
        | _ => ret (PyStr.join (PyStr.chr PyStr.LF) chunks)
        end
    end.

Definition _get_index : M str :=
  do self <- get_session ;;
  do resp <-
    send (mk_request "GET" (index_url self) [] ∅ [] true (Some 30)) ;;
  run raise_for_status resp ;;
  run _refresh_view_state_from_html (text resp) ;;
  ret (text resp).

(** *** The search form *)

(** The test of the first loop of [_find_search_form]: the form holds an
    input or a textarea whose name or id ends with "busqueda". *)
Definition is_busqueda_field (tag : Soup.node) : bool :=
  Soup.is_tag_named ["input"; "textarea"] tag
  && (PyStr.endswith "busqueda"
        (PyStr.lower (unicode E) (PyStr.or_empty (Soup.get "name" tag)))
      || PyStr.endswith "busqueda"
           (PyStr.lower (unicode E) (PyStr.or_empty (Soup.get "id" tag)))).

Definition has_busqueda (form : Soup.node) : bool :=
  bool_decide (Soup.find_by is_busqueda_field form <> None).

Definition is_form_index (form : Soup.node) : bool :=
  let fid := PyStr.strip (PyStr.or_empty (Soup.get "id" form)) in
  let fname := PyStr.strip (PyStr.or_empty (Soup.get "name" form)) in
  Str.eqb fid "FormIndex" || Str.eqb fname "FormIndex".

Definition posts_to_index (form : Soup.node) : bool :=
  let action :=
    PyStr.lower (unicode E) (PyStr.or_empty (Soup.get "action" form)) in
  PyStr.endswith "/pages/index.xhtml" action
  || PyStr.endswith "index.xhtml" action.

Definition has_view_state (form : Soup.node) : bool :=
  bool_decide (Soup.find_attr ["input"] "name" VIEW_STATE form <> None).

(** [_find_search_form] on the parsed page. *)
Definition find_search_form_in (soup : Soup.node) : option Soup.node :=
  let forms := Soup.find_all ["form"] soup in
  match forms with
  | [] => None
  | first_form :: _ =>
      let busqueda_forms := List.filter has_busqueda forms in
      match busqueda_forms with
      | first_busqueda :: _ =>
          match List.find is_form_index busqueda_forms with
          | Some form => Some form
          | None =>
              match List.find posts_to_index busqueda_forms with
              | Some form => Some form
              | None => Some first_busqueda
              end
          end
      | [] =>
          match List.find has_view_state forms with
          | Some form => Some form
          | None => Some first_form
          end
      end
  end.

(** [_find_search_form]: the parser, which may raise, and the choice. *)
Definition _find_search_form (html_text : str) : M (option Soup.node) :=
  do soup <- lift (html_parser E html_text) ;;
  ret (find_search_form_in soup).

(** *** The fields of the answer *)

Definition is_datos_solicitud (tag : Soup.node) : bool :=
  Soup.is_tag_named ["table"] tag
  && PyStr.endswith "datossolicitud"
       (PyStr.lower (unicode E)
          (PyStr.strip (PyStr.or_empty (Soup.get "id" tag)))).

(** [_extract_label_value_from_datos_solicitud].  The nodes of the page
    are numbered in document order; the table is at [pos] and its
    descendants follow it, while [find_next] goes on to the end of the
    page. *)
Definition _extract_label_value_from_datos_solicitud
    (page : list Soup.node) (pos : nat) (datos_table : Soup.node)
    (label_pattern : str -> bool) : option str :=
  let inside := length (Soup.descendants datos_table) in
  match SoupText.find_between
          (fun d => Soup.is_tag_named ["label"] d
                    && match SoupText.node_string d with
                       | Some s => label_pattern s
                       | None => false
                       end)
          (S pos) (S pos + inside) page with
  | None => None
  | Some label =>
      match SoupText.find_between (Soup.is_tag_named ["label"])
              (S label) (length page) page with
      | None => None
      | Some next_label =>
          match page !! next_label with
          | Some tag =>
              let value := SoupText.get_text_strip tag in
              if PyStr.truthy value then Some value else None
          | None => None
          end
      end
  end.

Definition _extract_info_from_html (html_text : str)
  : M (option str * option str) :=
  do candidate_markup <- _unwrap_jsf_partial_response html_text ;;
  do soup <- lift (html_parser E candidate_markup) ;;
  let page := Soup.descendants soup in
  match list_find (fun d => is_datos_solicitud d = true) page with
  | None => ret (None, None)
  | Some (pos, datos_table) =>
      let estado_raw :=
        _extract_label_value_from_datos_solicitud
          page pos datos_table Re.estado_siniestro in
      let asegurado :=
        _extract_label_value_from_datos_solicitud
          page pos datos_table (Re.inquilino_asegurado (unicode E)) in
      ret (estado_raw, asegurado)
  end.

(** *** The payload of the search *)

(** [a or b] on optional strings. *)
Definition py_or (a b : option str) : option str :=
  if PyStr.truthy_opt a then a else b.

(** The first loop of [get_info_for_radicado]: the hidden inputs of the
    form, the token field left out. *)
Definition hidden_step (payload : gmap str str) (inp : Soup.node)
  : gmap str str :=
  let name := Soup.get "name" inp in
  if negb (PyStr.truthy_opt name) then payload
  else
    let itype :=
      PyStr.lower (unicode E) (PyStr.or_empty (Soup.get "type" inp)) in
    let value := PyStr.or_empty (Soup.get "value" inp) in
    if Str.eqb (PyStr.or_empty name) VIEW_STATE then payload
    else if Str.eqb itype "hidden"
    then <[PyStr.or_empty name := value]> payload
    else payload.

Definition hidden_fields (form : Soup.node) : gmap str str :=
  fold_left hidden_step (Soup.find_all ["input"] form) ∅.

(** The second loop: the name of the search field. *)
Definition mentions_busqueda (inp : Soup.node) : bool :=
  PyStr.contains "busqueda"
    (PyStr.lower (unicode E) (PyStr.or_empty (Soup.get "name" inp) +:+ " "
                    +:+ PyStr.or_empty (Soup.get "id" inp))).

Definition find_busqueda_name (form : Soup.node) : str :=
  let busqueda_name :=
    match List.find mentions_busqueda
            (Soup.find_all ["input"; "textarea"] form) with
    | Some inp => py_or (Soup.get "name" inp) (Soup.get "id" inp)
    | None => None
    end in
  if negb (PyStr.truthy_opt busqueda_name) then "busqueda"
  else PyStr.or_empty busqueda_name.

(** The third loop: the candidates for the submit control. *)
Definition submit_candidate (btn : Soup.node) : option (str * str) :=
  let btype := PyStr.lower (unicode E) (PyStr.or_empty (Soup.get "type" btn)) in
  if Soup.is_tag_named ["input"] btn
     && PyStr.truthy btype
     && negb (Str.eqb btype "submit" || Str.eqb btype "image")
  then None
  else
    let name := py_or (Soup.get "name" btn) (Soup.get "id" btn) in
    if negb (PyStr.truthy_opt name) then None
    else
      let text_value :=
        if PyStr.truthy_opt (Soup.get "value" btn)
        then PyStr.or_empty (Soup.get "value" btn)
        else SoupText.get_text_strip btn in
      Some (PyStr.or_empty name, text_value).

Definition submit_candidates (form : Soup.node) : list (str * str) :=
  omap submit_candidate (Soup.find_all ["button"; "input"] form).

Definition has_search_keyword (c : str * str) : bool :=
  let hay := PyStr.lower (unicode E) (fst c +:+ " " +:+ snd c) in
  existsb (fun k => PyStr.contains k hay)
    ["buscar"; "busca"; "consulta"; "consult"; "search"].

Definition choose_submit (candidates : list (str * str))
  : option str :=
  match List.find has_search_keyword candidates with
  | Some c => Some (fst c)
  | None =>
      match List.find (fun c => Re.j_idt (unicode E) (fst c)) candidates with
      | Some c => Some (fst c)
      | None =>
          match candidates with
          | [c] => Some (fst c)
          | _ => None
          end
      end
  end.

(** The dictionary [payload] at the moment it is posted; [view_state] is
    [self.view_state_value], which no statement between the test after
    [_get_index] and the assignment writes. *)
Definition build_payload (form : Soup.node) (view_state solicitud : str)
  : gmap str str :=
  let payload := hidden_fields form in
  let payload := <[find_busqueda_name form := solicitud]> payload in
  let payload := <[VIEW_STATE := view_state]> payload in
  match choose_submit (submit_candidates form) with
  | Some submit_name => <[submit_name := submit_name]> payload
  | None => payload
  end.

(** *** The query

    [get_info_for_radicado]; the endpoint passes a string, for which
    [radicado or ""] is [radicado]. *)

Definition get_info_for_radicado (radicado : str)
  : M (str * str * option str) :=
  let solicitud := PyStr.strip radicado in
  if negb (PyStr.truthy solicitud)
  then ret (NO_ENCONTRADO, NO_ENCONTRADO, None)
  else
    run ensure_authenticated ;;
    do index_html <- _get_index ;;
    do self <- get_session ;;
    if negb (PyStr.truthy_opt (view_state_value self))
    then raise (PyException
                  "No se encontró javax.faces.ViewState en index.xhtml")
    else
      do found <- _find_search_form index_html ;;
      match found with
      | None =>
          raise (PyException
                   "No se encontró formulario de consulta en index.xhtml")
      | Some form =>
          let action :=
            PyStr.or_empty
              (py_or (Soup.get "action" form) (Some (index_url self))) in
          let post_url := urljoin E (index_url self) action in
          let payload :=
            build_payload form
              (PyStr.or_empty (view_state_value self)) solicitud in
          do resp <-
            send (mk_request "POST" post_url [] (Some <$> payload)
                    [("Referer", index_url self)] true (Some 30)) ;;
          run raise_for_status resp ;;
          run _refresh_view_state_from_html (text resp) ;;
          do info <- _extract_info_from_html (text resp) ;;
          let estado_raw := fst info in
          let asegurado := snd info in
          if negb (PyStr.truthy_opt estado_raw)
          then ret (NO_ENCONTRADO, NO_ENCONTRADO, asegurado)
          else ret (PyStr.or_empty estado_raw,
                    _normalize_estado (unicode E) estado_raw, asegurado)
      end.

Definition get_status_for_radicado (radicado : str) : M str :=
  do info <- get_info_for_radicado radicado ;;
  ret (snd (fst info)).

End SegurosBolivarSession.

(** ** The endpoint [bolivar_radicados] of [views.py] *)

Record BolivarResult : Type := {
  radicado : str;
  ok : bool;
  estado_raw : option str;
  estado_normalizado : option str;
  asegurado : option str;
  consulted_at : str;
  error : option str
}.

(** [_to_result_dict]: the dictionary has the seven fields of the result. *)
Definition _to_result_dict (r : BolivarResult) : BolivarResult :=
  {| radicado := radicado r; ok := ok r; estado_raw := estado_raw r;
     estado_normalizado := estado_normalizado r; asegurado := asegurado r;
     consulted_at := consulted_at r; error := error r |}.

(** [request.data]: the three fields the endpoint reads.  [rq_cookie] is
    [None] for an absent or null field; [rq_use_server_auth] is the truth
    value of the field. *)
Record batch_request : Type := {
  rq_cookie : option str;
  rq_radicados : radicados_value;
  rq_use_server_auth : bool
}.

Inductive response : Type :=
| BadRequest (detail : str)
| BatchResponse (fetched_at : str) (count : nat)
                (results : list BolivarResult).

(** The results and the count of a response; a rejection has neither. *)
Definition response_results (r : response) : list BolivarResult :=
  match r with
  | BadRequest _ => []
  | BatchResponse _ _ rs => rs
  end.

Definition response_count (r : response) : option nat :=
  match r with
  | BadRequest _ => None
  | BatchResponse _ c _ => Some c
  end.

Section Views.

Context (E : Oracle).

(** The result appended by either [except] clause. *)
Definition failed_result (rad at_ : str) (exc : exn) : BolivarResult :=
  {| radicado := rad; ok := false; estado_raw := None;
     estado_normalizado := Some NO_ENCONTRADO; asegurado := None;
     consulted_at := at_; error := Some (str_exc exc) |}.

(** One round of the loop [for radicado in radicados]: the clock is read,
    the query runs, and one result is made of its value or of its
    exception. *)
Definition query_one (rad : str) (st : state) : BolivarResult * state :=
  let at_ := utcnow_isoformat E (ticks (snd st)) in
  match get_info_for_radicado E rad (fst st, tick (snd st)) with
  | (Ok (raw, normalizado, aseg), st') =>
      ({| radicado := rad; ok := true; estado_raw := Some raw;
          estado_normalizado := Some normalizado; asegurado := aseg;
          consulted_at := at_; error := None |}, st')
  | (Raise (NotImplementedError m), st') =>
      (failed_result rad at_ (NotImplementedError m), st')
  | (Raise exc, st') => (failed_result rad at_ exc, st')
  end.

Fixpoint batch_loop (radicados : list str) (results : list BolivarResult)
    (st : state) : list BolivarResult * state :=
  match radicados with
  | [] => (results, st)
  | rad :: rest =>
      let (res, st') := query_one rad st in
      batch_loop rest (results ++ [res])%list st'
  end.

Definition bolivar_radicados (request : batch_request) (w : World)
  : response * World :=
  let cookie_header :=
    _normalize_cookie_header (unicode E) (rq_cookie request) in
  let radicados := _normalize_radicados (rq_radicados request) in
  let use_server_auth := rq_use_server_auth request in
  if negb (PyStr.truthy cookie_header) && negb use_server_auth
  then (BadRequest
          "Falta 'cookie' o 'use_server_auth=true'. Este sistema solo consulta; no ejecuta acciones críticas.",
        w)
  else
    match radicados with
    | [] =>
        (BadRequest "Falta 'radicados' (lista o texto con radicados).", w)
    | _ :: _ =>
        let fetched_at := utcnow_isoformat E (ticks w) in
        let w := tick w in
        match __init__ E
                (if PyStr.truthy cookie_header then Some cookie_header
                 else None)
                use_server_auth w with
        | (Raise exc, w') =>
            (BadRequest ("No se pudo inicializar sesión: " +:+ str_exc exc),
             w')
        | (Ok session, w') =>
            let (results, st) := batch_loop radicados [] (session, w') in
            (BatchResponse fetched_at (length results)
               (map _to_result_dict results),
             snd st)
        end
    end.

End Views.

(** ** Statements of the design, for comparison with the code *)

(** The form resolver of the design: a ranked list of rules, the first
    match winning.  The search forms are the forms with an input or a text
    area whose name or id ends with the marker; the rules are the search
    forms that are the canonical form, the search forms that post to the
    landing page, the search forms, the forms with a state token, all the
    forms.  The four tests are parameters. *)
Definition resolve_by_priority
    (is_search_form is_canonical posts_to_landing has_token
       : Soup.node -> bool)
    (forms : list Soup.node) : option Soup.node :=
  let searchable := List.filter is_search_form forms in
  head (List.filter is_canonical searchable
        ++ List.filter posts_to_landing searchable
        ++ searchable
        ++ List.filter has_token forms
        ++ forms)%list.

(** The tags of the names below [form], in document order. *)
Definition tags_below (names : list str) (form : Soup.node)
  : list Soup.node :=
  List.filter (Soup.is_tag_named names) (Soup.descendants form).

(** The attribute, or the empty text for an attribute that is absent. *)
Definition attribute (key : str) (tag : Soup.node) : str :=
  match Soup.get key tag with
  | Some v => v
  | None => ""
  end.

(** The tests as the design words them: the name or the id of a field
    ends with "busqueda"; the id or the name of the form is exactly
    "FormIndex"; the action ends with "index.xhtml"; the form holds an input
    named "javax.faces.ViewState". *)
Definition worded_search_form (form : Soup.node) : bool :=
  existsb
    (fun field => PyStr.endswith "busqueda" (attribute "name" field)
                  || PyStr.endswith "busqueda" (attribute "id" field))
    (tags_below ["input"; "textarea"] form).

Definition worded_canonical (form : Soup.node) : bool :=
  Str.eqb (attribute "id" form) "FormIndex"
  || Str.eqb (attribute "name" form) "FormIndex".

Definition worded_posts_to_landing (form : Soup.node) : bool :=
  PyStr.endswith "index.xhtml" (attribute "action" form).

Definition worded_has_token (form : Soup.node) : bool :=
  existsb
    (fun field => bool_decide (Soup.get "name" field = Some VIEW_STATE))
    (tags_below ["input"] form).

(** The tests amended: the name and the id of a field and the action are
    read in lower case, the id and the name of the form trimmed. *)
Definition amended_search_form (U : PyStr.Unicode) (form : Soup.node)
  : bool :=
  existsb
    (fun field =>
       PyStr.endswith "busqueda" (PyStr.lower U (attribute "name" field))
       || PyStr.endswith "busqueda" (PyStr.lower U (attribute "id" field)))
    (tags_below ["input"; "textarea"] form).

Definition amended_canonical (form : Soup.node) : bool :=
  Str.eqb (PyStr.strip (attribute "id" form)) "FormIndex"
  || Str.eqb (PyStr.strip (attribute "name" form)) "FormIndex".

Definition amended_posts_to_landing (U : PyStr.Unicode) (form : Soup.node)
  : bool :=
  PyStr.endswith "index.xhtml" (PyStr.lower U (attribute "action" form)).

(** A form whose attributes are written as the worded tests read them:
    the id and the name of the form have no white space around them, and
    the action of the form and the names and ids of its fields are in lower
    case. *)
Definition plainly_written (U : PyStr.Unicode) (form : Soup.node) : Prop :=
  PyStr.strip (attribute "id" form) = attribute "id" form
  /\ PyStr.strip (attribute "name" form) = attribute "name" form
  /\ PyStr.lower U (attribute "action" form) = attribute "action" form
  /\ forall field,
      In field (tags_below ["input"; "textarea"] form) ->
      PyStr.lower U (attribute "name" field) = attribute "name" field
      /\ PyStr.lower U (attribute "id" field) = attribute "id" field.

(** A non-empty state token [v] is found in a document: in an update
    element of a partial response whose id holds the token name, or as the
    value of an input named after the token in the page. *)
Definition token_in_document (E : Oracle) (html_text v : str) : Prop :=
  (exists root elem,
      xml_fromstring E html_text = Ok root
      /\ In elem (ET.iter root)
      /\ ET.is_update (unicode E) elem = true
      /\ PyStr.contains "javax.faces.viewstate"
           (PyStr.lower (unicode E)
              (PyStr.or_empty (ET.attrib_get "id" elem))) = true
      /\ ET.stripped_text elem = v)
  \/ (exists soup inp,
         html_parser E html_text = Ok soup
         /\ In inp (Soup.descendants soup)
         /\ Soup.is_tag_named ["input"] inp = true
         /\ Soup.get "name" inp = Some VIEW_STATE
         /\ Soup.get "value" inp = Some v).

(** The state after the queries for the identifiers of a list, one after
    the other, each after a reading of the clock. *)
Fixpoint after_queries (E : Oracle) (radicados : list str) (st : state)
  : state :=
  match radicados with
  | [] => st
  | rad :: rest =>
      after_queries E rest
        (snd (get_info_for_radicado E rad (fst st, tick (snd st))))
  end.

(** Cutting a text at every character of a class. *)
Fixpoint split_any_go (sep : char -> bool) (cur s : str) : list str :=
  match s with
  | EmptyStr => [Str.rev cur]
  | Str d t =>
      if sep d then Str.rev cur :: split_any_go sep "" t
      else split_any_go sep (Str d cur) t
  end.

Definition split_any (sep : char -> bool) (s : str) : list str :=
  split_any_go sep "" s.

(** The separators of a block of identifiers: CR, LF, comma, semicolon. *)
Definition is_radicado_sep (c : char) : bool :=
  N.eqb c PyStr.CR || N.eqb c PyStr.LF
  || N.eqb c ","%c || N.eqb c ";"%c.

(** The identifiers as they are written in a request, before trimming. *)
Definition written_identifiers (value : radicados_value) : list str :=
  match value with
  | RNone => []
  | RStr s => split_any is_radicado_sep s
  | RList items => items
  | ROther text => [text]
  end.

(** The distinct elements of a list, each at its first occurrence. *)
Fixpoint first_seen (l : list str) : list str :=
  match l with
  | [] => []
  | x :: rest =>
      x :: List.filter (fun y => negb (Str.eqb y x)) (first_seen rest)
  end.

(** The distinct non-empty trimmed identifiers of a request, in first-seen
    order. *)
Definition distinct_identifiers (value : radicados_value) : list str :=
  first_seen
    (List.filter PyStr.truthy (map PyStr.strip (written_identifiers value))).

(** [x] is met in [l] before [y] is: some occurrence of [x] has no [y]
    before it. *)
Definition seen_before (x y : str) (l : list str) : Prop :=
  exists p q, l = (p ++ x :: q)%list /\ ~ In y p.

(** [x] stands before [y] in [l]. *)
Definition stands_before (x y : str) (l : list str) : Prop :=
  exists l1 l2 l3, l = (l1 ++ x :: l2 ++ y :: l3)%list.

(** A text that is empty or made of white space only. *)
Fixpoint all_space (s : str) : bool :=
  match s with
  | EmptyStr => true
  | Str c t => PyStr.isspace c && all_space t
  end.

(** ** A small portal, for running the code

    Two pages and one partial response stand for what the portal sends;
    the parser oracles know them by their text. *)

Module Fixture.
Import Soup.

Definition document (contents : list node) : node :=
  Tag "[document]" [] contents.

(** The landing page: a menu form, the search form [FormIndex] and a
    dialog form, each with its own state token. *)
Definition menu_form : node :=
  Tag "form" [("id", "menuForm"); ("action", "/indemnizaciones-web/menu")]
    [Tag "input" [("type", "hidden"); ("name", VIEW_STATE);
                  ("value", "tok-menu")] []].

Definition form_index : node :=
  Tag "form" [("id", "FormIndex"); ("name", "FormIndex");
              ("action", "/indemnizaciones-web/pages/index.xhtml")]
    [Tag "input" [("type", "hidden"); ("name", "FormIndex");
                  ("value", "FormIndex")] [];
     Tag "input" [("type", "text"); ("name", "FormIndex:busqueda");
                  ("id", "FormIndex:busqueda")] [];
     Tag "button" [("name", "FormIndex:j_idt45"); ("type", "submit")]
       [NavigableString PlainString "BUSCAR"];
     Tag "input" [("type", "hidden"); ("name", VIEW_STATE);
                  ("value", "tok-form")] []].

Definition dialog_form : node :=
  Tag "form" [("id", "dlg")]
    [Tag "input" [("type", "text"); ("name", "dlg:busqueda")] [];
     Tag "input" [("type", "hidden"); ("name", VIEW_STATE);
                  ("value", "tok-dlg")] []].

Definition index_soup : node :=
  document [Tag "html" []
              [Tag "body" [] [menu_form; dialog_form; form_index]]].

(** The answer to a search: the table [datosSolicitud]. *)
Definition result_soup : node :=
  document
    [Tag "table" [("id", "FormIndex:datosSolicitud")]
       [Tag "tr" []
          [Tag "td" [] [Tag "label" [] [NavigableString PlainString "Estado Siniestro:"]];
           Tag "td" [] [Tag "label" [] [NavigableString PlainString " Nuevo "]]];
        Tag "tr" []
          [Tag "td" [] [Tag "label" [] [NavigableString PlainString "Inquilino:"]];
           Tag "td" [] [Tag "label" [] [NavigableString PlainString "JUAN PEREZ"]]]];
     Tag "input" [("type", "hidden"); ("name", VIEW_STATE);
                  ("value", "tok-2")] []].

(** A page whose only form holds the token in an input without a type. *)
Definition bare_form : node :=
  Tag "form" []
    [Tag "input" [("name", VIEW_STATE); ("value", "tok-bare")] []].

Definition bare_soup : node := document [bare_form].

(** A partial response that carries a new token. *)
Definition partial_text : str :=
  "<partial-response><changes><update id='j_id1:javax.faces.ViewState:0'>tok-3</update></changes></partial-response>".

Definition partial_tree : ET.element :=
  ET.Element (Some "partial-response") [] None
    [ET.Element (Some "changes") [] None
       [ET.Element (Some "update")
          [("id", "j_id1:javax.faces.ViewState:0")] (Some "tok-3") [] None]
       None]
    None.

(** A page with two search forms: the first posts to the landing page,
    the second is FormIndex with a space before its id. *)
Definition landing_form : node :=
  Tag "form" [("id", "buscador");
              ("action", "/indemnizaciones-web/pages/index.xhtml")]
    [Tag "input" [("type", "text"); ("name", "buscador:busqueda")] []].

Definition padded_form_index : node :=
  Tag "form" [("id", " FormIndex")]
    [Tag "input" [("type", "text"); ("name", "FormIndex:busqueda")] []].

Definition padded_soup : node :=
  document [landing_form; padded_form_index].

(** A page whose search fields are written in capitals. *)
Definition capital_form : node :=
  Tag "form" [("id", "B")]
    [Tag "input" [("type", "text"); ("name", "B:BUSQUEDA")] []].

Definition capital_soup : node :=
  document [Tag "form" [("id", "A")] []; dialog_form; capital_form].

(** A page with two forms that have neither a search field nor a token. *)
Definition plain_soup : node :=
  document [Tag "form" [("id", "uno")] []; Tag "form" [("id", "dos")] []].

(** A marked section that [html.parser] rejects, and a page with a form
    that ends with it. *)
Definition rejected_text : str := "<![foo bar]]>".

Definition rejected_page : str :=
  "<form id='FormIndex'><input name='FormIndex:busqueda'></form><![foo bar]]>".

Definition parse_html (s : str) : result node :=
  if Str.eqb s "<index>" then Ok index_soup
  else if Str.eqb s "<result>" then Ok result_soup
  else if Str.eqb s "<bare>" then Ok bare_soup
  else if Str.eqb s "<padded>" then Ok padded_soup
  else if Str.eqb s "<capital>" then Ok capital_soup
  else if Str.eqb s "<plain>" then Ok plain_soup
  else if PyStr.contains rejected_text s
  then Raise (ParserRejectedMarkup
                "AssertionError: unknown status keyword 'foo bar' in marked section")
  else Ok (document [NavigableString PlainString s]).

Definition parse_xml (s : str) : result ET.element :=
  if Str.eqb s partial_text then Ok partial_tree
  else Raise (ParseError "syntax error: line 1, column 0").

(** [name=value] pairs separated by semicolons. *)
Definition load_cookies (s : str) : result (list (str * str)) :=
  Ok (omap (fun p => match PyStr.split1 "="%c (PyStr.strip p) with
                     | [k; v] => Some (k, v)
                     | _ => None
                     end)
           (PyStr.split ";"%c s)).

Definition page (body : str) : http_response :=
  {| status_code := 200; text := body; location := None;
     jar_after := fun jar => jar |}.

(** The portal: the landing page for a GET; for a POST the answer page,
    but a time-out when the search is for [B-2]. *)
Definition portal (landing : str) (history : list http_request)
    (rq : http_request) : result http_response :=
  if Str.eqb (rq_method rq) "GET" then Ok (page landing)
  else if bool_decide
            (rq_data rq !! "FormIndex:busqueda" = Some (Some "B-2"))
  then Raise (RequestException "Read timed out. (read timeout=30)")
  else Ok (page "<result>").

(** A stand-in for the character database in the examples, none of which
    changes the case of a text with a character from 128 on: it leaves such
    a text as it is, and takes every character from 128 on that is not white
    space for a letter. *)
Definition database : PyStr.Unicode :=
  {| PyStr.lower_wide := fun s => s;
     PyStr.upper_wide := fun s => s;
     PyStr.isalnum_wide := fun c => negb (PyStr.isspace c);
     PyStr.isdecimal_wide := fun _ => false;
     PyStr.upper_wide_trimmed := fun s Hne Hfix => conj Hne Hfix |}.

(** [urljoin] for an absolute address and for an absolute path. *)
Definition join_url (base url : str) : str :=
  if PyStr.startswith "https://" url then url
  else "https://www.segurosbolivar.com" +:+ url.

Definition oracle (landing : str) : Oracle :=
  {| unicode := database;
     html_parser := parse_html;
     xml_fromstring := parse_xml;
     html_unescape := fun s => s;
     simple_cookie_load := load_cookies;
     urljoin := join_url;
     transport := portal landing;
     jar_on_error := fun _ _ jar => jar;
     http_error_message := fun _ => "500 Server Error";
     getenv := fun _ => None;
     utcnow_isoformat := fun _ => "2024-05-01T12:00:00+00:00";
     first_day_of_month := fun _ => "01/05/2024" |}.

Definition world0 : World := {| sent := []; ticks := 0 |}.

Definition cookie_request (rads : radicados_value) : batch_request :=
  {| rq_cookie := Some "Cookie: JSESSIONID=abc; route=1";
     rq_radicados := rads; rq_use_server_auth := false |}.

Definition cookie_session : Session :=
  {| headers := [("User-Agent", "Mozilla/5.0")];
     cookies := [("", [("/", [("JSESSIONID", "abc")])])];
     cookie_header := "JSESSIONID=abc";
     use_server_auth := false;
     user_id := None; password := None; poliza := None;
     view_state_value := None;
     primer_dia_mes := "01/05/2024";
     _is_authenticated := false;
     index_url := INDEX_URL |}.

End Fixture.

(** * Further definitions *)


(** ** Further statements about text *)

(** The character [c] occurs in [s]. *)
Fixpoint has_char (c : char) (s : str) : bool :=
  match s with
  | EmptyStr => false
  | Str d t => N.eqb c d || has_char c t
  end.

(** The text is not empty and its first character is not white space. *)
Definition starts_nonspace (s : str) : bool :=
  match s with
  | EmptyStr => false
  | Str c _ => negb (PyStr.isspace c)
  end.

(** A text that is not empty and that trimming leaves as it is. *)
Definition trimmed (s : str) : Prop :=
  s <> "" /\ PyStr.strip s = s.


(** ** Statements about the session and the calls it makes *)

(** The sessions [s] and [s'] differ at most in the cookies, the token
    and the authenticated flag. *)
Definition same_config (s s' : Session) : Prop :=
  headers s' = headers s
  /\ cookie_header s' = cookie_header s
  /\ use_server_auth s' = use_server_auth s
  /\ user_id s' = user_id s
  /\ password s' = password s
  /\ poliza s' = poliza s
  /\ primer_dia_mes s' = primer_dia_mes s
  /\ index_url s' = index_url s.

(** The session as the constructor sets it up before it loads the
    cookies: the header kept, an empty jar, no token, not authenticated. *)
Definition fresh_session (E : Oracle) (header : str) (flag : bool)
    (w : World) : Session :=
  {| headers := [("User-Agent", "Mozilla/5.0")];
     cookies := [];
     cookie_header := header;
     use_server_auth := flag;
     user_id := getenv E "LIBERTADOR_USER";
     password := getenv E "LIBERTADOR_PASS";
     poliza := getenv E "LIBERTADOR_POLIZA";
     view_state_value := None;
     primer_dia_mes := first_day_of_month E (ticks w);
     _is_authenticated := false;
     index_url := INDEX_URL |}.

(** The same, the authenticated flag being the same too. *)
Definition same_login (s s' : Session) : Prop :=
  same_config s s' /\ _is_authenticated s' = _is_authenticated s.

(** From [st] to [st'] the clock was not read, the session changed within
    [R], and at most [n] calls of [session.get] and [session.post] were
    made, all of them in [P]. *)
Definition sends (R : Session -> Session -> Prop)
    (P : http_request -> Prop) (n : nat) (st st' : state) : Prop :=
  R (fst st) (fst st')
  /\ ticks (snd st') = ticks (snd st)
  /\ exists extra,
      sent (snd st') = (sent (snd st) ++ extra)%list
      /\ Forall P extra /\ length extra <= n.

Definition SSO_URL : str :=
  "https://registro.segurosbolivar.com/nidp/idff/sso".

(** A call that is given the password is a POST to the address of the
    single sign-on. *)
Definition password_to_sso (rq : http_request) : Prop :=
  is_Some (rq_data rq !! "Ecom_Password") ->
  rq_method rq = "POST" /\ rq_url rq = SSO_URL.

(** The GET of the landing page, as [_get_index] makes it. *)
Definition is_index_get (url : str) (rq : http_request) : Prop :=
  rq_method rq = "GET" /\ rq_url rq = url /\ rq_data rq = ∅
  /\ rq_timeout rq = Some 30.

(** A POST of the search, as [get_info_for_radicado] makes it: its
    address is what [urljoin] makes of the landing page and of an action,
    it names the landing page as referer and carries a token field. *)
Definition is_search_post (E : Oracle) (url : str) (rq : http_request)
  : Prop :=
  rq_method rq = "POST"
  /\ (exists action, rq_url rq = urljoin E url action)
  /\ In ("Referer", url) (rq_headers rq)
  /\ is_Some (rq_data rq !! VIEW_STATE)
  /\ rq_timeout rq = Some 30.

(** A call of a query: one of the two. *)
Definition is_query_request (E : Oracle) (url : str) (rq : http_request)
  : Prop :=
  is_index_get url rq \/ is_search_post E url rq.

(** The token that [_refresh_view_state_from_html] takes from a partial
    response, inside its [try]. *)
Definition partial_token (E : Oracle) (html_text : str) : option str :=
  if PyStr.contains "<partial-response" (PyStr.lower (unicode E) html_text)
  then match xml_fromstring E html_text with
       | Ok root => partial_response_view_state E root
       | Raise _ => None
       end
  else None.

(** The token it takes from a page: the value, when it is not empty, of
    the first input named after the token. *)
Definition page_token (soup : Soup.node) : option str :=
  match Soup.find_attr ["input"] "name" VIEW_STATE soup with
  | Some inp =>
      if PyStr.truthy_opt (Soup.get "value" inp)
      then Soup.get "value" inp
      else None
  | None => None
  end.

(** The session after a refresh that found [tok]. *)
Definition with_token (tok : option str) (s : Session) : Session :=
  match tok with
  | Some v => set_view_state_value (Some v) s
  | None => s
  end.

(** What a refresh makes of a state: the token of a partial response if
    there is one; otherwise the parser runs, and the token of the page is
    taken, or the parser raises and nothing is changed. *)
Definition refreshed (E : Oracle) (html_text : str) (st : state)
  : result unit * state :=
  match partial_token E html_text with
  | Some v => (Ok tt, (set_view_state_value (Some v) (fst st), snd st))
  | None =>
      match html_parser E html_text with
      | Ok soup => (Ok tt, (with_token (page_token soup) (fst st), snd st))
      | Raise exc => (Raise exc, st)
      end
  end.

(** The GET of the landing page a session makes. *)
Definition index_get (s : Session) : http_request :=
  with_session s (mk_request "GET" (index_url s) [] ∅ [] true (Some 30)).

(** The address a search is posted to: the action of the form, or the
    landing page for a form without one, joined to the landing page. *)
Definition post_url_of (E : Oracle) (s : Session) (form : Soup.node) : str :=
  urljoin E (index_url s)
    (PyStr.or_empty (py_or (Soup.get "action" form) (Some (index_url s)))).

(** A session that [ensure_authenticated] lets through without a login:
    it is authenticated already or has a cookie header. *)
Definition ready (s : Session) : Prop :=
  _is_authenticated s = true \/ cookie_header s <> "".

(** The status code is one that [raise_for_status] raises for. *)
Definition is_error_status (resp : http_response) : bool :=
  ((400 <=? status_code resp) && (status_code resp <? 600))%nat.

(** What a query on a ready session leaves behind: the configuration of
    the session is kept, the session is authenticated, no clock was read,
    and the calls made are the GET of the landing page alone or the GET
    followed by one POST of the search, to the address of the form that was
    found on the landing page; a value is returned only after the POST. *)
Definition query_trace {A} (E : Oracle) (s : Session) (w : World)
    (outcome : result A * state) : Prop :=
  let s' := fst (snd outcome) in
  let w' := snd (snd outcome) in
  same_config s s'
  /\ _is_authenticated s' = true
  /\ ticks w' = ticks w
  /\ (sent w' = (sent w ++ [index_get s])%list
      \/ exists post resp soup form,
          sent w' = (sent w ++ [index_get s; post])%list
          /\ is_search_post E (index_url s) post
          /\ transport E (sent w) (index_get s) = Ok resp
          /\ html_parser E (text resp) = Ok soup
          /\ find_search_form_in E soup = Some form
          /\ rq_url post = post_url_of E s form)
  /\ (is_ok (fst outcome) = true ->
      exists post, sent w' = (sent w ++ [index_get s; post])%list).


(** ** Statements about the results of a batch *)

(** A result as the loop of the endpoint makes them: the normalized
    status is there, not empty and trimmed; a result that is [ok] has a raw
    status that is not empty, of which the normalized status is the
    normalization, and no error; a result that is not [ok] has an error and
    neither raw status nor name. *)
Definition well_formed_result (U : PyStr.Unicode) (res : BolivarResult)
  : Prop :=
  (exists n,
      estado_normalizado res = Some n /\ n <> "" /\ PyStr.strip n = n)
  /\ (ok res = true ->
      exists raw,
        estado_raw res = Some raw /\ raw <> ""
        /\ estado_normalizado res = Some (_normalize_estado U (Some raw))
        /\ asegurado res <> Some "" /\ error res = None)
  /\ (ok res = false ->
      estado_raw res = None /\ asegurado res = None
      /\ exists msg, error res = Some msg).

Definition MISSING_CREDENTIALS : str :=
  "Faltan variables de entorno LIBERTADOR_USER/LIBERTADOR_PASS para autenticar.".


(** ** Statements about the payload *)

(** The input [inp] is one whose value is replayed under the name [n]: it
    has the name [n], which is not empty and is not the token field, and
    its type, in lower case, is "hidden". *)
Definition is_replayed (U : PyStr.Unicode) (n : str) (inp : Soup.node)
  : Prop :=
  Soup.get "name" inp = Some n
  /\ n <> "" /\ n <> VIEW_STATE
  /\ PyStr.lower U (PyStr.or_empty (Soup.get "type" inp)) = "hidden".

(** The type of an input that may be the submit control: none, "submit"
    or "image". *)
Definition is_submit_type (U : PyStr.Unicode) (btn : Soup.node) : Prop :=
  let btype := PyStr.lower U (PyStr.or_empty (Soup.get "type" btn)) in
  btype = "" \/ btype = "submit" \/ btype = "image".


(** ** The export of [views.py]

    The values of [request.data]: what the JSON parser gives.  Of a number
    the code reads whether it is zero and, through the message of an
    exception, whether it is an [int] or a [float]; an object is the list
    of its fields, each name once. *)

Module Json.

#[local] Unset Elimination Schemes.

Inductive value : Type :=
| JNull
| JBool (b : bool)
| JNumber (n : Z)
| JFloat (is_zero : bool)
| JString (s : str)
| JArray (items : list value)
| JObject (fields : list (str * value)).

#[local] Set Elimination Schemes.

(** [bool(v)] *)
Definition truthy (v : value) : bool :=
  match v with
  | JNull => false
  | JBool b => b
  | JNumber n => negb (Z.eqb n 0)
  | JFloat is_zero => negb is_zero
  | JString s => PyStr.truthy s
  | JArray items => match items with [] => false | _ => true end
  | JObject fields => match fields with [] => false | _ => true end
  end.

(** [item.get(key)] *)
Fixpoint get (key : str) (fields : list (str * value)) : option value :=
  match fields with
  | [] => None
  | (k, v) :: rest => if Str.eqb key k then Some v else get key rest
  end.

(** [type(v).__name__] *)
Definition type_name (v : value) : str :=
  match v with
  | JNull => "NoneType"
  | JBool _ => "bool"
  | JNumber _ => "int"
  | JFloat _ => "float"
  | JString _ => "str"
  | JArray _ => "list"
  | JObject _ => "dict"
  end.

End Json.

(** What the export can raise: the [AttributeError] of [.strip()] on a
    value that is not a text, and whatever openpyxl or reportlab raise
    while they build a file. *)
Inductive export_error : Type :=
| AttributeError (msg : str)
| RenderError (msg : str).

Inductive attempt (A : Type) : Type :=
| Returned (a : A)
| Raised (exc : export_error).

Arguments Returned {A} a.
Arguments Raised {A} exc.

Definition attempt_bind {A B} (x : attempt A) (k : A -> attempt B)
  : attempt B :=
  match x with
  | Returned a => k a
  | Raised exc => Raised exc
  end.

(** The rows of an export: the five fields of [_sanitize_export_rows]. *)
Record export_row : Type := {
  row_radicado : str;
  row_estado_raw : str;
  row_estado_normalizado : str;
  row_asegurado : str;
  row_consulted_at : str
}.

(** [(item.get(key) or "").strip()] *)
Definition stripped_field (item : list (str * Json.value)) (key : str)
  : attempt str :=
  match Json.get key item with
  | Some v =>
      if Json.truthy v
      then match v with
           | Json.JString s => Returned (PyStr.strip s)
           | _ => Raised (AttributeError
                            ("'" +:+ Json.type_name v
                             +:+ "' object has no attribute 'strip'"))
           end
      else Returned ""
  | None => Returned ""
  end.

(** The dictionary appended for one item; its values are computed in the
    order they are written. *)
Definition sanitized_row (item : list (str * Json.value))
  : attempt export_row :=
  attempt_bind (stripped_field item "radicado") (fun radicado_ =>
  attempt_bind (stripped_field item "estado_raw") (fun estado_raw_ =>
  attempt_bind (stripped_field item "estado_normalizado") (fun normalizado =>
  attempt_bind (stripped_field item "asegurado") (fun asegurado_ =>
  attempt_bind (stripped_field item "consulted_at") (fun consulted =>
  Returned {| row_radicado := radicado_; row_estado_raw := estado_raw_;
              row_estado_normalizado := normalizado;
              row_asegurado := asegurado_;
              row_consulted_at := consulted |}))))).

(** The loop [for item in results]: an item that is not an object is
    skipped. *)
Fixpoint sanitize_loop (items : list Json.value) (rows : list export_row)
  : attempt (list export_row) :=
  match items with
  | [] => Returned rows
  | Json.JObject item :: rest =>
      attempt_bind (sanitized_row item) (fun row =>
        sanitize_loop rest (rows ++ [row])%list)
  | _ :: rest => sanitize_loop rest rows
  end.

(** [_sanitize_export_rows(results)]; [None] is an absent field. *)
Definition _sanitize_export_rows (results : option Json.value)
  : attempt (list export_row) :=
  match results with
  | Some (Json.JArray items) =>
      attempt_bind (sanitize_loop items []) (fun rows =>
        Returned (List.filter (fun r => PyStr.truthy (row_radicado r)) rows))
  | _ => Returned []
  end.

(** The JSON of a result of the batch endpoint, as the front end gets it
    and sends it back: the dictionary of [_to_result_dict], a text as a
    string, [None] as null. *)
Definition optional_json (o : option str) : Json.value :=
  match o with
  | Some s => Json.JString s
  | None => Json.JNull
  end.

Definition result_json (r : BolivarResult) : Json.value :=
  Json.JObject
    [("radicado", Json.JString (radicado r));
     ("ok", Json.JBool (ok r));
     ("estado_raw", optional_json (estado_raw r));
     ("estado_normalizado", optional_json (estado_normalizado r));
     ("asegurado", optional_json (asegurado r));
     ("consulted_at", Json.JString (consulted_at r));
     ("error", optional_json (error r))].

(** The row of the export for a result of the batch. *)
Definition row_of_result (r : BolivarResult) : export_row :=
  {| row_radicado := PyStr.strip (radicado r);
     row_estado_raw := PyStr.strip (PyStr.or_empty (estado_raw r));
     row_estado_normalizado :=
       PyStr.strip (PyStr.or_empty (estado_normalizado r));
     row_asegurado := PyStr.strip (PyStr.or_empty (asegurado r));
     row_consulted_at := PyStr.strip (consulted_at r) |}.

(** The renderers of [views.py], which build their files with openpyxl
    and reportlab, and the clock of the export. *)
Record Renderer : Type := {
  _export_xlsx_clean : list export_row -> attempt str;
  _export_pdf_clean : list export_row -> str -> attempt str;
  strftime_stamp : nat -> str;
  isoformat_stamp : nat -> str
}.

Record export_request : Type := {
  rq_format : option Json.value;
  rq_results : option Json.value
}.

Inductive export_response : Type :=
| ExportBadRequest (detail : str)
| Attachment (payload content_type filename : str).

(** [(request.data.get("format") or "").strip().lower()] *)
Definition requested_format (U : PyStr.Unicode) (v : option Json.value)
  : attempt str :=
  match v with
  | Some v =>
      if Json.truthy v
      then match v with
           | Json.JString s => Returned (PyStr.lower U (PyStr.strip s))
           | _ => Raised (AttributeError
                            ("'" +:+ Json.type_name v
                             +:+ "' object has no attribute 'strip'"))
           end
      else Returned ""
  | None => Returned ""
  end.

(** [bolivar_radicados_export]; [now] is the number of times the clock
    was read before. *)
Definition bolivar_radicados_export (U : PyStr.Unicode) (R : Renderer)
    (request : export_request) (now : nat) : attempt export_response :=
  attempt_bind (requested_format U (rq_format request)) (fun export_format =>
  attempt_bind (_sanitize_export_rows (rq_results request)) (fun rows =>
    if negb (Str.eqb export_format "xlsx" || Str.eqb export_format "pdf")
    then Returned (ExportBadRequest "Formato inválido. Usa 'xlsx' o 'pdf'.")
    else
      match rows with
      | [] =>
          Returned (ExportBadRequest
            "No hay resultados para exportar. Primero consulta radicados.")
      | _ :: _ =>
          let timestamp := strftime_stamp R now in
          let generated_at := isoformat_stamp R (S now) in
          if Str.eqb export_format "xlsx"
          then
            attempt_bind (_export_xlsx_clean R rows) (fun payload =>
            Returned (Attachment payload
              "application/vnd.openxmlformats-officedocument.spreadsheetml.sheet"
              ("radicados_" +:+ timestamp +:+ ".xlsx")))
          else
            attempt_bind (_export_pdf_clean R rows generated_at)
              (fun payload =>
            Returned (Attachment payload "application/pdf"
              ("radicados_" +:+ timestamp +:+ ".pdf")))
      end)).

(** The five fields of an item that the export reads. *)
Definition EXPORT_KEYS : list str :=
  ["radicado"; "estado_raw"; "estado_normalizado"; "asegurado";
   "consulted_at"].

(** Each of the five fields of the item is absent, false (null, zero,
    empty) or a string. *)
Definition exportable (item : list (str * Json.value)) : Prop :=
  forall key v,
    In key EXPORT_KEYS -> Json.get key item = Some v ->
    Json.truthy v = true -> exists s, v = Json.JString s.

(** The fields of a row are trimmed and its identifier is not empty. *)
Definition clean_row (r : export_row) : Prop :=
  row_radicado r <> ""
  /\ PyStr.strip (row_radicado r) = row_radicado r
  /\ PyStr.strip (row_estado_raw r) = row_estado_raw r
  /\ PyStr.strip (row_estado_normalizado r) = row_estado_normalizado r
  /\ PyStr.strip (row_asegurado r) = row_asegurado r
  /\ PyStr.strip (row_consulted_at r) = row_consulted_at r.

(** A renderer for the examples: the file is the list of the identifiers,
    under the time of the export for a PDF. *)
Module ExportFixture.

Definition renderer : Renderer :=
  {| _export_xlsx_clean := fun rows =>
       Returned (PyStr.join ";" (map row_radicado rows));
     _export_pdf_clean := fun rows generated_at =>
       Returned (generated_at +:+ ":"
                 +:+ PyStr.join ";" (map row_radicado rows));
     strftime_stamp := fun _ => "20240501_1200";
     isoformat_stamp := fun _ => "2024-05-01T12:00:00+00:00" |}.

Definition request : export_request :=
  {| rq_format := Some (Json.JString " PDF ");
     rq_results :=
       Some (Json.JArray
               [Json.JObject [("radicado", Json.JString " A-1 ");
                              ("estado_normalizado", Json.JString "NUEVO");
                              ("asegurado", Json.JNull)];
                Json.JString "noise";
                Json.JObject [("estado_raw", Json.JString "Nuevo")]]) |}.

End ExportFixture.

(** * Properties *)


(** ** Text *)

Lemma str_eqb_spec (s1 s2 : str) : reflect (s1 = s2) (Str.eqb s1 s2).
Proof.
  revert s2; induction s1 as [|c s1 IH]; intros [|d s2]; cbn [Str.eqb];
    try (constructor; congruence).
  destruct (N.eqb_spec c d) as [->|Hcd]; cbn [andb].
  - destruct (IH s2) as [->|Hne]; constructor; congruence.
  - constructor. congruence.
Qed.

Lemma str_eqb_eq (s1 s2 : str) : Str.eqb s1 s2 = true <-> s1 = s2.
Proof. destruct (str_eqb_spec s1 s2); split; congruence. Qed.

Lemma str_eqb_refl (s : str) : Str.eqb s s = true.
Proof. apply str_eqb_eq. reflexivity. Qed.

Lemma app_cons (a : char) (p q : str) :
  Str a p ++ q = Str a (p ++ q).
Proof. reflexivity. Qed.

Lemma app_nil_l (q : str) : "" ++ q = q.
Proof. reflexivity. Qed.

Lemma prefix_app_inv (p q s : str) :
  Str.prefix (p ++ q) s = true ->
  exists r, s = p ++ r /\ Str.prefix q r = true.
Proof.
  revert s; induction p as [|a p IH]; intros s H.
  - rewrite app_nil_l in H. exists s; split; [reflexivity | assumption].
  - rewrite app_cons in H. destruct s as [|b s]; simpl in H; [discriminate|].
    destruct (char_dec a b) as [->|]; [|discriminate].
    destruct (IH s H) as (r & -> & Hr).
    exists r; split; [reflexivity | assumption].
Qed.

Lemma contains_eq (q s : str) :
  PyStr.contains q s
  = if Str.prefix q s then true
    else match s with
         | EmptyStr => false
         | Str _ t => PyStr.contains q t
         end.
Proof. destruct s; reflexivity. Qed.

Lemma contains_of_prefix (q s : str) :
  Str.prefix q s = true -> PyStr.contains q s = true.
Proof. intros H; rewrite contains_eq, H; reflexivity. Qed.

Lemma contains_skip (q p r : str) :
  PyStr.contains q r = true -> PyStr.contains q (p ++ r) = true.
Proof.
  intros H; induction p as [|a p IH]; [assumption|].
  rewrite app_cons, contains_eq, IH.
  destruct (Str.prefix q (Str a (p ++ r))); reflexivity.
Qed.

Lemma contains_app_r (p q s : str) :
  PyStr.contains (p ++ q) s = true -> PyStr.contains q s = true.
Proof.
  induction s as [|c s IH]; rewrite (contains_eq (p ++ q)).
  - destruct (Str.prefix (p ++ q) "") eqn:Hp; [|discriminate].
    intros _. destruct (prefix_app_inv _ _ _ Hp) as (r & Hs & Hr).
    rewrite Hs. apply contains_skip, contains_of_prefix, Hr.
  - destruct (Str.prefix (p ++ q) (Str c s)) eqn:Hp.
    + intros _. destruct (prefix_app_inv _ _ _ Hp) as (r & Hs & Hr).
      rewrite Hs. apply contains_skip, contains_of_prefix, Hr.
    + intros H. rewrite contains_eq, (IH H).
      destruct (Str.prefix q (Str c s)); reflexivity.
Qed.

Lemma truthy_iff (s : str) : PyStr.truthy s = true <-> s <> "".
Proof. destruct s; cbn; split; congruence. Qed.


(** ** Running a method *)

Ltac run_m :=
  unfold bind, ret, raise, lift, try_except, get_session, modify_session
    in *; cbn [fst snd] in *.

Lemma lstrip_all_space (s : str) :
  all_space s = true -> PyStr.lstrip s = "".
Proof.
  induction s as [|c t IH]; [reflexivity|]. simpl.
  destruct (PyStr.isspace c); [exact IH | discriminate].
Qed.

Lemma strip_all_space (s : str) :
  all_space s = true -> PyStr.strip s = "".
Proof.
  intros H. unfold PyStr.strip. rewrite (lstrip_all_space s H). reflexivity.
Qed.


(** ** Text: reversal and trimming *)

Lemma str_app_assoc (a b c : str) : (a ++ b) ++ c = a ++ (b ++ c).
Proof.
  induction a as [|x a IH]; [reflexivity|].
  rewrite !app_cons, IH. reflexivity.
Qed.

Lemma str_app_nil_r (a : str) : a ++ "" = a.
Proof.
  induction a as [|x a IH]; [reflexivity|]. rewrite app_cons, IH. reflexivity.
Qed.

Lemma str_rev_app_eq (s1 s2 : str) :
  Str.rev_app s1 s2 = Str.rev s1 ++ s2.
Proof.
  revert s2; induction s1 as [|a s1 IH]; intros s2; [reflexivity|].
  unfold Str.rev. cbn [Str.rev_app].
  rewrite (IH (Str a s2)), (IH (Str a "")), str_app_assoc.
  reflexivity.
Qed.

Lemma str_rev_cons (a : char) (s : str) :
  Str.rev (Str a s) = Str.rev s ++ Str a "".
Proof. unfold Str.rev at 1. cbn [Str.rev_app]. apply str_rev_app_eq. Qed.

Lemma str_rev_app (s1 s2 : str) :
  Str.rev (s1 ++ s2) = Str.rev s2 ++ Str.rev s1.
Proof.
  induction s1 as [|a s1 IH].
  - rewrite app_nil_l, str_app_nil_r. reflexivity.
  - rewrite app_cons, !str_rev_cons, IH, str_app_assoc. reflexivity.
Qed.

Lemma str_rev_involutive (s : str) : Str.rev (Str.rev s) = s.
Proof.
  induction s as [|a s IH]; [reflexivity|].
  rewrite str_rev_cons, str_rev_app, IH. reflexivity.
Qed.

Lemma str_rev_empty (s : str) : Str.rev s = "" -> s = "".
Proof.
  intros H. rewrite <- (str_rev_involutive s), H. reflexivity.
Qed.

Lemma all_space_app (s1 s2 : str) :
  all_space (s1 ++ s2) = all_space s1 && all_space s2.
Proof.
  induction s1 as [|a s1 IH]; [reflexivity|].
  rewrite app_cons. cbn [all_space]. rewrite IH, andb_assoc. reflexivity.
Qed.

Lemma all_space_rev (s : str) : all_space (Str.rev s) = all_space s.
Proof.
  induction s as [|a s IH]; [reflexivity|].
  rewrite str_rev_cons, all_space_app, IH. cbn [all_space].
  rewrite andb_true_r, andb_comm. reflexivity.
Qed.

Lemma lstrip_decompose (s : str) :
  exists ws, s = ws ++ PyStr.lstrip s /\ all_space ws = true.
Proof.
  induction s as [|c t (ws & Ht & Hws)].
  - exists "". split; reflexivity.
  - cbn [PyStr.lstrip]. destruct (PyStr.isspace c) eqn:Hc.
    + exists (Str c ws). rewrite app_cons, <- Ht. cbn [all_space].
      rewrite Hc, Hws. split; reflexivity.
    + exists "". split; reflexivity.
Qed.

Lemma lstrip_starts (s : str) :
  PyStr.lstrip s = "" \/ starts_nonspace (PyStr.lstrip s) = true.
Proof.
  induction s as [|c t IH]; [left; reflexivity|].
  cbn [PyStr.lstrip]. destruct (PyStr.isspace c) eqn:Hc; [exact IH|].
  right. cbn. rewrite Hc. reflexivity.
Qed.

Lemma lstrip_fixed (s : str) :
  starts_nonspace s = true -> PyStr.lstrip s = s.
Proof.
  destruct s as [|c t]; [discriminate|]. cbn.
  destruct (PyStr.isspace c); [discriminate | reflexivity].
Qed.

Lemma lstrip_empty (s : str) :
  PyStr.lstrip s = "" -> all_space s = true.
Proof.
  intros H. destruct (lstrip_decompose s) as (ws & Hs & Hws).
  rewrite H, str_app_nil_r in Hs. rewrite Hs. exact Hws.
Qed.

Lemma lstrip_idem (s : str) : PyStr.lstrip (PyStr.lstrip s) = PyStr.lstrip s.
Proof.
  destruct (lstrip_starts s) as [-> | H]; [reflexivity|].
  apply lstrip_fixed, H.
Qed.

Lemma rstrip_decompose (s : str) :
  exists ws, s = PyStr.rstrip s ++ ws /\ all_space ws = true.
Proof.
  destruct (lstrip_decompose (Str.rev s)) as (ws & Hs & Hws).
  exists (Str.rev ws). split.
  - unfold PyStr.rstrip. rewrite <- str_rev_app, <- Hs.
    symmetry. apply str_rev_involutive.
  - rewrite all_space_rev. exact Hws.
Qed.

Lemma starts_nonspace_app (s1 s2 : str) :
  starts_nonspace s1 = true -> starts_nonspace (s1 ++ s2) = true.
Proof. destruct s1; [discriminate | intros H; exact H]. Qed.

Lemma starts_nonspace_prefix (s1 s2 : str) :
  s1 <> "" -> starts_nonspace (s1 ++ s2) = true -> starts_nonspace s1 = true.
Proof. destruct s1; [contradiction | intros _ H; exact H]. Qed.

(** Trimming gives the empty text exactly for the texts made of white
    space. *)
Lemma strip_empty_iff (s : str) :
  PyStr.strip s = "" <-> all_space s = true.
Proof.
  split; [|apply strip_all_space].
  unfold PyStr.strip, PyStr.rstrip. intros H.
  apply str_rev_empty, lstrip_empty in H.
  rewrite all_space_rev in H.
  destruct (lstrip_decompose s) as (ws & Hs & Hws).
  rewrite Hs, all_space_app, Hws, H. reflexivity.
Qed.

(** What trimming leaves starts and ends with a character that is not
    white space. *)
Lemma strip_starts (s : str) :
  PyStr.strip s <> "" ->
  starts_nonspace (PyStr.strip s) = true
  /\ starts_nonspace (Str.rev (PyStr.strip s)) = true.
Proof.
  intros Hne. split.
  - destruct (rstrip_decompose (PyStr.lstrip s)) as (ws & Hs & _).
    fold (PyStr.strip s) in Hs.
    destruct (lstrip_starts s) as [He | Hst].
    + rewrite He in Hs. destruct (PyStr.strip s); [contradiction|].
      discriminate Hs.
    + rewrite Hs in Hst. eapply starts_nonspace_prefix; eassumption.
  - unfold PyStr.strip, PyStr.rstrip in *. rewrite str_rev_involutive.
    destruct (lstrip_starts (Str.rev (PyStr.lstrip s))) as [He | Hst];
      [|exact Hst].
    rewrite He in Hne. contradiction.
Qed.

Lemma strip_fixed (s : str) :
  starts_nonspace s = true -> starts_nonspace (Str.rev s) = true ->
  PyStr.strip s = s.
Proof.
  intros H1 H2. unfold PyStr.strip, PyStr.rstrip.
  rewrite (lstrip_fixed s H1), (lstrip_fixed _ H2).
  apply str_rev_involutive.
Qed.

(** Trimming twice is trimming once. *)
Lemma strip_idem (s : str) : PyStr.strip (PyStr.strip s) = PyStr.strip s.
Proof.
  destruct (str_eq_dec (PyStr.strip s) "") as [-> | Hne]; [reflexivity|].
  destruct (strip_starts s Hne). apply strip_fixed; assumption.
Qed.

Lemma lstrip_pad (ws s : str) :
  all_space ws = true -> PyStr.lstrip (ws ++ s) = PyStr.lstrip s.
Proof.
  induction ws as [|c ws IH]; [reflexivity|].
  cbn [all_space]. intros H. apply andb_true_iff in H. destruct H as (Hc & H).
  rewrite app_cons. cbn [PyStr.lstrip]. rewrite Hc. apply IH, H.
Qed.

Lemma rstrip_pad (s ws : str) :
  all_space ws = true -> PyStr.rstrip (s ++ ws) = PyStr.rstrip s.
Proof.
  intros H. unfold PyStr.rstrip. rewrite str_rev_app, lstrip_pad;
    [reflexivity | rewrite all_space_rev; exact H].
Qed.

(** White space around a text does not change what trimming gives. *)
Lemma strip_pad (a s b : str) :
  all_space a = true -> all_space b = true ->
  PyStr.strip (a ++ s ++ b) = PyStr.strip s.
Proof.
  intros Ha Hb. unfold PyStr.strip. rewrite (lstrip_pad a _ Ha).
  destruct (lstrip_decompose s) as (ws & Hs & Hws).
  destruct (lstrip_starts s) as [He | Hst].
  - rewrite He. rewrite He, str_app_nil_r in Hs.
    assert (Hall : all_space (s ++ b) = true)
      by (rewrite all_space_app, Hs, Hws, Hb; reflexivity).
    apply strip_all_space in Hall. unfold PyStr.strip in Hall.
    rewrite Hall. reflexivity.
  - rewrite Hs at 1. rewrite str_app_assoc, (lstrip_pad ws _ Hws).
    rewrite (lstrip_fixed _ (starts_nonspace_app _ b Hst)).
    apply rstrip_pad, Hb.
Qed.


(** ** Text: changes of case *)

Ltac decide_cmp :=
  repeat match goal with
    | |- context [(?a <=? ?b)%N] =>
        first [ replace (a <=? b)%N with true
                  by (symmetry; apply N.leb_le; lia)
              | replace (a <=? b)%N with false
                  by (symmetry; apply N.leb_gt; lia) ]
    | |- context [(?a =? ?b)%N] =>
        first [ replace (a =? b)%N with true
                  by (symmetry; apply N.eqb_eq; lia)
              | replace (a =? b)%N with false
                  by (symmetry; apply N.eqb_neq; lia) ]
    end.

Ltac char_cases c :=
  unfold PyStr.lower_char, PyStr.upper_char;
  destruct (N.leb_spec 65 c), (N.leb_spec c 90), (N.leb_spec 97 c),
    (N.leb_spec c 122);
  cbn [andb]; try reflexivity;
  unfold PyStr.isspace; decide_cmp; cbn [andb orb]; try reflexivity;
  try lia.

Lemma isspace_lower_char (c : char) :
  PyStr.isspace (PyStr.lower_char c) = PyStr.isspace c.
Proof. char_cases c. Qed.

Lemma isspace_upper_char (c : char) :
  PyStr.isspace (PyStr.upper_char c) = PyStr.isspace c.
Proof. char_cases c. Qed.

Lemma lower_char_idem (c : char) :
  PyStr.lower_char (PyStr.lower_char c) = PyStr.lower_char c.
Proof. char_cases c. Qed.

Lemma upper_char_idem (c : char) :
  PyStr.upper_char (PyStr.upper_char c) = PyStr.upper_char c.
Proof. char_cases c. Qed.

Lemma upper_lower_char (c : char) :
  PyStr.upper_char (PyStr.lower_char c) = PyStr.upper_char c.
Proof. char_cases c. Qed.

Lemma lower_upper_char (c : char) :
  PyStr.lower_char (PyStr.upper_char c) = PyStr.lower_char c.
Proof. char_cases c. Qed.

Lemma map_chars_app (f : char -> char) (a b : str) :
  PyStr.map_chars f (a ++ b) = PyStr.map_chars f a ++ PyStr.map_chars f b.
Proof.
  induction a as [|c a IH]; [reflexivity|].
  rewrite app_cons. cbn [PyStr.map_chars]. rewrite IH, app_cons. reflexivity.
Qed.

Lemma map_chars_rev (f : char -> char) (s : str) :
  PyStr.map_chars f (Str.rev s) = Str.rev (PyStr.map_chars f s).
Proof.
  induction s as [|c s IH]; [reflexivity|].
  cbn [PyStr.map_chars]. rewrite !str_rev_cons, map_chars_app, IH.
  reflexivity.
Qed.

Lemma map_chars_compose (f g : char -> char) (s : str) :
  PyStr.map_chars f (PyStr.map_chars g s)
  = PyStr.map_chars (fun c => f (g c)) s.
Proof.
  induction s as [|c s IH]; [reflexivity|]. cbn. rewrite IH. reflexivity.
Qed.

Lemma map_chars_ext (f g : char -> char) (s : str) :
  (forall c, f c = g c) -> PyStr.map_chars f s = PyStr.map_chars g s.
Proof.
  intros H. induction s as [|c s IH]; [reflexivity|].
  cbn. rewrite H, IH. reflexivity.
Qed.

Lemma map_chars_truthy (f : char -> char) (s : str) :
  PyStr.truthy (PyStr.map_chars f s) = PyStr.truthy s.
Proof. destruct s; reflexivity. Qed.

Section KeepsSpace.

Variable f : char -> char.
Hypothesis f_space : forall c, PyStr.isspace (f c) = PyStr.isspace c.

Lemma map_chars_lstrip (s : str) :
  PyStr.lstrip (PyStr.map_chars f s) = PyStr.map_chars f (PyStr.lstrip s).
Proof.
  induction s as [|c s IH]; [reflexivity|].
  cbn [PyStr.map_chars PyStr.lstrip]. rewrite f_space.
  destruct (PyStr.isspace c); [exact IH | reflexivity].
Qed.

Lemma map_chars_strip (s : str) :
  PyStr.strip (PyStr.map_chars f s) = PyStr.map_chars f (PyStr.strip s).
Proof.
  unfold PyStr.strip, PyStr.rstrip.
  rewrite map_chars_lstrip, <- map_chars_rev, map_chars_lstrip, map_chars_rev.
  reflexivity.
Qed.

Lemma map_chars_collapse (b : bool) (s : str) :
  f " "%c = " "%c ->
  PyStr.collapse_go b (PyStr.map_chars f s)
  = PyStr.map_chars f (PyStr.collapse_go b s).
Proof.
  intros f_blank.
  revert b; induction s as [|c s IH]; intros b; [reflexivity|].
  cbn [PyStr.map_chars PyStr.collapse_go]. rewrite f_space.
  destruct (PyStr.isspace c) eqn:Hc.
  - destruct b; cbn [PyStr.map_chars]; rewrite IH, ?f_blank; reflexivity.
  - cbn [PyStr.map_chars]. rewrite IH. reflexivity.
Qed.

Lemma map_chars_all_space (s : str) :
  all_space (PyStr.map_chars f s) = all_space s.
Proof.
  induction s as [|c s IH]; [reflexivity|].
  cbn. rewrite f_space, IH. reflexivity.
Qed.

End KeepsSpace.

Lemma collapse_all_space (b : bool) (s : str) :
  all_space (PyStr.collapse_go b s) = all_space s.
Proof.
  revert b; induction s as [|c s IH]; intros b; [reflexivity|].
  cbn [PyStr.collapse_go all_space].
  destruct (PyStr.isspace c) eqn:Hc.
  - destruct b; [apply IH|]. cbn [all_space]. rewrite IH. reflexivity.
  - cbn [all_space]. rewrite Hc. reflexivity.
Qed.

Lemma is_ascii_app (a b : str) :
  PyStr.is_ascii (a ++ b) = PyStr.is_ascii a && PyStr.is_ascii b.
Proof.
  induction a as [|c a IH]; [reflexivity|].
  change (Str c a ++ b) with (Str c (a ++ b)).
  cbn [PyStr.is_ascii]. rewrite IH, andb_assoc. reflexivity.
Qed.

Lemma is_ascii_rev (s : str) : PyStr.is_ascii (Str.rev s) = PyStr.is_ascii s.
Proof.
  induction s as [|c s IH]; [reflexivity|].
  rewrite str_rev_cons, is_ascii_app, IH. cbn [PyStr.is_ascii].
  rewrite andb_true_r. apply andb_comm.
Qed.

Lemma is_ascii_lstrip (s : str) :
  PyStr.is_ascii s = true -> PyStr.is_ascii (PyStr.lstrip s) = true.
Proof.
  induction s as [|c s IH]; [reflexivity|]. intros H.
  cbn [PyStr.lstrip]. destruct (PyStr.isspace c); [|exact H].
  apply IH. cbn [PyStr.is_ascii] in H. apply andb_true_iff in H. apply H.
Qed.

Lemma is_ascii_strip (s : str) :
  PyStr.is_ascii s = true -> PyStr.is_ascii (PyStr.strip s) = true.
Proof.
  intros H. unfold PyStr.strip, PyStr.rstrip.
  rewrite is_ascii_rev. apply is_ascii_lstrip. rewrite is_ascii_rev.
  apply is_ascii_lstrip, H.
Qed.

Lemma is_ascii_map_chars (f : char -> char) (s : str) :
  (forall c, (c <? 128)%N = true -> (f c <? 128)%N = true) ->
  PyStr.is_ascii s = true -> PyStr.is_ascii (PyStr.map_chars f s) = true.
Proof.
  intros Hf. induction s as [|c s IH]; [reflexivity|].
  cbn [PyStr.is_ascii PyStr.map_chars]. intros H.
  apply andb_true_iff in H. destruct H as (Hc & Hs).
  rewrite (Hf c Hc), (IH Hs). reflexivity.
Qed.

Lemma is_ascii_collapse (b : bool) (s : str) :
  PyStr.is_ascii s = true -> PyStr.is_ascii (PyStr.collapse_go b s) = true.
Proof.
  revert b; induction s as [|c s IH]; intros b; [reflexivity|].
  cbn [PyStr.is_ascii PyStr.collapse_go]. intros H.
  apply andb_true_iff in H. destruct H as (Hc & Hs).
  destruct (PyStr.isspace c); [destruct b|]; cbn [PyStr.is_ascii];
    rewrite ?Hc, ?(IH _ Hs); reflexivity.
Qed.

Lemma lower_char_ascii (c : char) :
  (c <? 128)%N = true -> (PyStr.lower_char c <? 128)%N = true.
Proof.
  intros H. apply N.ltb_lt in H. apply N.ltb_lt. unfold PyStr.lower_char.
  destruct (N.leb_spec 65 c), (N.leb_spec c 90); cbn [andb]; lia.
Qed.

Lemma upper_char_ascii (c : char) :
  (c <? 128)%N = true -> (PyStr.upper_char c <? 128)%N = true.
Proof.
  intros H. apply N.ltb_lt in H. apply N.ltb_lt. unfold PyStr.upper_char.
  destruct (N.leb_spec 97 c), (N.leb_spec c 122); cbn [andb]; lia.
Qed.

Lemma lower_ascii (U : PyStr.Unicode) (s : str) :
  PyStr.is_ascii s = true ->
  PyStr.lower U s = PyStr.map_chars PyStr.lower_char s.
Proof. intros H. unfold PyStr.lower. rewrite H. reflexivity. Qed.

Lemma upper_ascii (U : PyStr.Unicode) (s : str) :
  PyStr.is_ascii s = true ->
  PyStr.upper U s = PyStr.map_chars PyStr.upper_char s.
Proof. intros H. unfold PyStr.upper. rewrite H. reflexivity. Qed.

(** ** The status normalizer *)

(** Whatever holds "sin desist" holds "desist", and the test for "desist"
    comes first: the third alternative of the last test is never reached
    with it. *)
Lemma sin_desist_is_desistido (U : PyStr.Unicode) (raw : option str) :
  PyStr.contains "sin desist"
    (PyStr.lower U (PyStr.strip (PyStr.or_empty raw))) = true ->
  _normalize_estado U raw = DESISTIDO.
Proof.
  intros H. unfold _normalize_estado.
  destruct (PyStr.strip (PyStr.or_empty raw)) as [|c t] eqn:Ht.
  - discriminate H.
  - cbn [PyStr.truthy negb].
    destruct (str_eqb_spec (PyStr.lower U (Str c t)) "nuevo") as [He|_].
    + rewrite He in H. discriminate H.
    + rewrite (contains_app_r "sin " "desist" _ H). reflexivity.
Qed.

(** The phrasings about payment give SIN DESISTIR where neither "desist"
    nor "report" occurs. *)
Lemma payment_phrasing_is_sin_desistir (U : PyStr.Unicode)
    (raw : option str) :
  let lower := PyStr.lower U (PyStr.strip (PyStr.or_empty raw)) in
  PyStr.contains "desist" lower = false ->
  PyStr.contains "report" lower = false ->
  PyStr.contains "no ha pagado" lower = true
  \/ PyStr.contains "sin pagar" lower = true ->
  _normalize_estado U raw = SIN_DESISTIR.
Proof.
  intros lower Hd Hr Hp. unfold _normalize_estado. fold lower.
  destruct (PyStr.strip (PyStr.or_empty raw)) as [|c t] eqn:Ht.
  - destruct Hp as [Hp|Hp]; discriminate Hp.
  - cbn [PyStr.truthy negb].
    destruct (Str.eqb lower "nuevo"); [reflexivity|].
    rewrite Hd, Hr.
    destruct Hp as [-> | ->]; rewrite ?orb_true_r; reflexivity.
Qed.

(** C3 (the code at the claim's own example): the status "Sin desistir"
    holds "sin desist", and the normalizer answers DESISTIDO for it, not
    SIN DESISTIR. *)
Theorem normalize_estado_sin_desistir (U : PyStr.Unicode) :
  PyStr.contains "sin desist" (PyStr.lower U "Sin desistir") = true
  /\ _normalize_estado U (Some "Sin desistir") = "DESISTIDO"
  /\ _normalize_estado U (Some "Sin desistir") <> "SIN DESISTIR".
Proof.
  split; [reflexivity|]. split; [reflexivity|].
  vm_compute. discriminate.
Qed.

(** C4: the normalizer takes "Nuevo" to SIN DESISTIR, "Desistido por el
    cliente" to DESISTIDO, "Reportado a la aseguradora" to REPORTADO, the
    empty and the absent text to NO ENCONTRADO and "Algo Raro" to
    "ALGO RARO"; and a text that none of its tests recognizes comes back
    trimmed, with its runs of white space collapsed, in upper case.  The
    white space is that of Unicode and the case that of [str.upper]. *)
Theorem normalize_estado_vectors (U : PyStr.Unicode) :
  _normalize_estado U (Some "Nuevo") = "SIN DESISTIR"
  /\ _normalize_estado U (Some "Desistido por el cliente") = "DESISTIDO"
  /\ _normalize_estado U (Some "Reportado a la aseguradora") = "REPORTADO"
  /\ _normalize_estado U (Some "") = "NO ENCONTRADO"
  /\ _normalize_estado U None = "NO ENCONTRADO"
  /\ _normalize_estado U (Some "Algo Raro") = "ALGO RARO"
  /\ (forall raw,
        let text := PyStr.strip (PyStr.or_empty raw) in
        let lower := PyStr.lower U text in
        text <> "" ->
        lower <> "nuevo" ->
        PyStr.contains "desist" lower = false ->
        PyStr.contains "report" lower = false ->
        PyStr.contains "no ha pagado" lower = false ->
        PyStr.contains "sin pagar" lower = false ->
        _normalize_estado U raw
        = PyStr.upper U (PyStr.strip (PyStr.collapse_ws text))).
Proof.
  do 6 (split; [reflexivity|]).
  intros raw text lower Hne Hnuevo Hd Hr Hp1 Hp2.
  unfold _normalize_estado. fold text. fold lower.
  destruct text as [|c t] eqn:Ht; [contradiction|].
  cbn [PyStr.truthy negb].
  destruct (str_eqb_spec lower "nuevo") as [He|_]; [contradiction|].
  rewrite Hd, Hr, Hp1, Hp2.
  destruct (PyStr.contains "sin desist" lower) eqn:Hs; [|reflexivity].
  apply (contains_app_r "sin " "desist") in Hs. congruence.
Qed.

Lemma normalize_estado_vectors_witness :
  _normalize_estado Fixture.database
    (Some (Str 160%N "  En   estudio " ++ Str 8195%N ""))
  = "EN ESTUDIO".
Proof.
  destruct (normalize_estado_vectors Fixture.database)
    as (_ & _ & _ & _ & _ & _ & H).
  rewrite (H (Some (Str 160%N "  En   estudio " ++ Str 8195%N "")));
    [reflexivity | | | | | | ]; vm_compute; congruence.
Defined.

(** ** The partial-response unwrapper *)

(** C8: a text without the marker "<partial-response" (in any case) comes
    back unchanged, so that unwrapping what was unwrapped from it changes
    nothing; and a text with the marker that the XML parser refuses comes
    back unchanged too, the method returning and not raising.  Neither
    touches the session or the world. *)
Theorem unwrap_plain_or_unparsable (E : Oracle) :
  (forall response_text st,
      PyStr.contains "<partial-response"
        (PyStr.lower (unicode E) response_text) = false ->
      _unwrap_jsf_partial_response E response_text st
      = (Ok response_text, st))
  /\ (forall response_text st,
         PyStr.contains "<partial-response"
           (PyStr.lower (unicode E) response_text) = false ->
         (do once <- _unwrap_jsf_partial_response E response_text ;;
          _unwrap_jsf_partial_response E once) st
         = (Ok response_text, st))
  /\ (forall response_text st exc,
         PyStr.contains "<partial-response"
           (PyStr.lower (unicode E) response_text) = true ->
         xml_fromstring E response_text = Raise exc ->
         _unwrap_jsf_partial_response E response_text st
         = (Ok response_text, st)).
Proof.
  assert (Hplain : forall response_text st,
      PyStr.contains "<partial-response"
        (PyStr.lower (unicode E) response_text) = false ->
      _unwrap_jsf_partial_response E response_text st
      = (Ok response_text, st)).
  { intros t st H. unfold _unwrap_jsf_partial_response. rewrite H.
    reflexivity. }
  split; [exact Hplain|]. split.
  - intros t st H. unfold bind. rewrite (Hplain t st H). apply Hplain, H.
  - intros t st exc H Hx. unfold _unwrap_jsf_partial_response.
    rewrite H. run_m. rewrite Hx. reflexivity.
Qed.

Lemma unwrap_plain_or_unparsable_witness :
  let E := Fixture.oracle "<index>" in
  let st := (Fixture.cookie_session, Fixture.world0) in
  _unwrap_jsf_partial_response E "<html><body>Sin datos</body></html>" st
  = (Ok "<html><body>Sin datos</body></html>", st)
  /\ _unwrap_jsf_partial_response E "<Partial-Response><changes>" st
     = (Ok "<Partial-Response><changes>", st).
Proof.
  intros E st.
  destruct (unwrap_plain_or_unparsable E) as (Hplain & _ & Hbad).
  split.
  - apply Hplain. reflexivity.
  - apply (Hbad _ st (ParseError "syntax error: line 1, column 0"));
      reflexivity.
Defined.


(** ** Empty identifiers *)

(** C5: for an identifier that is empty or made of white space only (the
    white space of Unicode, which [strip] removes), the query returns
    NO ENCONTRADO twice and no name, and leaves the session and the world as
    they were: no step of the authentication has run and no call to the
    portal has been made. *)
Theorem empty_radicado_not_found (E : Oracle) (radicado : str) (st : state) :
  all_space radicado = true ->
  get_info_for_radicado E radicado st
  = (Ok ("NO ENCONTRADO", "NO ENCONTRADO", None), st).
Proof.
  intros H. unfold get_info_for_radicado.
  rewrite (strip_all_space radicado H). reflexivity.
Qed.

Lemma empty_radicado_not_found_witness :
  let st := (Fixture.cookie_session, Fixture.world0) in
  let blank := Str 160%N (Str 12288%N (Str 9%N "  ")) in
  get_info_for_radicado (Fixture.oracle "<index>") blank st
  = (Ok ("NO ENCONTRADO", "NO ENCONTRADO", None), st)
  /\ sent (snd st) = [] /\ _is_authenticated (fst st) = false.
Proof.
  intros st blank. split; [|split; reflexivity].
  apply empty_radicado_not_found. reflexivity.
Defined.


(** ** Requests without authentication *)

Lemma init_without_cookie (E : Oracle) (cookie : option str)
    (flag : bool) (w : World) :
  PyStr.strip (PyStr.or_empty cookie) = "" ->
  exists s,
    __init__ E cookie flag w = (Ok s, tick w)
    /\ cookie_header s = "" /\ use_server_auth s = flag
    /\ _is_authenticated s = false.
Proof.
  intros H. unfold __init__. cbn [cookie_header]. rewrite H.
  cbn [PyStr.truthy]. unfold ret. eexists. split; [reflexivity|].
  repeat split.
Qed.

(** C9: when the normalized cookie is empty and the server-auth flag is
    off, the endpoint answers with a rejection that has no results and
    leaves the world as it was, no request sent; and a session that is not
    authenticated, has no cookie header and has the flag off raises a
    [ValueError] from [ensure_authenticated], again with nothing sent and
    nothing changed.  Such is the session the constructor makes when it is
    given no cookie and no flag. *)
Theorem no_cookie_no_server_auth (E : Oracle) :
  (forall request w,
      _normalize_cookie_header (unicode E) (rq_cookie request) = "" ->
      rq_use_server_auth request = false ->
      exists detail,
        bolivar_radicados E request w = (BadRequest detail, w)
        /\ response_results (fst (bolivar_radicados E request w)) = [])
  /\ (forall s w,
         _is_authenticated s = false ->
         cookie_header s = "" ->
         use_server_auth s = false ->
         exists msg,
           ensure_authenticated E (s, w) = (Raise (ValueError msg), (s, w)))
  /\ (forall cookie w,
         PyStr.strip (PyStr.or_empty cookie) = "" ->
         exists s msg,
           __init__ E cookie false w = (Ok s, tick w)
           /\ ensure_authenticated E (s, tick w)
              = (Raise (ValueError msg), (s, tick w))).
Proof.
  assert (Hsession : forall s w,
         _is_authenticated s = false ->
         cookie_header s = "" ->
         use_server_auth s = false ->
         exists msg,
           ensure_authenticated E (s, w) = (Raise (ValueError msg), (s, w))).
  { intros s w Ha Hc Hf. unfold ensure_authenticated. run_m.
    rewrite Ha, Hc, Hf. cbn. eexists. reflexivity. }
  split; [|split; [exact Hsession|]].
  - intros request w Hc Hf. unfold bolivar_radicados.
    rewrite Hc, Hf. cbn. eexists. split; reflexivity.
  - intros cookie w H.
    destruct (init_without_cookie E cookie false w H)
      as (s & Hinit & Hc & Hf & Ha).
    destruct (Hsession s (tick w) Ha Hc Hf) as (msg & Hm).
    exists s, msg. split; assumption.
Qed.

Lemma no_cookie_no_server_auth_witness :
  let E := Fixture.oracle "<index>" in
  let request :=
    {| rq_cookie := None; rq_radicados := RList ["A-100"];
       rq_use_server_auth := false |} in
  (exists detail,
      bolivar_radicados E request Fixture.world0
      = (BadRequest detail, Fixture.world0)
      /\ response_results (fst (bolivar_radicados E request Fixture.world0))
         = [])
  /\ (exists s msg,
         __init__ E (Some "  ") false Fixture.world0
         = (Ok s, tick Fixture.world0)
         /\ ensure_authenticated E (s, tick Fixture.world0)
            = (Raise (ValueError msg), (s, tick Fixture.world0))).
Proof.
  intros E request.
  destruct (no_cookie_no_server_auth E) as (Hbatch & _ & Hinit).
  split.
  - apply Hbatch; reflexivity.
  - apply Hinit. reflexivity.
Defined.


(** ** The state token *)

Lemma head_omap_some {A B} (f : A -> option B) (l : list A) (b : B) :
  head (omap f l) = Some b -> exists a, In a l /\ f a = Some b.
Proof.
  induction l as [|a l IH]; cbn; [discriminate|].
  destruct (f a) as [b'|] eqn:Hf; cbn.
  - intros [= ->]. exists a. split; [left; reflexivity | exact Hf].
  - intros H. destruct (IH H) as (a' & Hin & Ha').
    exists a'. split; [right; exact Hin | exact Ha'].
Qed.

Lemma partial_response_view_state_found (E : Oracle) (root : ET.element)
    (v : str) :
  partial_response_view_state E root = Some v ->
  v <> ""
  /\ exists elem,
      In elem (ET.iter root)
      /\ ET.is_update (unicode E) elem = true
      /\ PyStr.contains "javax.faces.viewstate"
           (PyStr.lower (unicode E)
              (PyStr.or_empty (ET.attrib_get "id" elem))) = true
      /\ ET.stripped_text elem = v.
Proof.
  intros H. apply head_omap_some in H. destruct H as (elem & Hin & H).
  destruct (ET.is_update (unicode E) elem) eqn:Hu; cbn in H; [|discriminate].
  destruct (PyStr.contains _ _) eqn:Hc in H; [|discriminate].
  destruct (ET.stripped_text elem) as [|c t] eqn:Ht; cbn in H;
    [discriminate|].
  injection H as <-. split; [discriminate|].
  exists elem. repeat split; assumption.
Qed.

Lemma find_attr_found (names : list str) (key value : str)
    (n d : Soup.node) :
  Soup.find_attr names key value n = Some d ->
  In d (Soup.descendants n)
  /\ Soup.is_tag_named names d = true
  /\ Soup.get key d = Some value.
Proof.
  intros H. apply find_some in H. destruct H as (Hin & H).
  apply andb_true_iff in H. destruct H as (Hn & Hk).
  apply bool_decide_eq_true in Hk. repeat split; assumption.
Qed.

(** The refresh, outcome by outcome. *)
Lemma refresh_run (E : Oracle) (html_text : str) (st : state) :
  _refresh_view_state_from_html E html_text st = refreshed E html_text st.
Proof.
  destruct st as [s w].
  assert (Hhtml :
    (do soup <- lift (html_parser E html_text) ;;
     match Soup.find_attr ["input"] "name" VIEW_STATE soup with
     | Some view_state_input =>
         if PyStr.truthy_opt (Soup.get "value" view_state_input)
         then modify_session
                (set_view_state_value (Soup.get "value" view_state_input))
         else ret tt
     | None => ret tt
     end) (s, w)
    = match html_parser E html_text with
      | Ok soup => (Ok tt, (with_token (page_token soup) s, w))
      | Raise exc => (Raise exc, (s, w))
      end).
  { run_m. destruct (html_parser E html_text) as [soup|exc]; [|reflexivity].
    unfold page_token.
    destruct (Soup.find_attr ["input"] "name" VIEW_STATE soup) as [inp|];
      [|reflexivity].
    destruct (Soup.get "value" inp) as [[|c t]|]; reflexivity. }
  unfold _refresh_view_state_from_html, refreshed, partial_token. cbn zeta.
  destruct (PyStr.contains "<partial-response"
              (PyStr.lower (unicode E) html_text)).
  - unfold bind at 1. unfold try_except, bind at 1, lift at 1.
    cbn [fst snd].
    destruct (xml_fromstring E html_text) as [root|exc].
    + destruct (partial_response_view_state E root) as [v|].
      * reflexivity.
      * unfold ret at 1. cbn [fst snd]. exact Hhtml.
    + unfold ret at 1. cbn [fst snd]. exact Hhtml.
  - unfold bind at 1, ret at 1. cbn [fst snd]. exact Hhtml.
Qed.

Lemma partial_token_in_document (E : Oracle) (html_text v : str) :
  partial_token E html_text = Some v ->
  v <> "" /\ token_in_document E html_text v.
Proof.
  unfold partial_token.
  destruct (PyStr.contains _ _); [|discriminate].
  destruct (xml_fromstring E html_text) as [root|exc] eqn:Hx; [|discriminate].
  intros Hp. apply partial_response_view_state_found in Hp.
  destruct Hp as (Hne & elem & Hin & Hu & Hc & Ht).
  split; [exact Hne|]. left. exists root, elem. auto.
Qed.

Lemma page_token_in_document (E : Oracle) (html_text v : str)
    (soup : Soup.node) :
  html_parser E html_text = Ok soup ->
  page_token soup = Some v ->
  v <> "" /\ token_in_document E html_text v.
Proof.
  intros Hparse. unfold page_token.
  destruct (Soup.find_attr ["input"] "name" VIEW_STATE soup) as [inp|] eqn:Hf;
    [|discriminate].
  apply find_attr_found in Hf. destruct Hf as (Hin & Hn & Hk).
  destruct (Soup.get "value" inp) as [[|c t]|] eqn:Hv; cbn;
    try discriminate.
  intros [= <-]. split; [discriminate|].
  right. exists soup, inp. auto.
Qed.

(** C7, amended: the refresh raises in one case only, when no token was
    taken from a partial response and the HTML parser, which is called
    outside the [try], rejects the document; it then raises what the parser
    raised and changes nothing.  In every other case it returns and leaves
    the world alone, and the session is either unchanged or has its token
    replaced by a non-empty token found in the document.  So a document in
    which no non-empty token is found leaves the session, and the tracked
    token with it, as it was, whether the refresh returns or raises. *)
Theorem refresh_view_state_keeps_or_replaces (E : Oracle) (html_text : str)
    (st : state) :
  let outcome := _refresh_view_state_from_html E html_text st in
  match fst outcome with
  | Raise exc =>
      partial_token E html_text = None
      /\ html_parser E html_text = Raise exc
      /\ snd outcome = st
  | Ok _ =>
      (is_Some (partial_token E html_text)
       \/ exists soup, html_parser E html_text = Ok soup)
      /\ snd (snd outcome) = snd st
      /\ (fst (snd outcome) = fst st
          \/ exists v,
              v <> "" /\ token_in_document E html_text v
              /\ fst (snd outcome)
                 = set_view_state_value (Some v) (fst st))
  end
  /\ ((forall v, token_in_document E html_text v -> v = "") ->
      snd outcome = st).
Proof.
  cbn zeta. rewrite refresh_run. unfold refreshed. destruct st as [s w].
  cbn [fst snd].
  destruct (partial_token E html_text) as [v|] eqn:Hp.
  - apply partial_token_in_document in Hp. destruct Hp as (Hne & Htok).
    cbn [fst snd]. split.
    + split; [left; eexists; reflexivity|]. split; [reflexivity|].
      right. exists v. auto.
    + intros Hnone. elim Hne. apply Hnone, Htok.
  - destruct (html_parser E html_text) as [soup|exc] eqn:Hparse;
      cbn [fst snd].
    + destruct (page_token soup) as [v|] eqn:Hv; cbn [with_token].
      * destruct (page_token_in_document E html_text v soup Hparse Hv)
          as (Hne & Htok).
        split.
        -- split; [right; exists soup; reflexivity|].
           split; [reflexivity|]. right. exists v. auto.
        -- intros Hnone. elim Hne. apply Hnone, Htok.
      * split; [|reflexivity].
        split; [right; exists soup; reflexivity|].
        split; [reflexivity | left; reflexivity].
    + split; [|reflexivity]. auto.
Qed.

Lemma refresh_view_state_keeps_or_replaces_witness :
  let E := Fixture.oracle "<index>" in
  let st := (set_view_state_value (Some "tok-0") Fixture.cookie_session,
             Fixture.world0) in
  snd (_refresh_view_state_from_html E "<html>Sesion expirada</html>" st)
  = st
  /\ snd (_refresh_view_state_from_html E Fixture.rejected_text st) = st.
Proof.
  intros E st. split.
  - apply (refresh_view_state_keeps_or_replaces
             E "<html>Sesion expirada</html>" st).
    intros v [(root & elem & Hx & _) | (soup & inp & Hs & Hin & Hn & _)].
    + discriminate Hx.
    + injection Hs as <-. cbn in Hin. destruct Hin as [<- | []].
      discriminate Hn.
  - apply (refresh_view_state_keeps_or_replaces E Fixture.rejected_text st).
    intros v [(root & elem & Hx & _) | (soup & inp & Hs & _)];
      discriminate.
Defined.

(** Against C7 as the claim has it: on a document that [html.parser]
    rejects the refresh raises. *)
Lemma refresh_view_state_raises :
  let E := Fixture.oracle "<index>" in
  let st := (set_view_state_value (Some "tok-0") Fixture.cookie_session,
             Fixture.world0) in
  ~ (exists st',
        _refresh_view_state_from_html E Fixture.rejected_text st
        = (Ok tt, st'))
  /\ fst (_refresh_view_state_from_html E Fixture.rejected_text st)
     = Raise (ParserRejectedMarkup
                "AssertionError: unknown status keyword 'foo bar' in marked section").
Proof.
  intros E st. split; [|reflexivity].
  intros (st' & H). vm_compute in H. discriminate H.
Qed.

(** ** The form resolver *)

Lemma head_app_first {A} (l1 l2 : list A) :
  head (l1 ++ l2)%list
  = match head l1 with Some x => Some x | None => head l2 end.
Proof. destruct l1; reflexivity. Qed.

Lemma head_filter_find {A} (p : A -> bool) (l : list A) :
  head (List.filter p l) = List.find p l.
Proof.
  induction l as [|a l IH]; [reflexivity|]. cbn.
  destruct (p a); [reflexivity | exact IH].
Qed.

Lemma find_filter_in {A} (p q : A -> bool) (l : list A) (a : A) :
  List.find p (List.filter q l) = Some a -> In a l.
Proof.
  intros H. apply find_some in H. destruct H as (H & _).
  apply filter_In in H. tauto.
Qed.

Lemma find_none_existsb {A} (p : A -> bool) (l : list A) :
  bool_decide (List.find p l <> None) = existsb p l.
Proof.
  induction l as [|a l IH]; [reflexivity|]. cbn [List.find existsb].
  destruct (p a); [reflexivity | exact IH].
Qed.

Lemma find_filter_existsb {A} (p q : A -> bool) (l : list A) :
  bool_decide (List.find (fun a => q a && p a) l <> None)
  = existsb p (List.filter q l).
Proof.
  rewrite find_none_existsb.
  induction l as [|a l IH]; [reflexivity|]. cbn [existsb List.filter].
  destruct (q a); cbn [andb existsb]; rewrite IH; reflexivity.
Qed.

Lemma attribute_or_empty (key : str) (tag : Soup.node) :
  attribute key tag = PyStr.or_empty (Soup.get key tag).
Proof. unfold attribute. destruct (Soup.get key tag); reflexivity. Qed.

Lemma prefix_app_self (p r : str) : Str.prefix p (p ++ r) = true.
Proof.
  induction p as [|a p IH]; [destruct r; reflexivity|].
  rewrite app_cons. cbn [Str.prefix].
  destruct (char_dec a a) as [_|Hne]; [exact IH | contradiction].
Qed.

Lemma prefix_app_l (p q s : str) :
  Str.prefix (p ++ q) s = true -> Str.prefix p s = true.
Proof.
  intros H. destruct (prefix_app_inv p q s H) as (r & -> & _).
  apply prefix_app_self.
Qed.

(** A text that ends with "/pages/index.xhtml" ends with "index.xhtml". *)
Lemma endswith_pages_index (a : str) :
  PyStr.endswith "/pages/index.xhtml" a = true ->
  PyStr.endswith "index.xhtml" a = true.
Proof.
  unfold PyStr.endswith.
  change (Str.rev "/pages/index.xhtml")
    with (Str.rev "index.xhtml" ++ Str.rev "/pages/").
  apply prefix_app_l.
Qed.

(** The four tests of the code are the tests of the design, amended. *)
Lemma has_busqueda_amended (E : Oracle) (form : Soup.node) :
  has_busqueda E form = amended_search_form (unicode E) form.
Proof.
  unfold has_busqueda, Soup.find_by, amended_search_form, tags_below.
  rewrite find_none_existsb.
  induction (Soup.descendants form) as [|d l IH]; [reflexivity|].
  cbn [existsb List.filter]. rewrite IH. unfold is_busqueda_field.
  destruct d as [nm attrs cs | cls t]; [|reflexivity].
  cbn [Soup.is_tag andb].
  destruct (Soup.is_tag_named ["input"; "textarea"] (Soup.Tag nm attrs cs));
    [|reflexivity].
  cbn [existsb andb]. rewrite !attribute_or_empty. reflexivity.
Qed.

Lemma is_form_index_amended (form : Soup.node) :
  is_form_index form = amended_canonical form.
Proof.
  unfold is_form_index, amended_canonical.
  rewrite !attribute_or_empty. reflexivity.
Qed.

Lemma posts_to_index_amended (E : Oracle) (form : Soup.node) :
  posts_to_index E form = amended_posts_to_landing (unicode E) form.
Proof.
  unfold posts_to_index, amended_posts_to_landing.
  rewrite attribute_or_empty. cbn zeta.
  destruct (PyStr.endswith "/pages/index.xhtml" _) eqn:H; [|reflexivity].
  rewrite (endswith_pages_index _ H). reflexivity.
Qed.

Lemma has_view_state_worded (form : Soup.node) :
  has_view_state form = worded_has_token form.
Proof.
  unfold has_view_state, Soup.find_attr, worded_has_token, tags_below.
  apply find_filter_existsb.
Qed.

Lemma resolve_by_priority_chain (t1 t2 t3 t4 : Soup.node -> bool)
    (forms : list Soup.node) :
  resolve_by_priority t1 t2 t3 t4 forms
  = let searchable := List.filter t1 forms in
    match List.find t2 searchable with
    | Some form => Some form
    | None =>
        match List.find t3 searchable with
        | Some form => Some form
        | None =>
            match head searchable with
            | Some form => Some form
            | None =>
                match List.find t4 forms with
                | Some form => Some form
                | None => head forms
                end
            end
        end
    end.
Proof.
  unfold resolve_by_priority. cbn zeta.
  rewrite !head_app_first, !head_filter_find. reflexivity.
Qed.

Lemma resolve_by_priority_ext (t1 t2 t3 t4 u1 u2 u3 u4 : Soup.node -> bool)
    (forms : list Soup.node) :
  (forall form, In form forms ->
     t1 form = u1 form /\ t2 form = u2 form /\ t3 form = u3 form
     /\ t4 form = u4 form) ->
  resolve_by_priority t1 t2 t3 t4 forms
  = resolve_by_priority u1 u2 u3 u4 forms.
Proof.
  intros H. unfold resolve_by_priority. cbn zeta.
  assert (H1 : List.filter t1 forms = List.filter u1 forms)
    by (apply filter_ext_in; intros f Hf; apply H, Hf).
  rewrite H1.
  assert (Hsub : forall f, In f (List.filter u1 forms) -> In f forms)
    by (intros f Hf; apply filter_In in Hf; tauto).
  rewrite (filter_ext_in t2 u2), (filter_ext_in t3 u3),
    (filter_ext_in t4 u4); [reflexivity | | |];
    intros f Hf; apply H; auto.
Qed.

Lemma resolve_by_priority_in (t1 t2 t3 t4 : Soup.node -> bool)
    (forms : list Soup.node) :
  forms <> [] ->
  exists form,
    resolve_by_priority t1 t2 t3 t4 forms = Some form /\ In form forms.
Proof.
  intros Hne. rewrite resolve_by_priority_chain. cbn zeta.
  destruct (List.find t2 (List.filter t1 forms)) as [f|] eqn:H1.
  { exists f. split; [reflexivity|]. eapply find_filter_in, H1. }
  destruct (List.find t3 (List.filter t1 forms)) as [f|] eqn:H2.
  { exists f. split; [reflexivity|]. eapply find_filter_in, H2. }
  destruct (List.filter t1 forms) as [|f others] eqn:Hs.
  - cbn [head].
    destruct (List.find t4 forms) as [f|] eqn:H3.
    { exists f. split; [reflexivity|]. apply find_some in H3. tauto. }
    destruct forms as [|f rest]; [contradiction|].
    exists f. split; [reflexivity | left; reflexivity].
  - exists f. split; [reflexivity|].
    assert (Hin : In f (List.filter t1 forms))
      by (rewrite Hs; left; reflexivity).
    apply filter_In in Hin. tauto.
Qed.

Lemma find_search_form_in_chain (E : Oracle) (soup : Soup.node) :
  find_search_form_in E soup
  = resolve_by_priority (amended_search_form (unicode E)) amended_canonical
      (amended_posts_to_landing (unicode E)) worded_has_token
      (tags_below ["form"] soup).
Proof.
  rewrite <- (resolve_by_priority_ext (has_busqueda E) is_form_index
                (posts_to_index E) has_view_state)
    by (intros form _; rewrite has_busqueda_amended, is_form_index_amended,
          posts_to_index_amended, has_view_state_worded; auto).
  rewrite resolve_by_priority_chain. unfold find_search_form_in, tags_below.
  cbn zeta. unfold Soup.find_all.
  destruct (List.filter (Soup.is_tag_named ["form"]) (Soup.descendants soup))
    as [|first_form rest]; [reflexivity|].
  destruct (List.filter (has_busqueda E) (first_form :: rest))
    as [|first_busqueda others]; [|reflexivity].
  cbn [List.find head].
  destruct (List.find has_view_state (first_form :: rest)); reflexivity.
Qed.

Lemma plainly_written_tests (U : PyStr.Unicode) (form : Soup.node) :
  plainly_written U form ->
  amended_search_form U form = worded_search_form form
  /\ amended_canonical form = worded_canonical form
  /\ amended_posts_to_landing U form = worded_posts_to_landing form
  /\ worded_has_token form = worded_has_token form.
Proof.
  intros (Hid & Hname & Haction & Hfields).
  split; [|split; [|split; [|reflexivity]]].
  - unfold amended_search_form, worded_search_form.
    induction (tags_below ["input"; "textarea"] form) as [|field l IH];
      [reflexivity|].
    cbn [existsb].
    destruct (Hfields field (or_introl eq_refl)) as (-> & ->).
    rewrite IH; [reflexivity|].
    intros f Hf. apply Hfields. right. exact Hf.
  - unfold amended_canonical, worded_canonical. rewrite Hid, Hname.
    reflexivity.
  - unfold amended_posts_to_landing, worded_posts_to_landing.
    rewrite Haction. reflexivity.
Qed.

(** C6, amended: the resolver raises what the HTML parser raises on a
    document it rejects.  On a document that the parser accepts it returns
    and changes nothing, and its choice among the forms of the page, in
    document order, is that of the ranked rules of the design, the first
    match winning, with these tests: a search form holds an input or a text
    area whose name or id, in lower case, ends with "busqueda"; the
    canonical form has the id or the name FormIndex once the white space
    around it is removed; a form posts to the landing page when its action,
    in lower case, ends with "index.xhtml"; a form has a state token when it
    holds an input named "javax.faces.ViewState".  On a page with a form
    that choice is a form of the page.  Where the ids and the names of the
    forms have no white space around them and the actions and the names and
    ids of the fields are in lower case, it is the choice by the tests as
    the design words them. *)
Theorem find_search_form_priority (E : Oracle) (html_text : str)
    (st : state) :
  match html_parser E html_text with
  | Raise exc => _find_search_form E html_text st = (Raise exc, st)
  | Ok soup =>
      let forms := tags_below ["form"] soup in
      let chosen :=
        resolve_by_priority (amended_search_form (unicode E))
          amended_canonical (amended_posts_to_landing (unicode E))
          worded_has_token forms in
      _find_search_form E html_text st = (Ok chosen, st)
      /\ (forms <> [] -> exists form, chosen = Some form /\ In form forms)
      /\ ((forall form, In form forms -> plainly_written (unicode E) form) ->
          chosen
          = resolve_by_priority worded_search_form worded_canonical
              worded_posts_to_landing worded_has_token forms)
  end.
Proof.
  unfold _find_search_form. run_m.
  destruct (html_parser E html_text) as [soup|exc]; [|reflexivity].
  cbn zeta. rewrite find_search_form_in_chain.
  split; [reflexivity|]. split; [apply resolve_by_priority_in|].
  intros Hplain. apply resolve_by_priority_ext.
  intros form Hin. apply plainly_written_tests, Hplain, Hin.
Qed.

Lemma find_search_form_priority_witness :
  let E := Fixture.oracle "<index>" in
  let st := (Fixture.cookie_session, Fixture.world0) in
  _find_search_form E "<index>" st = (Ok (Some Fixture.form_index), st)
  /\ _find_search_form E "<capital>" st = (Ok (Some Fixture.dialog_form), st)
  /\ _find_search_form E "<bare>" st = (Ok (Some Fixture.bare_form), st)
  /\ _find_search_form E "<plain>" st
     = (Ok (Some (Soup.Tag "form" [("id", "uno")] [])), st)
  /\ _find_search_form E "<result>" st = (Ok None, st)
  /\ fst (_find_search_form E Fixture.rejected_text st)
     = Raise (ParserRejectedMarkup
                "AssertionError: unknown status keyword 'foo bar' in marked section").
Proof.
  intros E st.
  pose proof (find_search_form_priority E "<index>" st) as H1.
  pose proof (find_search_form_priority E "<capital>" st) as H2.
  pose proof (find_search_form_priority E "<bare>" st) as H3.
  pose proof (find_search_form_priority E "<plain>" st) as H4.
  pose proof (find_search_form_priority E "<result>" st) as H5.
  pose proof (find_search_form_priority E Fixture.rejected_text st) as H6.
  cbn [html_parser E Fixture.oracle] in *.
  split; [destruct H1 as (-> & _); reflexivity|].
  split; [destruct H2 as (-> & _); reflexivity|].
  split; [destruct H3 as (-> & _); reflexivity|].
  split; [destruct H4 as (-> & _); reflexivity|].
  split; [destruct H5 as (-> & _); reflexivity|].
  rewrite H6. reflexivity.
Defined.

(** Against C6 as the claim has it.  On a page whose first search form
    posts to the landing page and whose second search form has the id
    FormIndex with a space before it, the code chooses the second, the
    rules as worded the first; on a page whose only search field is written
    in capitals the code still takes its form for a search form; and on a
    page with a form that [html.parser] rejects the code chooses no form
    but raises. *)
Lemma find_search_form_reads_padded_id :
  let E := Fixture.oracle "<padded>" in
  let st := (Fixture.cookie_session, Fixture.world0) in
  _find_search_form E "<padded>" st
  = (Ok (Some Fixture.padded_form_index), st)
  /\ resolve_by_priority worded_search_form worded_canonical
       worded_posts_to_landing worded_has_token
       (tags_below ["form"] Fixture.padded_soup)
     = Some Fixture.landing_form
  /\ Fixture.padded_form_index <> Fixture.landing_form
  /\ worded_canonical Fixture.padded_form_index = false
  /\ has_busqueda E Fixture.capital_form = true
  /\ worded_search_form Fixture.capital_form = false
  /\ ~ (exists chosen st',
           _find_search_form E Fixture.rejected_page st = (Ok chosen, st')).
Proof.
  intros E st. split; [reflexivity|]. split; [reflexivity|].
  split; [discriminate|]. split; [reflexivity|]. split; [reflexivity|].
  split; [reflexivity|].
  intros (chosen & st' & H). vm_compute in H. discriminate H.
Qed.

(** ** The payload of the search *)

Lemma hidden_step_skips_view_state (E : Oracle) (payload : gmap str str)
    (inp : Soup.node) :
  payload !! VIEW_STATE = None ->
  hidden_step E payload inp !! VIEW_STATE = None.
Proof.
  intros H. unfold hidden_step.
  destruct (negb (PyStr.truthy_opt (Soup.get "name" inp))); [exact H|].
  destruct (str_eqb_spec (PyStr.or_empty (Soup.get "name" inp)) VIEW_STATE)
    as [_|Hne]; [exact H|].
  destruct (Str.eqb _ "hidden"); [|exact H].
  rewrite lookup_insert_ne; [exact H | exact Hne].
Qed.

(** The hidden fields that are replayed never hold the token field. *)
Lemma hidden_fields_skip_view_state (E : Oracle) (form : Soup.node) :
  hidden_fields E form !! VIEW_STATE = None.
Proof.
  unfold hidden_fields.
  assert (H : forall inputs (payload : gmap str str),
             payload !! VIEW_STATE = None ->
             fold_left (hidden_step E) inputs payload !! VIEW_STATE = None).
  { induction inputs as [|inp inputs IH]; intros payload Hp; [exact Hp|].
    cbn. apply IH, hidden_step_skips_view_state, Hp. }
  apply H, lookup_empty.
Qed.

(** The payload holds the tracked token under the token field, whatever
    the form holds there, unless the submit control that was chosen has the
    name of the token field. *)
Lemma build_payload_view_state (E : Oracle) (form : Soup.node)
    (view_state solicitud : str) :
  choose_submit E (submit_candidates E form) <> Some VIEW_STATE ->
  build_payload E form view_state solicitud !! VIEW_STATE = Some view_state.
Proof.
  intros H. unfold build_payload. cbn zeta.
  destruct (choose_submit E (submit_candidates E form)) as [submit_name|].
  - rewrite lookup_insert_ne by congruence. apply lookup_insert_eq.
  - apply lookup_insert_eq.
Qed.

(** A submit control that was chosen is posted with its name as value. *)
Lemma build_payload_submit (E : Oracle) (form : Soup.node)
    (view_state solicitud submit_name : str) :
  choose_submit E (submit_candidates E form) = Some submit_name ->
  build_payload E form view_state solicitud !! submit_name = Some submit_name.
Proof.
  intros H. unfold build_payload. cbn zeta. rewrite H.
  apply lookup_insert_eq.
Qed.

(** C10 (the code on a page whose only form holds the token in an input
    without a type): the landing page sets the tracked token to "tok-bare";
    the form is resolved; its token input, which the loop over the hidden
    fields leaves out, is the only candidate for the submit control and is
    chosen; and the request that is posted carries the name of the token
    field, not the tracked token, under the token field. *)
Theorem payload_view_state_overwritten :
  let E := Fixture.oracle "<bare>" in
  let st := (Fixture.cookie_session, Fixture.world0) in
  view_state_value (fst (snd (_get_index E st))) = Some "tok-bare"
  /\ _find_search_form E "<bare>" st = (Ok (Some Fixture.bare_form), st)
  /\ hidden_fields E Fixture.bare_form !! VIEW_STATE = None
  /\ choose_submit E (submit_candidates E Fixture.bare_form) = Some VIEW_STATE
  /\ build_payload E Fixture.bare_form "tok-bare" "A-100" !! VIEW_STATE
     = Some "javax.faces.ViewState"
  /\ (rq_data <$> last (sent (snd (snd (get_info_for_radicado E "A-100" st)))))
     = Some (Some <$> build_payload E Fixture.bare_form "tok-bare" "A-100").
Proof.
  cbn zeta. repeat split; vm_compute; reflexivity.
Qed.


(** ** The batch loop *)

Lemma to_result_dict_id (r : BolivarResult) : _to_result_dict r = r.
Proof. destruct r; reflexivity. Qed.

Lemma map_to_result_dict (rs : list BolivarResult) :
  map _to_result_dict rs = rs.
Proof.
  induction rs as [|r rs IH]; [reflexivity|].
  cbn [map]. rewrite to_result_dict_id, IH. reflexivity.
Qed.

Lemma query_one_radicado (E : Oracle) (rad : str) (st : state) :
  radicado (fst (query_one E rad st)) = rad.
Proof.
  unfold query_one.
  destruct (get_info_for_radicado E rad (fst st, tick (snd st)))
    as [[[[raw normalizado] aseg]|exc] st'];
    [reflexivity | destruct exc; reflexivity].
Qed.

Lemma query_one_raise (E : Oracle) (rad : str) (st : state) (exc : exn) :
  fst (get_info_for_radicado E rad (fst st, tick (snd st))) = Raise exc ->
  fst (query_one E rad st)
  = failed_result rad (utcnow_isoformat E (ticks (snd st))) exc.
Proof.
  unfold query_one.
  destruct (get_info_for_radicado E rad (fst st, tick (snd st)))
    as [[[[raw normalizado] aseg]|exc'] st']; cbn [fst].
  - discriminate.
  - intros [= ->]. destruct exc; reflexivity.
Qed.

Lemma query_one_failed (E : Oracle) (rad : str) (st : state) :
  ok (fst (query_one E rad st)) = false ->
  estado_raw (fst (query_one E rad st)) = None
  /\ estado_normalizado (fst (query_one E rad st)) = Some NO_ENCONTRADO.
Proof.
  unfold query_one.
  destruct (get_info_for_radicado E rad (fst st, tick (snd st)))
    as [[[[raw normalizado] aseg]|exc] st'].
  - cbn. discriminate.
  - destruct exc; cbn; auto.
Qed.

Lemma batch_loop_acc (E : Oracle) (radicados : list str)
    (acc : list BolivarResult) (st : state) :
  batch_loop E radicados acc st
  = ((acc ++ fst (batch_loop E radicados [] st))%list,
     snd (batch_loop E radicados [] st)).
Proof.
  revert acc st; induction radicados as [|rad rest IH]; intros acc st.
  - cbn. rewrite app_nil_r. reflexivity.
  - cbn [batch_loop]. destruct (query_one E rad st) as [res st'].
    rewrite (IH (acc ++ [res])%list), (IH ([] ++ [res])%list).
    cbn [fst snd]. rewrite <- app_assoc. reflexivity.
Qed.

Lemma batch_loop_cons (E : Oracle) (rad : str) (rest : list str)
    (st : state) :
  batch_loop E (rad :: rest) [] st
  = (fst (query_one E rad st)
       :: fst (batch_loop E rest [] (snd (query_one E rad st))),
     snd (batch_loop E rest [] (snd (query_one E rad st)))).
Proof.
  cbn [batch_loop]. destruct (query_one E rad st) as [res st'].
  rewrite batch_loop_acc. reflexivity.
Qed.

Lemma batch_loop_app (E : Oracle) (l1 l2 : list str) (st : state) :
  batch_loop E (l1 ++ l2)%list [] st
  = ((fst (batch_loop E l1 [] st)
        ++ fst (batch_loop E l2 [] (snd (batch_loop E l1 [] st))))%list,
     snd (batch_loop E l2 [] (snd (batch_loop E l1 [] st)))).
Proof.
  revert st; induction l1 as [|rad l1 IH]; intros st.
  - cbn. destruct (batch_loop E l2 [] st); reflexivity.
  - rewrite <- app_comm_cons, !batch_loop_cons, IH. reflexivity.
Qed.

Lemma batch_loop_radicados (E : Oracle) (radicados : list str)
    (st : state) :
  map radicado (fst (batch_loop E radicados [] st)) = radicados.
Proof.
  revert st; induction radicados as [|rad rest IH]; intros st;
    [reflexivity|].
  rewrite batch_loop_cons. cbn [fst map].
  rewrite query_one_radicado, IH. reflexivity.
Qed.

Lemma batch_loop_length (E : Oracle) (radicados : list str) (st : state) :
  length (fst (batch_loop E radicados [] st)) = length radicados.
Proof.
  rewrite <- (batch_loop_radicados E radicados st) at 2.
  rewrite length_map. reflexivity.
Qed.

Lemma batch_loop_lookup (E : Oracle) (radicados : list str) (st : state)
    (i : nat) (rad : str) :
  radicados !! i = Some rad ->
  fst (batch_loop E radicados [] st) !! i
  = Some (fst (query_one E rad
                 (snd (batch_loop E (take i radicados) [] st)))).
Proof.
  intros H.
  rewrite <- (take_drop_middle radicados i rad H) at 1.
  rewrite batch_loop_app, batch_loop_cons. cbn [fst].
  apply list_lookup_middle.
  rewrite batch_loop_length, length_take.
  apply lookup_lt_Some in H. lia.
Qed.

Lemma batch_loop_failed (E : Oracle) (radicados : list str) (st : state)
    (res : BolivarResult) :
  In res (fst (batch_loop E radicados [] st)) ->
  ok res = false ->
  estado_raw res = None /\ estado_normalizado res = Some NO_ENCONTRADO.
Proof.
  revert st; induction radicados as [|rad rest IH]; intros st;
    [intros []|].
  rewrite batch_loop_cons. cbn [fst]. intros [<- | Hin].
  - apply query_one_failed.
  - eapply IH, Hin.
Qed.

Lemma query_one_state (E : Oracle) (rad : str) (st : state) :
  snd (query_one E rad st)
  = snd (get_info_for_radicado E rad (fst st, tick (snd st))).
Proof.
  unfold query_one.
  destruct (get_info_for_radicado E rad (fst st, tick (snd st)))
    as [[[[raw normalizado] aseg]|exc] st'];
    [reflexivity | destruct exc; reflexivity].
Qed.

Lemma batch_loop_state (E : Oracle) (radicados : list str) (st : state) :
  snd (batch_loop E radicados [] st) = after_queries E radicados st.
Proof.
  revert st; induction radicados as [|rad rest IH]; intros st;
    [reflexivity|].
  rewrite batch_loop_cons. cbn [snd after_queries].
  rewrite IH, query_one_state. reflexivity.
Qed.

(** What the endpoint answers when it does not reject the request. *)
Lemma bolivar_radicados_accepted (E : Oracle) (request : batch_request)
    (w : World) (fetched_at : str) (count : nat)
    (results : list BolivarResult) (w' : World) :
  bolivar_radicados E request w
  = (BatchResponse fetched_at count results, w') ->
  exists session w0,
    results
    = fst (batch_loop E (_normalize_radicados (rq_radicados request)) []
             (session, w0))
    /\ count = length results.
Proof.
  unfold bolivar_radicados.
  destruct (negb (PyStr.truthy _) && negb _); [discriminate|].
  destruct (_normalize_radicados (rq_radicados request)) as [|rad rest];
    [discriminate|].
  destruct (__init__ E _ _ _) as [[session|exc] w0]; [|discriminate].
  destruct (batch_loop E (rad :: rest) [] (session, w0)) as [rs st] eqn:Hb.
  intros [= _ <- <- _]. exists session, w0.
  rewrite map_to_result_dict, Hb. split; reflexivity.
Qed.

(** The same, with the session the batch starts from. *)
Lemma bolivar_radicados_run (E : Oracle) (request : batch_request)
    (w : World) (fetched_at : str) (count : nat)
    (results : list BolivarResult) (w' : World) :
  bolivar_radicados E request w
  = (BatchResponse fetched_at count results, w') ->
  let radicados := _normalize_radicados (rq_radicados request) in
  let header := _normalize_cookie_header (unicode E) (rq_cookie request) in
  exists session w0,
    __init__ E (if PyStr.truthy header then Some header else None)
      (rq_use_server_auth request) (tick w)
    = (Ok session, w0)
    /\ results = fst (batch_loop E radicados [] (session, w0))
    /\ count = length radicados
    /\ w' = snd (after_queries E radicados (session, w0))
    /\ fetched_at = utcnow_isoformat E (ticks w)
    /\ radicados <> []
    /\ (header <> "" \/ rq_use_server_auth request = true).
Proof.
  unfold bolivar_radicados. cbn zeta.
  destruct (negb (PyStr.truthy _) && negb _) eqn:Hgate; [discriminate|].
  destruct (_normalize_radicados (rq_radicados request)) as [|rad rest];
    [discriminate|].
  destruct (__init__ E _ _ _) as [[session|exc] w0]; [|discriminate].
  destruct (batch_loop E (rad :: rest) [] (session, w0)) as [rs st] eqn:Hb.
  intros [= <- <- <- <-]. exists session, w0.
  rewrite map_to_result_dict, <- batch_loop_state, Hb. cbn [fst snd].
  split; [reflexivity|]. split; [reflexivity|].
  split.
  { rewrite <- (batch_loop_length E (rad :: rest) (session, w0)), Hb.
    reflexivity. }
  split; [reflexivity|]. split; [reflexivity|]. split; [discriminate|].
  apply andb_false_iff in Hgate. destruct Hgate as [H|H].
  - left. apply negb_false_iff, truthy_iff in H. exact H.
  - right. apply negb_false_iff in H. exact H.
Qed.

(** C1: when the endpoint answers with results, these are the results of
    the queries it has run, one for each identifier of the request, in
    order, each query on the session as the queries before it left it, after
    a reading of the clock.  When the query of the identifier at position
    [i] raises an exception [exc] of any class, [NotImplementedError]
    included, the result at position [i] has [ok] false, no raw status,
    NO ENCONTRADO as normalized status, no name, and [str(exc)] as error,
    and the identifiers after it are queried all the same; when the query
    returns, the result has [ok] true and what the query returned.  No
    result has [ok] false and a raw status. *)
Theorem batch_isolates_failures (E : Oracle) (request : batch_request)
    (w w' : World) (fetched_at : str) (count : nat)
    (results : list BolivarResult) :
  bolivar_radicados E request w
  = (BatchResponse fetched_at count results, w') ->
  let radicados := _normalize_radicados (rq_radicados request) in
  let header := _normalize_cookie_header (unicode E) (rq_cookie request) in
  exists session w0,
    __init__ E (if PyStr.truthy header then Some header else None)
      (rq_use_server_auth request) (tick w)
    = (Ok session, w0)
    /\ count = length radicados
    /\ length results = length radicados
    /\ (forall i rad,
           radicados !! i = Some rad ->
           let before := after_queries E (take i radicados) (session, w0) in
           let at_ := utcnow_isoformat E (ticks (snd before)) in
           match fst (get_info_for_radicado E rad
                        (fst before, tick (snd before))) with
           | Raise exc =>
               results !! i
               = Some {| radicado := rad; ok := false; estado_raw := None;
                         estado_normalizado := Some "NO ENCONTRADO";
                         asegurado := None; consulted_at := at_;
                         error := Some (str_exc exc) |}
           | Ok (raw, normalizado, aseg) =>
               results !! i
               = Some {| radicado := rad; ok := true;
                         estado_raw := Some raw;
                         estado_normalizado := Some normalizado;
                         asegurado := aseg; consulted_at := at_;
                         error := None |}
           end)
    /\ (forall res,
           In res results -> ok res = false ->
           estado_raw res = None
           /\ estado_normalizado res = Some "NO ENCONTRADO")
    /\ w' = snd (after_queries E radicados (session, w0)).
Proof.
  intros Hb radicados header.
  destruct (bolivar_radicados_run E request w fetched_at count results w' Hb)
    as (session & w0 & Hinit & -> & Hcount & Hw & _).
  fold radicados in Hcount, Hw. fold radicados. fold header in Hinit.
  exists session, w0.
  split; [exact Hinit|]. split; [exact Hcount|].
  split; [apply batch_loop_length|]. split; [|split; [|exact Hw]].
  - intros i rad Hi before at_.
    rewrite (batch_loop_lookup E radicados (session, w0) i rad Hi).
    rewrite batch_loop_state. fold before. unfold query_one. fold at_.
    destruct (get_info_for_radicado E rad (fst before, tick (snd before)))
      as [[[[raw normalizado] aseg]|exc] st']; cbn [fst];
      [reflexivity | destruct exc; reflexivity].
  - intros res Hin Hok.
    apply (batch_loop_failed E radicados (session, w0) res Hin Hok).
Qed.

Lemma batch_isolates_failures_witness :
  exists fetched_at count results w',
    bolivar_radicados (Fixture.oracle "<index>")
      (Fixture.cookie_request (RList ["A-1"; "B-2"; "C-3"])) Fixture.world0
    = (BatchResponse fetched_at count results, w')
    /\ count = 3
    /\ results !! 1
       = Some {| radicado := "B-2"; ok := false; estado_raw := None;
                 estado_normalizado := Some "NO ENCONTRADO";
                 asegurado := None;
                 consulted_at := "2024-05-01T12:00:00+00:00";
                 error := Some "Read timed out. (read timeout=30)" |}
    /\ map ok results = [true; false; true].
Proof.
  destruct (bolivar_radicados (Fixture.oracle "<index>")
              (Fixture.cookie_request (RList ["A-1"; "B-2"; "C-3"]))
              Fixture.world0)
    as [[detail|fetched_at count results] w'] eqn:Hb;
    [vm_compute in Hb; discriminate Hb|].
  exists fetched_at, count, results, w'. split; [reflexivity|].
  destruct (batch_isolates_failures _ _ _ _ _ _ _ Hb)
    as (session & w0 & Hinit & Hcount & _ & Hat & _).
  split; [exact Hcount|].
  vm_compute in Hinit. injection Hinit as <- <-.
  split.
  - apply (Hat 1 "B-2"). reflexivity.
  - vm_compute in Hb. injection Hb as _ _ <- _. reflexivity.
Defined.

(** ** The identifiers of a request *)

Lemma stripped_nonempty_filter_map (candidates : list str) :
  stripped_nonempty candidates
  = List.filter PyStr.truthy (map PyStr.strip candidates).
Proof.
  unfold stripped_nonempty.
  induction candidates as [|c rest IH]; [reflexivity|].
  rewrite filter_cons. cbn [map List.filter].
  destruct (decide (PyStr.truthy (PyStr.strip c) = true)) as [H|H].
  - rewrite H. cbn [map]. rewrite IH. reflexivity.
  - apply not_true_is_false in H. rewrite H. exact IH.
Qed.

Lemma replace_char_eq (c : char) (new t : str) :
  PyStr.replace_char c new (Str c t)
  = new ++ PyStr.replace_char c new t.
Proof. cbn [PyStr.replace_char]. rewrite N.eqb_refl. reflexivity. Qed.

Lemma replace_char_ne (c d : char) (new t : str) :
  c <> d ->
  PyStr.replace_char c new (Str d t)
  = Str d (PyStr.replace_char c new t).
Proof.
  intros H. cbn [PyStr.replace_char].
  destruct (N.eqb_spec c d); [contradiction | reflexivity].
Qed.

Lemma split_go_eq (c : char) (cur t : str) :
  PyStr.split_go c cur (Str c t)
  = Str.rev cur :: PyStr.split_go c "" t.
Proof. cbn [PyStr.split_go]. rewrite N.eqb_refl. reflexivity. Qed.

Lemma split_go_ne (c d : char) (cur t : str) :
  c <> d ->
  PyStr.split_go c cur (Str d t) = PyStr.split_go c (Str d cur) t.
Proof.
  intros H. cbn [PyStr.split_go].
  destruct (N.eqb_spec c d); [contradiction | reflexivity].
Qed.

Lemma is_radicado_sep_false (d : char) :
  PyStr.CR <> d -> PyStr.LF <> d -> ","%c <> d -> ";"%c <> d ->
  is_radicado_sep d = false.
Proof.
  intros H1 H2 H3 H4. unfold is_radicado_sep.
  destruct (N.eqb_spec d PyStr.CR); [congruence|].
  destruct (N.eqb_spec d PyStr.LF); [congruence|].
  destruct (N.eqb_spec d ","%c); [congruence|].
  destruct (N.eqb_spec d ";"%c); [congruence|].
  reflexivity.
Qed.

Lemma radicados_pieces_split_any (value : str) :
  radicados_pieces value = split_any is_radicado_sep value.
Proof.
  unfold radicados_pieces, split_any, PyStr.split.
  generalize "" as cur.
  induction value as [|d t IH]; intros cur; [reflexivity|].
  cbn [split_any_go].
  destruct (char_dec PyStr.CR d) as [<-|Hcr].
  { rewrite replace_char_eq. change (PyStr.chr PyStr.LF ++ ?s)
      with (Str PyStr.LF s).
    rewrite !replace_char_ne by discriminate.
    rewrite split_go_eq, IH. reflexivity. }
  rewrite (replace_char_ne PyStr.CR) by exact Hcr.
  destruct (char_dec ","%c d) as [<-|Hcomma].
  { rewrite replace_char_eq. change (PyStr.chr PyStr.LF ++ ?s)
      with (Str PyStr.LF s).
    rewrite !replace_char_ne by discriminate.
    rewrite split_go_eq, IH. reflexivity. }
  rewrite (replace_char_ne ","%c) by exact Hcomma.
  destruct (char_dec ";"%c d) as [<-|Hsemi].
  { rewrite replace_char_eq. change (PyStr.chr PyStr.LF ++ ?s)
      with (Str PyStr.LF s).
    rewrite split_go_eq, IH. reflexivity. }
  rewrite (replace_char_ne ";"%c) by exact Hsemi.
  destruct (char_dec PyStr.LF d) as [<-|Hlf].
  { rewrite split_go_eq, IH. reflexivity. }
  rewrite split_go_ne by exact Hlf.
  rewrite is_radicado_sep_false by assumption.
  apply IH.
Qed.

Lemma radicados_candidates_written (value : radicados_value) :
  radicados_candidates value
  = List.filter PyStr.truthy (map PyStr.strip (written_identifiers value)).
Proof.
  destruct value as [|s|items|text]; cbn [radicados_candidates
    written_identifiers]; rewrite ?stripped_nonempty_filter_map;
    rewrite ?radicados_pieces_split_any; reflexivity.
Qed.

Lemma filter_filter_bool {A} (p q : A -> bool) (l : list A) :
  List.filter p (List.filter q l) = List.filter (fun x => q x && p x) l.
Proof.
  induction l as [|a l IH]; [reflexivity|]. cbn.
  destruct (q a); cbn; [destruct (p a)|]; rewrite ?IH; reflexivity.
Qed.

Lemma dedup_loop_first_seen (seen : gset str) (unique rs : list str) :
  dedup_loop seen unique rs
  = (unique
     ++ List.filter (fun y => bool_decide (y ∉ seen)) (first_seen rs))%list.
Proof.
  revert seen unique; induction rs as [|r rest IH]; intros seen unique.
  - cbn. rewrite app_nil_r. reflexivity.
  - cbn [dedup_loop first_seen List.filter].
    destruct (decide (r ∈ seen)) as [Hin|Hnin].
    + rewrite bool_decide_eq_false_2 by (intros H; exact (H Hin)).
      rewrite IH, filter_filter_bool.
      apply (f_equal (fun l => (unique ++ l)%list)).
      symmetry. apply filter_ext_in. intros y _.
      destruct (str_eqb_spec y r) as [->|Hne]; cbn; [|reflexivity].
      symmetry. apply bool_decide_eq_false_2. intros H; exact (H Hin).
    + rewrite bool_decide_eq_true_2 by exact Hnin.
      rewrite IH, filter_filter_bool, <- app_assoc. cbn [app].
      apply (f_equal (fun l => (unique ++ r :: l)%list)).
      apply filter_ext_in. intros y _.
      destruct (str_eqb_spec y r) as [->|Hne]; cbn.
      * apply bool_decide_eq_false_2. intros H. apply H.
        apply elem_of_union_l, elem_of_singleton. reflexivity.
      * apply bool_decide_ext. rewrite not_elem_of_union, elem_of_singleton.
        tauto.
Qed.

Lemma normalize_radicados_first_seen (value : radicados_value) :
  _normalize_radicados value = distinct_identifiers value.
Proof.
  unfold _normalize_radicados, distinct_identifiers.
  rewrite dedup_loop_first_seen, radicados_candidates_written.
  cbn [app]. generalize (first_seen
    (List.filter PyStr.truthy (map PyStr.strip (written_identifiers value)))).
  intros l. induction l as [|a l IH]; [reflexivity|].
  cbn [List.filter].
  rewrite bool_decide_eq_true_2 by apply not_elem_of_empty.
  rewrite IH. reflexivity.
Qed.

Lemma first_seen_in (l : list str) (x : str) :
  In x (first_seen l) <-> In x l.
Proof.
  induction l as [|a l IH]; [reflexivity|].
  cbn [first_seen In]. rewrite filter_In, IH.
  destruct (str_eqb_spec x a) as [->|Hne]; cbn; split; intros H;
    try tauto; try (right; tauto).
Qed.

Lemma first_seen_nodup (l : list str) : List.NoDup (first_seen l).
Proof.
  induction l as [|a l IH]; [constructor|].
  cbn [first_seen]. constructor.
  - rewrite filter_In. intros (_ & H).
    rewrite str_eqb_refl in H. discriminate H.
  - apply List.NoDup_filter, IH.
Qed.

Lemma filter_split_inv {A} (f : A -> bool) (l l1 r : list A) (x : A) :
  List.filter f l = (l1 ++ x :: r)%list ->
  exists m1 m2,
    l = (m1 ++ x :: m2)%list
    /\ List.filter f m1 = l1 /\ List.filter f m2 = r.
Proof.
  revert l1; induction l as [|a l IH]; intros l1 H.
  - destruct l1; discriminate H.
  - cbn in H. destruct (f a) eqn:Hf.
    + destruct l1 as [|b l1]; cbn in H.
      * injection H as -> Hr. exists [], l. cbn. auto.
      * injection H as -> Hr. destruct (IH l1 Hr) as (m1 & m2 & -> & H1 & H2).
        exists (b :: m1), m2. cbn. rewrite Hf, H1. auto.
    + destruct (IH l1 H) as (m1 & m2 & -> & H1 & H2).
      exists (a :: m1), m2. cbn. rewrite Hf. auto.
Qed.

Lemma filter_stands_before (f : str -> bool) (l : list str)
    (x y : str) :
  stands_before x y (List.filter f l) -> stands_before x y l.
Proof.
  intros (l1 & l2 & l3 & H).
  apply filter_split_inv in H. destruct H as (m1 & m2 & -> & _ & H).
  apply filter_split_inv in H. destruct H as (n1 & n2 & -> & _ & _).
  exists m1, n1, n2. reflexivity.
Qed.

Lemma first_seen_order (l : list str) (x y : str) :
  stands_before x y (first_seen l) -> seen_before x y l.
Proof.
  induction l as [|a l IH]; intros (l1 & l2 & l3 & H).
  - destruct l1; discriminate H.
  - cbn [first_seen] in H. destruct l1 as [|b l1]; cbn in H.
    + injection H as -> _. exists [], l. split; [reflexivity | intros []].
    + injection H as -> H.
      assert (Hy : In y (List.filter (fun z => negb (Str.eqb z b))
                           (first_seen l))).
      { rewrite H. apply in_or_app. right. right.
        apply in_or_app. right. left. reflexivity. }
      apply filter_In in Hy. destruct Hy as (_ & Hy).
      destruct (IH (filter_stands_before _ _ _ _
                      (ex_intro _ l1 (ex_intro _ l2 (ex_intro _ l3 H)))))
        as (p & q & -> & Hp).
      exists (b :: p), q. split; [reflexivity|].
      intros [<- | Hin]; [|exact (Hp Hin)].
      rewrite str_eqb_refl in Hy. discriminate Hy.
Qed.


(** ** The cookie header *)

Lemma has_char_app (c : char) (a b : str) :
  has_char c (a ++ b) = has_char c a || has_char c b.
Proof.
  induction a as [|d a IH]; [reflexivity|].
  rewrite app_cons. cbn [has_char]. rewrite IH, orb_assoc. reflexivity.
Qed.

Lemma has_char_rev (c : char) (s : str) :
  has_char c (Str.rev s) = has_char c s.
Proof.
  induction s as [|d s IH]; [reflexivity|].
  rewrite str_rev_cons, has_char_app, IH. cbn [has_char].
  rewrite orb_false_r, orb_comm. reflexivity.
Qed.

Lemma has_char_lstrip (c : char) (s : str) :
  has_char c s = false -> has_char c (PyStr.lstrip s) = false.
Proof.
  destruct (lstrip_decompose s) as (ws & Hs & _). intros H.
  rewrite Hs, has_char_app in H. apply orb_false_iff in H. tauto.
Qed.

Lemma has_char_strip (c : char) (s : str) :
  has_char c s = false -> has_char c (PyStr.strip s) = false.
Proof.
  intros H. unfold PyStr.strip, PyStr.rstrip.
  rewrite has_char_rev. apply has_char_lstrip.
  rewrite has_char_rev. apply has_char_lstrip, H.
Qed.

Lemma has_char_replaced (c : char) (new s : str) :
  has_char c new = false -> has_char c (PyStr.replace_char c new s) = false.
Proof.
  intros Hn. induction s as [|d s IH]; [reflexivity|].
  cbn [PyStr.replace_char]. destruct (N.eqb c d) eqn:Hcd.
  - rewrite has_char_app, Hn, IH. reflexivity.
  - cbn [has_char]. rewrite Hcd, IH. reflexivity.
Qed.

Lemma has_char_replace_other (c d : char) (new s : str) :
  has_char c new = false -> has_char c s = false ->
  has_char c (PyStr.replace_char d new s) = false.
Proof.
  intros Hn. induction s as [|x s IH]; [reflexivity|].
  cbn [has_char PyStr.replace_char]. intros H.
  apply orb_false_iff in H. destruct H as (Hx & Hs).
  destruct (N.eqb d x).
  - rewrite has_char_app, Hn, (IH Hs). reflexivity.
  - cbn [has_char]. rewrite Hx, (IH Hs). reflexivity.
Qed.

Lemma split_go_without (c d : char) (cur s : str) :
  has_char d cur = false ->
  has_char d s = false \/ d = c ->
  Forall (fun p => has_char d p = false) (PyStr.split_go c cur s).
Proof.
  revert cur; induction s as [|x s IH]; intros cur Hcur Hs.
  - cbn. constructor; [rewrite has_char_rev; exact Hcur | constructor].
  - cbn [PyStr.split_go]. destruct (N.eqb_spec c x) as [<-|Hne].
    + constructor; [rewrite has_char_rev; exact Hcur|].
      apply IH; [reflexivity|]. destruct Hs as [Hs | ->]; [|right; reflexivity].
      cbn [has_char] in Hs. apply orb_false_iff in Hs. left. tauto.
    + apply IH.
      * cbn [has_char]. rewrite Hcur, orb_false_r.
        destruct Hs as [Hs | ->].
        -- cbn [has_char] in Hs. apply orb_false_iff in Hs. tauto.
        -- destruct (N.eqb_spec c x); [contradiction | reflexivity].
      * destruct Hs as [Hs | ->]; [|right; reflexivity].
        cbn [has_char] in Hs. apply orb_false_iff in Hs. left. tauto.
Qed.

Lemma has_char_join (c : char) (sep : str) (pieces : list str) :
  has_char c sep = false ->
  Forall (fun p => has_char c p = false) pieces ->
  has_char c (PyStr.join sep pieces) = false.
Proof.
  intros Hsep. induction 1 as [|p rest Hp Hrest IH]; [reflexivity|].
  cbn [PyStr.join]. destruct rest as [|q rest]; [exact Hp|].
  rewrite !has_char_app, Hp, Hsep, IH. reflexivity.
Qed.

Lemma join_trimmed (pieces : list str) :
  Forall trimmed pieces -> pieces <> [] ->
  starts_nonspace (PyStr.join "; " pieces) = true
  /\ starts_nonspace (Str.rev (PyStr.join "; " pieces)) = true.
Proof.
  induction 1 as [|p rest (Hne & Hp) Hrest IH]; [contradiction|]. intros _.
  assert (Hst := strip_starts p). rewrite Hp in Hst.
  destruct (Hst Hne) as (H1 & H2).
  cbn [PyStr.join]. destruct rest as [|q rest]; [split; assumption|].
  destruct IH as (_ & IH2); [discriminate|]. split.
  - apply starts_nonspace_app, H1.
  - rewrite !str_rev_app, str_app_assoc. apply starts_nonspace_app, IH2.
Qed.

Lemma stripped_nonempty_trimmed (candidates : list str) :
  Forall trimmed (stripped_nonempty candidates).
Proof.
  rewrite stripped_nonempty_filter_map. apply List.Forall_forall.
  intros x Hx. apply filter_In in Hx. destruct Hx as (Hx & Ht).
  apply in_map_iff in Hx. destruct Hx as (c & <- & _).
  split; [apply truthy_iff, Ht | apply strip_idem].
Qed.

Lemma stripped_nonempty_without (c : char) (candidates : list str) :
  Forall (fun p => has_char c p = false) candidates ->
  Forall (fun p => has_char c p = false) (stripped_nonempty candidates).
Proof.
  rewrite stripped_nonempty_filter_map, !List.Forall_forall.
  intros H x Hx. apply filter_In in Hx. destruct Hx as (Hx & _).
  apply in_map_iff in Hx. destruct Hx as (p & <- & Hp).
  apply has_char_strip, H, Hp.
Qed.

Lemma cookie_header_shape (U : PyStr.Unicode) (raw : option str) :
  let header := _normalize_cookie_header U raw in
  (header = "" \/ trimmed header)
  /\ has_char PyStr.CR header = false
  /\ has_char PyStr.LF header = false
  /\ exists pieces,
      header = PyStr.join "; " pieces
      /\ Forall (fun p => trimmed p /\ has_char ";"%c p = false) pieces.
Proof.
  unfold _normalize_cookie_header.
  destruct (negb (PyStr.truthy (PyStr.strip (PyStr.or_empty raw)))).
  { cbn zeta.
    repeat split; [left; reflexivity | exists []; split; constructor]. }
  cbn zeta.
  set (value := if PyStr.startswith "cookie:" _ then _ else _).
  set (line := PyStr.replace_char PyStr.LF ";"
                 (PyStr.replace_char PyStr.CR "" value)).
  change (map PyStr.strip (filter _ (PyStr.split ";"%c line)))
    with (stripped_nonempty (PyStr.split ";"%c line)).
  set (pieces := stripped_nonempty (PyStr.split ";"%c line)).
  assert (Hcr : has_char PyStr.CR line = false).
  { apply has_char_replace_other; [reflexivity|].
    apply has_char_replaced. reflexivity. }
  assert (Hlf : has_char PyStr.LF line = false)
    by (apply has_char_replaced; reflexivity).
  assert (Hwithout : forall d,
             has_char d line = false \/ d = ";"%c ->
             Forall (fun p => has_char d p = false) pieces).
  { intros d Hd. apply stripped_nonempty_without.
    apply split_go_without; [reflexivity | exact Hd]. }
  assert (Htrim : Forall trimmed pieces) by apply stripped_nonempty_trimmed.
  split; [|split; [|split]].
  - destruct pieces as [|p rest] eqn:Hp; [left; reflexivity|]. right.
    destruct (join_trimmed (p :: rest) Htrim) as (H1 & H2); [discriminate|].
    split.
    + intros He. rewrite He in H1. discriminate H1.
    + apply strip_fixed; assumption.
  - apply has_char_join; [reflexivity | apply Hwithout; left; exact Hcr].
  - apply has_char_join; [reflexivity | apply Hwithout; left; exact Hlf].
  - exists pieces. split; [reflexivity|].
    specialize (Hwithout ";"%c (or_intror eq_refl)).
    rewrite List.Forall_forall in *. intros p Hp.
    split; [apply Htrim, Hp | apply Hwithout, Hp].
Qed.

(** The normalized cookie header is one line of the form
    [a; b; c]: a list of pieces joined by "; ", each piece not empty,
    trimmed and without a semicolon; the header holds neither CR nor LF
    and, when it is not empty, has no white space around it. *)
Theorem normalize_cookie_header_one_line (U : PyStr.Unicode)
    (raw : option str) :
  let header := _normalize_cookie_header U raw in
  (header = "" \/ trimmed header)
  /\ has_char PyStr.CR header = false
  /\ has_char PyStr.LF header = false
  /\ exists pieces,
      header = PyStr.join "; " pieces
      /\ Forall (fun p => trimmed p /\ has_char ";"%c p = false) pieces.
Proof. apply cookie_header_shape. Qed.


(** ** The answer of the endpoint *)

(** The constructor reads the clock once and sends nothing; it raises
    when the cookie library refuses the header, and only then. *)
Lemma init_run (E : Oracle) (cookie : option str) (flag : bool)
    (w : World) :
  let header := PyStr.strip (PyStr.or_empty cookie) in
  __init__ E cookie flag w
  = if PyStr.truthy header
    then match simple_cookie_load E (cookie_value E header) with
         | Ok parsed =>
             (Ok (set_cookies_jar (jar_update parsed [])
                    (fresh_session E header flag w)),
              tick w)
         | Raise exc => (Raise exc, tick w)
         end
    else (Ok (fresh_session E header flag w), tick w).
Proof.
  cbn zeta. unfold __init__. cbn zeta. cbn [cookie_header].
  destruct (PyStr.truthy (PyStr.strip (PyStr.or_empty cookie))) eqn:Ht;
    [|reflexivity].
  unfold _apply_cookie_header. rewrite strip_idem, Ht. cbn [negb]. run_m.
  destruct (simple_cookie_load E _); reflexivity.
Qed.

(** The constructor on the header the endpoint has normalized. *)
Lemma init_normalized (E : Oracle) (raw : option str) (flag : bool)
    (w : World) :
  let header := _normalize_cookie_header (unicode E) raw in
  __init__ E (if PyStr.truthy header then Some header else None) flag w
  = if PyStr.truthy header
    then match simple_cookie_load E (cookie_value E header) with
         | Ok parsed =>
             (Ok (set_cookies_jar (jar_update parsed [])
                    (fresh_session E header flag w)),
              tick w)
         | Raise exc => (Raise exc, tick w)
         end
    else (Ok (fresh_session E "" flag w), tick w).
Proof.
  cbn zeta. rewrite init_run. cbn zeta.
  destruct (PyStr.truthy (_normalize_cookie_header (unicode E) raw)) eqn:Ht;
    [|reflexivity].
  cbn [PyStr.or_empty from_option id].
  destruct (cookie_header_shape (unicode E) raw) as ([He | (_ & Hfix)] & _).
  - rewrite He in Ht. discriminate Ht.
  - rewrite Hfix, Ht. reflexivity.
Qed.

(** The answers of the endpoint to a request that brings a cookie or the
    flag and at least one identifier. *)
Lemma bolivar_radicados_answers (E : Oracle) (request : batch_request)
    (w : World) :
  let header := _normalize_cookie_header (unicode E) (rq_cookie request) in
  let radicados := _normalize_radicados (rq_radicados request) in
  header <> "" \/ rq_use_server_auth request = true ->
  radicados <> [] ->
  match (if PyStr.truthy header
         then simple_cookie_load E (cookie_value E header)
         else Ok []) with
  | Ok _ =>
      exists fetched_at results,
        fst (bolivar_radicados E request w)
        = BatchResponse fetched_at (length results) results
  | Raise exc =>
      fst (bolivar_radicados E request w)
      = BadRequest ("No se pudo inicializar sesión: " +:+ str_exc exc)
  end.
Proof.
  cbn zeta. intros Hauth Hids. unfold bolivar_radicados. cbn zeta.
  assert (Hgate : negb (PyStr.truthy
                          (_normalize_cookie_header (unicode E)
                             (rq_cookie request)))
                  && negb (rq_use_server_auth request) = false).
  { destruct Hauth as [H | ->]; [|apply andb_false_r].
    apply truthy_iff in H. rewrite H. reflexivity. }
  rewrite Hgate.
  destruct (_normalize_radicados (rq_radicados request)) as [|rad rest];
    [contradiction|].
  rewrite init_normalized. cbn zeta.
  destruct (PyStr.truthy (_normalize_cookie_header (unicode E)
                            (rq_cookie request))).
  - destruct (simple_cookie_load E _) as [parsed|exc]; [|reflexivity].
    match goal with
    | |- context [batch_loop E ?r [] ?s0] =>
        destruct (batch_loop E r [] s0) as [rs st]
    end.
    cbn [fst]. eexists _, _. rewrite map_to_result_dict. reflexivity.
  - match goal with
    | |- context [batch_loop E ?r [] ?s0] =>
        destruct (batch_loop E r [] s0) as [rs st]
    end.
    cbn [fst]. eexists _, _. rewrite map_to_result_dict. reflexivity.
Qed.

(** C2: the list the endpoint works on is the list of the distinct
    non-empty trimmed identifiers of the request, each at its first
    occurrence: it has no duplicates; its elements are the non-empty
    trimmings of the identifiers as written (the elements of a list, or
    the pieces of a text cut at CR, LF, comma and semicolon), the white
    space trimmed being that of Unicode; and an element that stands before
    another one is met before it among the trimmed identifiers.  Every
    answer with results has exactly the results of these identifiers, in
    this order, and their number as count.  A request that brings a cookie
    or the flag and at least one identifier gets such an answer when it
    brings no cookie or the cookie library accepts the cookie, and is
    rejected with the message of the exception when the library refuses
    it. *)
Theorem batch_one_result_per_identifier (E : Oracle)
    (request : batch_request) (w : World) :
  let identifiers := distinct_identifiers (rq_radicados request) in
  let trimmed :=
    List.filter PyStr.truthy
      (map PyStr.strip (written_identifiers (rq_radicados request))) in
  let header := _normalize_cookie_header (unicode E) (rq_cookie request) in
  let answer := fst (bolivar_radicados E request w) in
  _normalize_radicados (rq_radicados request) = identifiers
  /\ List.NoDup identifiers
  /\ (forall x,
         In x identifiers
         <-> x <> ""
             /\ exists c,
                 In c (written_identifiers (rq_radicados request))
                 /\ PyStr.strip c = x)
  /\ (forall x y,
         stands_before x y identifiers -> seen_before x y trimmed)
  /\ (forall fetched_at count results,
         answer = BatchResponse fetched_at count results ->
         map radicado results = identifiers
         /\ count = length identifiers)
  /\ (header <> "" \/ rq_use_server_auth request = true ->
      identifiers <> [] ->
      match (if PyStr.truthy header
             then simple_cookie_load E (cookie_value E header)
             else Ok []) with
      | Ok _ =>
          exists fetched_at results,
            answer = BatchResponse fetched_at (length identifiers) results
            /\ map radicado results = identifiers
      | Raise exc =>
          answer
          = BadRequest ("No se pudo inicializar sesión: " +:+ str_exc exc)
      end).
Proof.
  intros identifiers trimmed header answer.
  assert (Hnorm : _normalize_radicados (rq_radicados request) = identifiers)
    by apply normalize_radicados_first_seen.
  assert (Hanswer : forall fetched_at count results,
             answer = BatchResponse fetched_at count results ->
             map radicado results = identifiers
             /\ count = length identifiers).
  { intros fetched_at count results Ha. unfold answer in Ha.
    destruct (bolivar_radicados E request w) as [resp w'] eqn:Hb.
    cbn [fst] in Ha. subst resp.
    apply bolivar_radicados_accepted in Hb.
    destruct Hb as (session & w0 & -> & ->).
    rewrite batch_loop_length, batch_loop_radicados, Hnorm. auto. }
  split; [exact Hnorm|].
  split; [apply first_seen_nodup|].
  split.
  { intros x. unfold identifiers, distinct_identifiers.
    rewrite first_seen_in, filter_In, in_map_iff, truthy_iff.
    split.
    - intros ((c & Hc & Hin) & Hne). split; [exact Hne|]. exists c. auto.
    - intros (Hne & c & Hin & Hc). split; [|exact Hne]. exists c. auto. }
  split; [intros x y; apply first_seen_order|].
  split; [exact Hanswer|].
  intros Hauth Hids.
  pose proof (bolivar_radicados_answers E request w Hauth) as Ha.
  cbn zeta in Ha. rewrite Hnorm in Ha. specialize (Ha Hids).
  fold header answer in Ha.
  destruct (if PyStr.truthy header
            then simple_cookie_load E (cookie_value E header)
            else Ok []) as [parsed|exc]; [|exact Ha].
  destruct Ha as (fetched_at & results & Ha).
  destruct (Hanswer _ _ _ Ha) as (Hmap & Hlen).
  exists fetched_at, results. rewrite Ha, Hlen. auto.
Qed.

Lemma batch_one_result_per_identifier_witness :
  let E := Fixture.oracle "<index>" in
  let request :=
    {| rq_cookie := Some "Cookie: JSESSIONID=abc; route=1";
       rq_radicados :=
         RStr (Str 160%N "B-2, A-1;B-2 ,, C-3 ; A-1" ++ Str 12288%N "");
       rq_use_server_auth := false |} in
  exists fetched_at results,
    fst (bolivar_radicados E request Fixture.world0)
    = BatchResponse fetched_at 3 results
    /\ map radicado results = ["B-2"; "A-1"; "C-3"].
Proof.
  intros E request.
  destruct (batch_one_result_per_identifier E request Fixture.world0)
    as (_ & _ & _ & _ & _ & Haccept).
  apply Haccept.
  - left. vm_compute. discriminate.
  - vm_compute. discriminate.
Defined.

(** * Further properties *)


(** ** The status normalizer, continued *)

Lemma strip_trimmed_not_all_space (s : str) :
  PyStr.strip s <> "" -> all_space (PyStr.strip s) = false.
Proof.
  intros H. destruct (all_space (PyStr.strip s)) eqn:Ha; [|reflexivity].
  apply strip_empty_iff in Ha. rewrite strip_idem in Ha. contradiction.
Qed.

Lemma collapsed_not_empty (s : str) :
  PyStr.strip s <> "" ->
  PyStr.strip (PyStr.collapse_ws (PyStr.strip s)) <> "".
Proof.
  intros Ht Hs. apply strip_empty_iff in Hs.
  unfold PyStr.collapse_ws in Hs. rewrite collapse_all_space in Hs.
  rewrite (strip_trimmed_not_all_space _ Ht) in Hs. discriminate Hs.
Qed.

Lemma normalize_estado_shape (U : PyStr.Unicode) (raw : option str) :
  _normalize_estado U raw <> ""
  /\ PyStr.strip (_normalize_estado U raw) = _normalize_estado U raw.
Proof.
  unfold _normalize_estado.
  destruct (PyStr.truthy (PyStr.strip (PyStr.or_empty raw))) eqn:Ht;
    cbn [negb]; [|split; [discriminate | reflexivity]].
  destruct (Str.eqb _ "nuevo"); [split; [discriminate | reflexivity]|].
  destruct (PyStr.contains "desist" _);
    [split; [discriminate | reflexivity]|].
  destruct (PyStr.contains "report" _);
    [split; [discriminate | reflexivity]|].
  destruct (_ || _); [split; [discriminate | reflexivity]|].
  apply truthy_iff in Ht. apply collapsed_not_empty in Ht.
  unfold PyStr.upper. destruct (PyStr.is_ascii _).
  - split.
    + intros He. apply (f_equal PyStr.truthy) in He.
      rewrite map_chars_truthy in He. apply not_true_iff_false in He.
      apply He, truthy_iff, Ht.
    + rewrite (map_chars_strip PyStr.upper_char isspace_upper_char),
        strip_idem.
      reflexivity.
  - apply PyStr.upper_wide_trimmed; [exact Ht | apply strip_idem].
Qed.

(** The normalized status is never empty and has no white space around
    it, whatever the raw status is. *)
Theorem normalize_estado_not_empty (U : PyStr.Unicode) (raw : option str) :
  _normalize_estado U raw <> ""
  /\ PyStr.strip (_normalize_estado U raw) = _normalize_estado U raw.
Proof. apply normalize_estado_shape. Qed.

Lemma normalize_estado_recase (U : PyStr.Unicode) (f : char -> char)
    (s : str) :
  (forall c, PyStr.isspace (f c) = PyStr.isspace c) ->
  f " "%c = " "%c ->
  (forall c, PyStr.lower_char (f c) = PyStr.lower_char c) ->
  (forall c, PyStr.upper_char (f c) = PyStr.upper_char c) ->
  (forall c, (c <? 128)%N = true -> (f c <? 128)%N = true) ->
  PyStr.is_ascii s = true ->
  _normalize_estado U (Some (PyStr.map_chars f s))
  = _normalize_estado U (Some s).
Proof.
  intros Hs Hb Hl Hu Hf Ha. unfold _normalize_estado.
  cbn [PyStr.or_empty from_option id].
  rewrite (map_chars_strip f Hs), map_chars_truthy.
  assert (Hstrip : PyStr.is_ascii (PyStr.strip s) = true)
    by apply is_ascii_strip, Ha.
  assert (Hcollapse :
           PyStr.is_ascii (PyStr.strip (PyStr.collapse_ws (PyStr.strip s)))
           = true)
    by apply is_ascii_strip, is_ascii_collapse, Hstrip.
  unfold PyStr.collapse_ws in *.
  rewrite (map_chars_collapse f Hs _ _ Hb), (map_chars_strip f Hs).
  rewrite !lower_ascii, !upper_ascii
    by (try apply is_ascii_map_chars; assumption).
  rewrite (map_chars_compose PyStr.lower_char f),
    (map_chars_ext _ PyStr.lower_char _ Hl).
  rewrite (map_chars_compose PyStr.upper_char f),
    (map_chars_ext _ PyStr.upper_char _ Hu).
  reflexivity.
Qed.

(** The normalizer does not depend on the white space around the raw
    status, white space being that of Unicode; and on a raw status all of
    whose characters are below 128 it does not depend on the case. *)
Theorem normalize_estado_case_and_padding (U : PyStr.Unicode) :
  (forall s,
      PyStr.is_ascii s = true ->
      _normalize_estado U (Some (PyStr.lower U s))
      = _normalize_estado U (Some s))
  /\ (forall s,
         PyStr.is_ascii s = true ->
         _normalize_estado U (Some (PyStr.upper U s))
         = _normalize_estado U (Some s))
  /\ (forall a s b,
         all_space a = true -> all_space b = true ->
         _normalize_estado U (Some (a ++ s ++ b))
         = _normalize_estado U (Some s)).
Proof.
  split; [|split].
  - intros s Ha. rewrite (lower_ascii U s Ha).
    apply normalize_estado_recase;
      [apply isspace_lower_char | reflexivity | apply lower_char_idem
      | apply upper_lower_char | apply lower_char_ascii | exact Ha].
  - intros s Ha. rewrite (upper_ascii U s Ha).
    apply normalize_estado_recase;
      [apply isspace_upper_char | reflexivity | apply lower_upper_char
      | apply upper_char_idem | apply upper_char_ascii | exact Ha].
  - intros a s b Ha Hb. unfold _normalize_estado.
    cbn [PyStr.or_empty from_option id]. rewrite (strip_pad a s b Ha Hb).
    reflexivity.
Qed.

Lemma normalize_estado_case_and_padding_witness :
  _normalize_estado Fixture.database
    (Some (Str 160%N " " ++ "DESISTIDO por el cliente" ++ Str 8195%N ""))
  = _normalize_estado Fixture.database (Some "DESISTIDO por el cliente")
  /\ _normalize_estado Fixture.database
       (Some (PyStr.lower Fixture.database "Reportado A LA Aseguradora"))
     = _normalize_estado Fixture.database (Some "Reportado A LA Aseguradora").
Proof.
  destruct (normalize_estado_case_and_padding Fixture.database)
    as (Hl & _ & Hp).
  split; [apply Hp | apply Hl]; reflexivity.
Defined.

(** ** The identifiers of a request, continued *)

Lemma filter_all {A} (p : A -> bool) (l : list A) :
  (forall y, In y l -> p y = true) -> List.filter p l = l.
Proof.
  induction l as [|a l IH]; intros H; [reflexivity|].
  cbn [List.filter]. rewrite (H a (or_introl eq_refl)), IH; [reflexivity|].
  intros y Hy. apply H. right. exact Hy.
Qed.

Lemma filter_nil_iff {A} (p : A -> bool) (l : list A) :
  List.filter p l = [] <-> forall y, In y l -> p y = false.
Proof.
  induction l as [|a l IH]; [split; [intros _ y [] | reflexivity]|].
  cbn [List.filter]. destruct (p a) eqn:Ha; split.
  - discriminate.
  - intros H. rewrite (H a (or_introl eq_refl)) in Ha. discriminate Ha.
  - intros H y [<- | Hy]; [exact Ha | apply IH; assumption].
  - intros H. apply IH. intros y Hy. apply H. right. exact Hy.
Qed.

Lemma first_seen_fixed (l : list str) :
  List.NoDup l -> first_seen l = l.
Proof.
  induction 1 as [|x l Hx Hl IH]; [reflexivity|].
  cbn [first_seen]. rewrite IH, filter_all; [reflexivity|].
  intros y Hy. destruct (str_eqb_spec y x) as [->|_];
    [contradiction | reflexivity].
Qed.

Lemma first_seen_nil (l : list str) : first_seen l = [] -> l = [].
Proof. destruct l; [reflexivity | discriminate]. Qed.

Lemma distinct_identifiers_trimmed (value : radicados_value) (x : str) :
  In x (distinct_identifiers value) -> trimmed x.
Proof.
  unfold distinct_identifiers. rewrite first_seen_in, filter_In, in_map_iff.
  intros ((c & <- & _) & Ht). split; [apply truthy_iff, Ht | apply strip_idem].
Qed.

(** The identifiers the endpoint queries are trimmed and not empty, and
    normalizing them again, as a list, gives them back. *)
Theorem normalize_radicados_idempotent (value : radicados_value) :
  Forall trimmed (_normalize_radicados value)
  /\ _normalize_radicados (RList (_normalize_radicados value))
     = _normalize_radicados value.
Proof.
  rewrite !normalize_radicados_first_seen.
  assert (Ht : forall x, In x (distinct_identifiers value) -> trimmed x)
    by apply distinct_identifiers_trimmed.
  split; [apply List.Forall_forall, Ht|].
  unfold distinct_identifiers at 1. cbn [written_identifiers].
  assert (Hmap : map PyStr.strip (distinct_identifiers value)
                 = distinct_identifiers value).
  { rewrite <- (map_id (distinct_identifiers value)) at 2.
    apply map_ext_in. intros x Hx. apply (Ht x Hx). }
  rewrite Hmap, filter_all.
  - apply first_seen_fixed, first_seen_nodup.
  - intros x Hx. apply truthy_iff, (Ht x Hx).
Qed.

(** No identifier is left exactly when every identifier written in the
    request is empty or white space; the endpoint then rejects the request,
    cookie or not, and leaves the world as it was. *)
Theorem no_identifier_rejected (E : Oracle) (request : batch_request)
    (w : World) :
  (_normalize_radicados (rq_radicados request) = []
   <-> forall c, In c (written_identifiers (rq_radicados request)) ->
                 all_space c = true)
  /\ ((forall c, In c (written_identifiers (rq_radicados request)) ->
                 all_space c = true) ->
      exists detail, bolivar_radicados E request w = (BadRequest detail, w)).
Proof.
  assert (Hiff : _normalize_radicados (rq_radicados request) = []
   <-> forall c, In c (written_identifiers (rq_radicados request)) ->
                 all_space c = true).
  { rewrite normalize_radicados_first_seen. unfold distinct_identifiers.
    split.
    - intros H c Hc. apply first_seen_nil in H.
      apply strip_empty_iff.
      destruct (PyStr.strip c) eqn:Hs; [reflexivity|].
      assert (Hin : In (PyStr.strip c)
                      (List.filter PyStr.truthy
                         (map PyStr.strip
                            (written_identifiers (rq_radicados request))))).
      { apply filter_In. split; [apply in_map, Hc | rewrite Hs; reflexivity]. }
      rewrite H in Hin. destruct Hin.
    - intros H.
      assert (Hnil : List.filter PyStr.truthy
                (map PyStr.strip (written_identifiers (rq_radicados request)))
              = []).
      { apply filter_nil_iff. intros y Hy. apply in_map_iff in Hy.
        destruct Hy as (c & <- & Hc).
        rewrite (strip_all_space c (H c Hc)). reflexivity. }
      rewrite Hnil. reflexivity. }
  split; [exact Hiff|].
  intros H. apply Hiff in H. unfold bolivar_radicados. rewrite H.
  destruct (negb _ && negb _); eexists; reflexivity.
Qed.

Lemma no_identifier_rejected_witness :
  exists detail,
    bolivar_radicados (Fixture.oracle "<index>")
      (Fixture.cookie_request (RStr " , ;;  ")) Fixture.world0
    = (BadRequest detail, Fixture.world0).
Proof.
  apply no_identifier_rejected.
  intros c Hc. vm_compute in Hc.
  repeat (destruct Hc as [<- | Hc]; [reflexivity|]). destruct Hc.
Defined.


(** ** The calls of a method *)

Lemma same_config_refl (s : Session) : same_config s s.
Proof. repeat split. Qed.

Lemma same_config_trans (s1 s2 s3 : Session) :
  same_config s1 s2 -> same_config s2 s3 -> same_config s1 s3.
Proof.
  unfold same_config. intros H1 H2.
  destruct H1 as (?&?&?&?&?&?&?&?), H2 as (?&?&?&?&?&?&?&?).
  repeat split; congruence.
Qed.

Lemma same_login_refl (s : Session) : same_login s s.
Proof. split; [apply same_config_refl | reflexivity]. Qed.

Lemma same_login_trans (s1 s2 s3 : Session) :
  same_login s1 s2 -> same_login s2 s3 -> same_login s1 s3.
Proof.
  intros (H1 & F1) (H2 & F2).
  split; [eapply same_config_trans; eassumption | congruence].
Qed.

Section Sends.

Variable R : Session -> Session -> Prop.
Hypothesis R_refl : forall s, R s s.
Hypothesis R_trans : forall s1 s2 s3, R s1 s2 -> R s2 s3 -> R s1 s3.
Hypothesis R_cookies : forall s j, R s (set_cookies_jar j s).
Variable P : http_request -> Prop.

Lemma sends_refl (n : nat) (st : state) : sends R P n st st.
Proof.
  split; [apply R_refl|]. split; [reflexivity|].
  exists []. rewrite app_nil_r. split; [reflexivity|].
  split; [constructor | cbn; lia].
Qed.

Lemma sends_trans (n1 n2 : nat) (st1 st2 st3 : state) :
  sends R P n1 st1 st2 -> sends R P n2 st2 st3 ->
  sends R P (n1 + n2) st1 st3.
Proof.
  intros (HR1 & Ht1 & e1 & Hs1 & HP1 & Hn1) (HR2 & Ht2 & e2 & Hs2 & HP2 & Hn2).
  split; [eapply R_trans; eassumption|]. split; [congruence|].
  exists (e1 ++ e2)%list. rewrite Hs2, Hs1, app_assoc.
  split; [reflexivity|]. split; [apply Forall_app; split; assumption|].
  rewrite length_app. lia.
Qed.

Lemma sends_le (n m : nat) (st st' : state) :
  n <= m -> sends R P n st st' -> sends R P m st st'.
Proof.
  intros Hle (HR & Ht & e & Hs & HP & Hn).
  split; [exact HR|]. split; [exact Ht|].
  exists e. repeat split; [exact Hs | exact HP | lia].
Qed.

Lemma send_sends (E : Oracle) (rq : http_request) (st : state) :
  P (with_session (fst st) rq) ->
  sends R P 1 st (snd (send E rq st)).
Proof.
  intros HP. unfold send.
  destruct (transport E _ _) as [resp|exc]; cbn [snd fst].
  - split; [apply R_cookies|]. split; [reflexivity|].
    eexists. split; [reflexivity|]. split; [|cbn; lia].
    constructor; [exact HP | constructor].
  - split; [apply R_cookies|]. split; [reflexivity|].
    eexists. split; [reflexivity|]. split; [|cbn; lia].
    constructor; [exact HP | constructor].
Qed.

End Sends.

Lemma same_config_cookies (s : Session) (j : cookie_jar) :
  same_config s (set_cookies_jar j s).
Proof. repeat split. Qed.

Lemma same_login_cookies (s : Session) (j : cookie_jar) :
  same_login s (set_cookies_jar j s).
Proof. repeat split. Qed.

Lemma same_config_token (s : Session) (v : option str) :
  same_config s (set_view_state_value v s).
Proof. repeat split. Qed.

Lemma same_login_token (s : Session) (v : option str) :
  same_login s (set_view_state_value v s).
Proof. repeat split. Qed.



(** ** The state token, continued *)

(** Refreshing twice from the same document is refreshing once: the
    second refresh finds the token the first one has set, or raises as
    the first one did. *)
Theorem refresh_view_state_idempotent (E : Oracle) (html_text : str)
    (st : state) :
  (run _refresh_view_state_from_html E html_text ;;
   _refresh_view_state_from_html E html_text) st
  = _refresh_view_state_from_html E html_text st.
Proof.
  unfold bind. rewrite refresh_run. unfold refreshed.
  destruct (partial_token E html_text) as [v|] eqn:Hp.
  - rewrite refresh_run. unfold refreshed. rewrite Hp. reflexivity.
  - destruct (html_parser E html_text) as [soup|exc] eqn:Hs; [|reflexivity].
    rewrite refresh_run. unfold refreshed. rewrite Hp, Hs. cbn [fst snd].
    destruct (page_token soup); reflexivity.
Qed.

(** ** The fields of the answer *)

Lemma unwrap_run (E : Oracle) (response_text : str) :
  exists out, forall st,
    _unwrap_jsf_partial_response E response_text st = (Ok out, st).
Proof.
  unfold _unwrap_jsf_partial_response. cbn zeta.
  destruct (negb _); [eexists; intros st; reflexivity|].
  run_m. destruct (xml_fromstring E response_text) as [root|exc].
  - destruct (update_chunks E root); eexists; intros st; reflexivity.
  - eexists; intros st; reflexivity.
Qed.

Lemma extract_label_value_not_empty (page : list Soup.node) (pos : nat)
    (datos_table : Soup.node) (label_pattern : str -> bool) :
  _extract_label_value_from_datos_solicitud page pos datos_table label_pattern
  <> Some "".
Proof.
  unfold _extract_label_value_from_datos_solicitud. cbn zeta.
  destruct (SoupText.find_between _ _ _ _) as [label|]; [|discriminate].
  destruct (SoupText.find_between _ _ _ _) as [next_label|]; [|discriminate].
  destruct (page !! next_label) as [tag|]; [|discriminate].
  destruct (SoupText.get_text_strip tag); discriminate.
Qed.

Lemma extract_info_run (E : Oracle) (html_text : str) :
  exists markup,
    (forall st, _unwrap_jsf_partial_response E html_text st = (Ok markup, st))
    /\ match html_parser E markup with
       | Raise exc =>
           forall st, _extract_info_from_html E html_text st = (Raise exc, st)
       | Ok soup =>
           exists estado_raw asegurado,
             (forall st,
                 _extract_info_from_html E html_text st
                 = (Ok (estado_raw, asegurado), st))
             /\ estado_raw <> Some "" /\ asegurado <> Some ""
             /\ ((forall d, In d (Soup.descendants soup) ->
                            is_datos_solicitud E d = false) ->
                 estado_raw = None /\ asegurado = None)
       end.
Proof.
  destruct (unwrap_run E html_text) as (markup & Hun).
  exists markup. split; [exact Hun|].
  unfold _extract_info_from_html, bind, lift.
  destruct (html_parser E markup) as [soup|exc] eqn:Hparse.
  - destruct (list_find (fun d => is_datos_solicitud E d = true)
                (Soup.descendants soup))
      as [[pos datos_table]|] eqn:Hfind.
    + eexists _, _. split.
      * intros st. rewrite Hun. cbn zeta. rewrite Hparse. cbn zeta.
        rewrite Hfind. reflexivity.
      * split; [apply extract_label_value_not_empty|].
        split; [apply extract_label_value_not_empty|].
        intros Hnone. apply list_find_Some in Hfind.
        destruct Hfind as (Hlook & Hd & _).
        apply list_elem_of_lookup_2, list_elem_of_In in Hlook.
        rewrite (Hnone _ Hlook) in Hd. discriminate Hd.
    + exists None, None. split.
      * intros st. rewrite Hun. cbn zeta. rewrite Hparse. cbn zeta.
        rewrite Hfind. reflexivity.
      * repeat split; discriminate.
  - intros st. rewrite Hun. cbn zeta. rewrite Hparse. reflexivity.
Qed.



(** ** The query, step by step *)

Lemma ensure_ready (E : Oracle) (s : Session) (w : World) :
  ready s ->
  ensure_authenticated E (s, w) = (Ok tt, (set_is_authenticated true s, w)).
Proof.
  intros Hr. unfold ensure_authenticated. run_m.
  destruct (_is_authenticated s) eqn:Ha.
  - destruct s; cbn in *; subst; reflexivity.
  - destruct Hr as [Hr | Hr]; [congruence|].
    apply truthy_iff in Hr. rewrite Hr. reflexivity.
Qed.

(** A refresh keeps the configuration of the session, the authenticated
    flag and the world. *)
Lemma refreshed_session (E : Oracle) (html_text : str) (st : state) :
  same_config (fst st) (fst (snd (refreshed E html_text st)))
  /\ _is_authenticated (fst (snd (refreshed E html_text st)))
     = _is_authenticated (fst st)
  /\ snd (snd (refreshed E html_text st)) = snd st.
Proof.
  unfold refreshed.
  destruct (partial_token E html_text); [repeat split|].
  destruct (html_parser E html_text) as [soup|exc]; [|repeat split].
  destruct (page_token soup); repeat split.
Qed.

Lemma get_index_run (E : Oracle) (s : Session) (w : World) :
  _get_index E (s, w)
  = let w1 := log_request (index_get s) w in
    match transport E (sent w) (index_get s) with
    | Raise exc =>
        (Raise exc,
         (set_cookies_jar
            (jar_on_error E (sent w) (index_get s) (cookies s)) s,
          w1))
    | Ok resp =>
        let s1 := set_cookies_jar (jar_after resp (cookies s)) s in
        if is_error_status resp
        then (Raise (HTTPError (http_error_message E resp)), (s1, w1))
        else match refreshed E (text resp) (s1, w1) with
             | (Ok _, st) => (Ok (text resp), st)
             | (Raise exc, st) => (Raise exc, st)
             end
    end.
Proof.
  unfold _get_index, send, index_get. run_m.
  destruct (transport E (sent w) _) as [resp|exc]; [|reflexivity].
  unfold raise_for_status, is_error_status. cbn zeta.
  destruct (_ && _); [reflexivity|].
  unfold ret, raise. rewrite refresh_run.
  destruct (refreshed E (text resp) _) as [[[]|exc] st]; reflexivity.
Qed.

Lemma find_search_form_run (E : Oracle) (html_text : str) (st : state) :
  _find_search_form E html_text st
  = match html_parser E html_text with
    | Ok soup => (Ok (find_search_form_in E soup), st)
    | Raise exc => (Raise exc, st)
    end.
Proof.
  unfold _find_search_form. run_m.
  destruct (html_parser E html_text); reflexivity.
Qed.

Lemma extract_info_state (E : Oracle) (html_text : str) (st : state) :
  snd (_extract_info_from_html E html_text st) = st.
Proof.
  destruct (extract_info_run E html_text) as (markup & _ & H).
  destruct (html_parser E markup) as [soup|exc].
  - destruct H as (estado_raw & asegurado & H & _). rewrite H. reflexivity.
  - rewrite H. reflexivity.
Qed.

Lemma index_get_flag (s : Session) (b : bool) :
  index_get (set_is_authenticated b s) = index_get s.
Proof. reflexivity. Qed.

Lemma index_get_is (s : Session) : is_index_get (index_url s) (index_get s).
Proof. repeat split. Qed.

Lemma with_token_config (tok : option str) (s : Session) :
  same_config s (with_token tok s)
  /\ _is_authenticated (with_token tok s) = _is_authenticated s.
Proof. destruct tok; split; try reflexivity; repeat split. Qed.

Lemma build_payload_has_view_state (E : Oracle) (form : Soup.node)
    (view_state solicitud : str) :
  is_Some (build_payload E form view_state solicitud !! VIEW_STATE).
Proof.
  unfold build_payload. cbn zeta.
  destruct (choose_submit E (submit_candidates E form)) as [n|].
  - destruct (decide (n = VIEW_STATE)) as [->|Hne].
    + rewrite lookup_insert_eq. eexists; reflexivity.
    + rewrite lookup_insert_ne by exact Hne.
      rewrite lookup_insert_eq. eexists; reflexivity.
  - rewrite lookup_insert_eq. eexists; reflexivity.
Qed.

Lemma send_run (E : Oracle) (rq : http_request) (s : Session) (w : World) :
  send E rq (s, w)
  = match transport E (sent w) (with_session s rq) with
    | Ok resp =>
        (Ok resp,
         (set_cookies_jar (jar_after resp (cookies s)) s,
          log_request (with_session s rq) w))
    | Raise exc =>
        (Raise exc,
         (set_cookies_jar
            (jar_on_error E (sent w) (with_session s rq) (cookies s)) s,
          log_request (with_session s rq) w))
    end.
Proof. reflexivity. Qed.

Lemma not_blank_truthy (radicado : str) :
  all_space radicado = false ->
  PyStr.truthy (PyStr.strip radicado) = true.
Proof.
  intros H. apply truthy_iff. intros He. apply strip_empty_iff in He.
  congruence.
Qed.

Lemma trace_get_only {A} (E : Oracle) (s sf : Session) (w : World)
    (exc : exn) :
  same_config s sf -> _is_authenticated sf = true ->
  @query_trace A E s w (Raise exc, (sf, log_request (index_get s) w)).
Proof.
  intros Hc Hf. unfold query_trace. cbn [fst snd is_ok].
  split; [exact Hc|]. split; [exact Hf|]. split; [reflexivity|].
  split; [left; reflexivity | discriminate].
Qed.

Lemma trace_get_post {A} (E : Oracle) (s sf : Session) (w : World)
    (post : http_request) (r : result A) (resp : http_response)
    (soup form : Soup.node) :
  same_config s sf -> _is_authenticated sf = true ->
  is_search_post E (index_url s) post ->
  transport E (sent w) (index_get s) = Ok resp ->
  html_parser E (text resp) = Ok soup ->
  find_search_form_in E soup = Some form ->
  rq_url post = post_url_of E s form ->
  query_trace E s w
    (r, (sf, log_request post (log_request (index_get s) w))).
Proof.
  intros Hc Hf Hp Hget Hsoup Hform Hurl. unfold query_trace. cbn [fst snd].
  assert (Hs : sent (log_request post (log_request (index_get s) w))
               = (sent w ++ [index_get s; post])%list).
  { cbn. rewrite <- app_assoc. reflexivity. }
  split; [exact Hc|]. split; [exact Hf|]. split; [reflexivity|].
  split.
  - right. exists post, resp, soup, form. repeat split; try assumption.
    all: apply Hp.
  - intros _. exists post. exact Hs.
Qed.

Lemma query_trace_ready (E : Oracle) (radicado : str)
    (s : Session) (w : World) :
  ready s ->
  all_space radicado = false ->
  query_trace E s w (get_info_for_radicado E radicado (s, w)).
Proof.
  intros Hready Hblank.
  unfold get_info_for_radicado. cbn zeta.
  rewrite (not_blank_truthy radicado Hblank). cbn [negb].
  unfold bind at 1. rewrite (ensure_ready E s w Hready).
  unfold bind at 1. rewrite get_index_run, index_get_flag. cbn zeta.
  destruct (transport E (sent w) (index_get s)) as [resp|exc] eqn:Hget;
    [|apply trace_get_only; repeat split].
  destruct (is_error_status resp); [apply trace_get_only; repeat split|].
  set (s1 := set_cookies_jar _ _).
  destruct (refreshed_session E (text resp)
              (s1, log_request (index_get s) w)) as (Hc & Hf & Hw).
  destruct (refreshed E (text resp) (s1, log_request (index_get s) w))
    as [r [s2 w2]].
  cbn [fst snd] in Hc, Hf, Hw. subst w2.
  assert (Hcfg : same_config s s2)
    by (eapply same_config_trans; [|exact Hc]; repeat split).
  assert (Hflag : _is_authenticated s2 = true)
    by (rewrite Hf; reflexivity).
  clear Hc Hf.
  destruct r as [[]|exc]; [|apply trace_get_only; assumption].
  unfold bind at 1, get_session at 1. cbn [fst snd].
  destruct (negb (PyStr.truthy_opt (view_state_value s2)));
    [apply trace_get_only; assumption|].
  unfold bind at 1. rewrite find_search_form_run.
  destruct (html_parser E (text resp)) as [soup|exc] eqn:Hsoup;
    [|apply trace_get_only; assumption].
  destruct (find_search_form_in E soup) as [form|] eqn:Hform;
    [|apply trace_get_only; assumption].
  cbn zeta. unfold bind at 1. rewrite send_run.
  set (post := with_session s2 _).
  assert (Hurl : index_url s2 = index_url s)
    by (destruct Hcfg as (_ & _ & _ & _ & _ & _ & _ & Hurl); exact Hurl).
  assert (Haddr : rq_url post = post_url_of E s form).
  { unfold post, post_url_of. cbn. rewrite Hurl. reflexivity. }
  assert (Hpost : is_search_post E (index_url s) post).
  { split; [reflexivity|]. split; [eexists; exact Haddr|].
    unfold post. cbn. rewrite Hurl.
    split; [apply in_or_app; right; left; reflexivity|].
    split; [|reflexivity]. rewrite lookup_fmap.
    destruct (build_payload_has_view_state E form
                (PyStr.or_empty (view_state_value s2))
                (PyStr.strip radicado)) as (v & ->).
    eexists; reflexivity. }
  assert (Hjar : forall j, same_config s (set_cookies_jar j s2))
    by (intros j; eapply same_config_trans; [exact Hcfg | repeat split]).
  destruct (transport E _ post) as [resp2|exc2];
    [|eapply trace_get_post; eauto].
  set (s3 := set_cookies_jar _ s2).
  assert (Hcfg3 : same_config s s3) by apply Hjar.
  unfold bind at 1, raise_for_status.
  change ((400 <=? status_code resp2)%nat && (status_code resp2 <? 600)%nat)
    with (is_error_status resp2).
  destruct (is_error_status resp2);
    [eapply trace_get_post; eauto|].
  unfold ret at 1. unfold bind at 1. rewrite refresh_run.
  match goal with
  | |- context [refreshed E ?t ?st] =>
      destruct (refreshed_session E t st) as (Hc & Hf & Hw);
      destruct (refreshed E t st) as [r [s4 w4]]
  end.
  cbn [fst snd] in Hc, Hf, Hw. subst w4.
  assert (Hcfg4 : same_config s s4)
    by (eapply same_config_trans; [exact Hcfg3 | exact Hc]).
  assert (Hflag4 : _is_authenticated s4 = true)
    by (rewrite Hf; exact Hflag).
  destruct r as [[]|exc]; [|eapply trace_get_post; eauto].
  unfold bind at 1.
  match goal with
  | |- context [_extract_info_from_html E ?t ?st] =>
      pose proof (extract_info_state E t st) as Hst;
      destruct (_extract_info_from_html E t st) as [info st5]
  end.
  cbn [snd] in Hst. subst st5.
  destruct info as [[estado_raw asegurado]|exc];
    [|eapply trace_get_post; eauto].
  cbn [fst snd].
  destruct (negb (PyStr.truthy_opt estado_raw));
    eapply trace_get_post; eauto.
Qed.

(** A query on a session that needs no login (it is authenticated or has
    a cookie header), for an identifier that is not blank, calls
    [session.get] for the landing page and then [session.post] at most
    once, for the search; the address of the POST is what [urljoin] makes
    of the address of the landing page and of the action of the form found
    on the landing page (the address of the landing page itself for a form
    without an action).  It returns a value only after the POST.  It reads
    no clock, keeps the configuration of the session and leaves it
    authenticated.  What the library does within one call, the redirects
    it follows, is not told here. *)
Theorem query_sends_get_then_post (E : Oracle) (radicado : str)
    (s : Session) (w : World) :
  ready s ->
  all_space radicado = false ->
  query_trace E s w (get_info_for_radicado E radicado (s, w)).
Proof. apply query_trace_ready. Qed.

Lemma query_sends_get_then_post_witness :
  query_trace (Fixture.oracle "<index>") Fixture.cookie_session
    Fixture.world0
    (get_info_for_radicado (Fixture.oracle "<index>") "A-100"
       (Fixture.cookie_session, Fixture.world0)).
Proof.
  apply query_sends_get_then_post; [right; discriminate | reflexivity].
Defined.

Lemma query_at_landing_page (E : Oracle) (radicado : str)
    (s : Session) (w : World) :
  ready s ->
  all_space radicado = false ->
  let s0 := set_is_authenticated true s in
  let w1 := log_request (index_get s) w in
  match transport E (sent w) (index_get s) with
  | Raise exc =>
      get_info_for_radicado E radicado (s, w)
      = (Raise exc,
         (set_cookies_jar
            (jar_on_error E (sent w) (index_get s) (cookies s)) s0,
          w1))
  | Ok resp =>
      let s1 := set_cookies_jar (jar_after resp (cookies s)) s0 in
      (is_error_status resp = true ->
       get_info_for_radicado E radicado (s, w)
       = (Raise (HTTPError (http_error_message E resp)), (s1, w1))
       /\ view_state_value s1 = view_state_value s)
      /\ (is_error_status resp = false ->
          match partial_token E (text resp), html_parser E (text resp) with
          | None, Raise exc =>
              get_info_for_radicado E radicado (s, w)
              = (Raise exc, (s1, w1))
          | Some v, Raise exc =>
              get_info_for_radicado E radicado (s, w)
              = (Raise exc, (set_view_state_value (Some v) s1, w1))
          | tok, Ok soup =>
              let s2 :=
                with_token
                  (match tok with
                   | Some v => Some v
                   | None => page_token soup
                   end) s1 in
              (PyStr.truthy_opt (view_state_value s2) = false ->
               get_info_for_radicado E radicado (s, w)
               = (Raise (PyException
                    "No se encontró javax.faces.ViewState en index.xhtml"),
                  (s2, w1)))
              /\ (PyStr.truthy_opt (view_state_value s2) = true ->
                  find_search_form_in E soup = None ->
                  get_info_for_radicado E radicado (s, w)
                  = (Raise (PyException
                       "No se encontró formulario de consulta en index.xhtml"),
                     (s2, w1)))
          end)
  end.
Proof.
  intros Hready Hblank. cbn zeta.
  remember (get_info_for_radicado E radicado (s, w)) as outcome eqn:Hout.
  unfold get_info_for_radicado in Hout. cbn zeta in Hout.
  rewrite (not_blank_truthy radicado Hblank) in Hout. cbn [negb] in Hout.
  unfold bind at 1 in Hout. rewrite (ensure_ready E s w Hready) in Hout.
  unfold bind at 1 in Hout. rewrite get_index_run, index_get_flag in Hout.
  cbn zeta in Hout.
  change (cookies (set_is_authenticated true s)) with (cookies s) in Hout.
  destruct (transport E (sent w) (index_get s)) as [resp|exc];
    [|exact Hout].
  split.
  { intros He. rewrite He in Hout. split; [exact Hout | reflexivity]. }
  intros He. rewrite He in Hout. unfold refreshed in Hout.
  cbn [fst snd] in Hout.
  destruct (partial_token E (text resp)) as [v|] eqn:Hp.
  - apply partial_token_in_document in Hp. destruct Hp as (Hne & _).
    unfold bind at 1, get_session at 1 in Hout. cbn [fst snd] in Hout.
    assert (Hv : PyStr.truthy_opt (Some v) = true)
      by (apply truthy_iff, Hne).
    change (view_state_value (set_view_state_value (Some v) _))
      with (Some v) in Hout.
    rewrite Hv in Hout. cbn [negb] in Hout.
    unfold bind at 1 in Hout. rewrite find_search_form_run in Hout.
    destruct (html_parser E (text resp)) as [soup|exc]; [|exact Hout].
    cbn [with_token]. split; [intros Hnone; cbn in Hnone; congruence|].
    intros _ Hform. rewrite Hform in Hout. exact Hout.
  - destruct (html_parser E (text resp)) as [soup|exc] eqn:Hsoup;
      [|exact Hout].
    unfold bind at 1, get_session at 1 in Hout. cbn [fst snd] in Hout.
    split.
    + intros Hnone. rewrite Hnone in Hout. exact Hout.
    + intros Htok Hform. rewrite Htok in Hout. cbn [negb] in Hout.
      unfold bind at 1 in Hout.
      rewrite find_search_form_run, Hsoup, Hform in Hout.
      exact Hout.
Qed.

(** A query that cannot get a usable landing page stops after the GET,
    the only call it makes: when the transport raises, the query raises
    the same; when the page comes with an error status, the query raises
    an [HTTPError] and the tracked token is not touched; when the HTML
    parser rejects the page, the query raises what the parser raised, from
    the refresh of the token, or from the search for the form when a
    partial response has given a token; when, after the refresh, no token
    is tracked, or a token is tracked but the page has no form, the query
    raises the [Exception] that says so. *)
Theorem query_stops_at_landing_page (E : Oracle) (radicado : str)
    (s : Session) (w : World) :
  ready s ->
  all_space radicado = false ->
  let s0 := set_is_authenticated true s in
  let w1 := log_request (index_get s) w in
  match transport E (sent w) (index_get s) with
  | Raise exc =>
      get_info_for_radicado E radicado (s, w)
      = (Raise exc,
         (set_cookies_jar
            (jar_on_error E (sent w) (index_get s) (cookies s)) s0,
          w1))
  | Ok resp =>
      let s1 := set_cookies_jar (jar_after resp (cookies s)) s0 in
      (is_error_status resp = true ->
       get_info_for_radicado E radicado (s, w)
       = (Raise (HTTPError (http_error_message E resp)), (s1, w1))
       /\ view_state_value s1 = view_state_value s)
      /\ (is_error_status resp = false ->
          match partial_token E (text resp), html_parser E (text resp) with
          | None, Raise exc =>
              get_info_for_radicado E radicado (s, w)
              = (Raise exc, (s1, w1))
          | Some v, Raise exc =>
              get_info_for_radicado E radicado (s, w)
              = (Raise exc, (set_view_state_value (Some v) s1, w1))
          | tok, Ok soup =>
              let s2 :=
                with_token
                  (match tok with
                   | Some v => Some v
                   | None => page_token soup
                   end) s1 in
              (PyStr.truthy_opt (view_state_value s2) = false ->
               get_info_for_radicado E radicado (s, w)
               = (Raise (PyException
                    "No se encontró javax.faces.ViewState en index.xhtml"),
                  (s2, w1)))
              /\ (PyStr.truthy_opt (view_state_value s2) = true ->
                  find_search_form_in E soup = None ->
                  get_info_for_radicado E radicado (s, w)
                  = (Raise (PyException
                       "No se encontró formulario de consulta en index.xhtml"),
                     (s2, w1)))
          end)
  end.
Proof. apply query_at_landing_page. Qed.

Lemma query_stops_at_landing_page_witness :
  get_info_for_radicado (Fixture.oracle "<plain>")
    (Str 160%N "A-100") (Fixture.cookie_session, Fixture.world0)
  = (Raise (PyException
       "No se encontró javax.faces.ViewState en index.xhtml"),
     (set_is_authenticated true Fixture.cookie_session,
      log_request (index_get Fixture.cookie_session) Fixture.world0))
  /\ get_info_for_radicado (Fixture.oracle Fixture.rejected_text)
       "A-100" (Fixture.cookie_session, Fixture.world0)
     = (Raise (ParserRejectedMarkup
          "AssertionError: unknown status keyword 'foo bar' in marked section"),
        (set_is_authenticated true Fixture.cookie_session,
         log_request (index_get Fixture.cookie_session) Fixture.world0)).
Proof.
  assert (Hr : ready Fixture.cookie_session) by (right; discriminate).
  assert (Hb : all_space "A-100" = false) by reflexivity.
  assert (Hb' : all_space (Str 160%N "A-100") = false) by reflexivity.
  split.
  - pose proof (query_stops_at_landing_page
                  (Fixture.oracle "<plain>") (Str 160%N "A-100")
                  Fixture.cookie_session Fixture.world0 Hr Hb') as H.
    cbv zeta in H.
    change (transport (Fixture.oracle "<plain>") (sent Fixture.world0)
              (index_get Fixture.cookie_session))
      with (Ok (Fixture.page "<plain>")) in H.
    cbv iota beta in H. destruct H as (_ & H).
    specialize (H eq_refl).
    change (partial_token (Fixture.oracle "<plain>")
              (text (Fixture.page "<plain>")))
      with (@None str) in H.
    change (html_parser (Fixture.oracle "<plain>")
              (text (Fixture.page "<plain>")))
      with (Ok Fixture.plain_soup) in H.
    cbv iota beta in H. destruct H as (H & _).
    rewrite H; reflexivity.
  - pose proof (query_stops_at_landing_page
                  (Fixture.oracle Fixture.rejected_text) "A-100"
                  Fixture.cookie_session Fixture.world0 Hr Hb) as H.
    cbv zeta in H.
    change (transport (Fixture.oracle Fixture.rejected_text)
              (sent Fixture.world0) (index_get Fixture.cookie_session))
      with (Ok (Fixture.page Fixture.rejected_text)) in H.
    cbv iota beta in H. destruct H as (_ & H).
    specialize (H eq_refl).
    change (partial_token (Fixture.oracle Fixture.rejected_text)
              (text (Fixture.page Fixture.rejected_text)))
      with (@None str) in H.
    change (html_parser (Fixture.oracle Fixture.rejected_text)
              (text (Fixture.page Fixture.rejected_text)))
      with (@Raise Soup.node (ParserRejectedMarkup
              "AssertionError: unknown status keyword 'foo bar' in marked section"))
      in H.
    cbv iota beta in H. rewrite H. reflexivity.
Defined.

(** ** The values of a query *)

Lemma get_info_value (E : Oracle) (radicado : str) (st st' : state)
    (raw normalizado : str) (aseg : option str) :
  get_info_for_radicado E radicado st = (Ok (raw, normalizado, aseg), st') ->
  raw <> ""
  /\ normalizado = _normalize_estado (unicode E) (Some raw)
  /\ aseg <> Some "".
Proof.
  unfold get_info_for_radicado. cbn zeta.
  destruct (negb (PyStr.truthy (PyStr.strip radicado))).
  { unfold ret. intros [= <- <- <- _].
    repeat split; discriminate. }
  unfold bind at 1.
  destruct (ensure_authenticated E st) as [[[]|exc] st1]; [|discriminate].
  unfold bind at 1.
  destruct (_get_index E st1) as [[index_html|exc] st2]; [|discriminate].
  unfold bind at 1, get_session at 1. cbn [fst snd].
  destruct (negb (PyStr.truthy_opt (view_state_value (fst st2))));
    [discriminate|].
  unfold bind at 1.
  destruct (_find_search_form E index_html st2) as [[[form|]|exc] st2'];
    [|discriminate ..].
  cbn zeta. unfold bind at 1.
  destruct (send E _ st2') as [[resp|exc] st3]; [|discriminate].
  unfold bind at 1, raise_for_status.
  destruct (_ && _); [discriminate|].
  unfold ret at 1. unfold bind at 1.
  destruct (_refresh_view_state_from_html E (text resp) st3)
    as [[[]|exc] st4]; [|discriminate].
  unfold bind at 1.
  destruct (extract_info_run E (text resp)) as (markup & _ & Hex).
  destruct (html_parser E markup) as [soup|exc].
  - destruct Hex as (estado_raw & asegurado & Hex & Hraw & Haseg & _).
    rewrite Hex. cbn [fst snd].
    destruct estado_raw as [[|c t]|]; cbn [PyStr.truthy_opt PyStr.or_empty
      from_option id PyStr.truthy negb]; unfold ret.
    + contradiction.
    + intros [= <- <- <- _]. repeat split; [discriminate | exact Haseg].
    + intros [= <- <- <- _]. repeat split; [discriminate | exact Haseg].
  - rewrite Hex. discriminate.
Qed.

(** ** The login *)

Section SendsBind.

Variable R : Session -> Session -> Prop.
Hypothesis R_refl : forall s, R s s.
Hypothesis R_trans : forall s1 s2 s3, R s1 s2 -> R s2 s3 -> R s1 s3.
Variable P : http_request -> Prop.

Lemma bind_sends {A B} (m : M A) (k : A -> M B) (n1 n2 : nat) (st : state) :
  sends R P n1 st (snd (m st)) ->
  (forall a st1, sends R P n2 st1 (snd (k a st1))) ->
  sends R P (n1 + n2) st (snd (bind m k st)).
Proof.
  intros Hm Hk. unfold bind. destruct (m st) as [[a|exc] st1]; cbn [snd] in *.
  - eapply sends_trans; [exact R_trans | exact Hm | apply Hk].
  - eapply sends_le; [|exact Hm]. lia.
Qed.

Lemma ret_sends {A} (a : A) (n : nat) (st : state) :
  sends R P n st (snd (ret a st)).
Proof. apply sends_refl, R_refl. Qed.

Lemma raise_sends {A} (exc : exn) (n : nat) (st : state) :
  sends R P n st (snd (@raise A exc st)).
Proof. apply sends_refl, R_refl. Qed.

Lemma lift_sends {A} (r : result A) (n : nat) (st : state) :
  sends R P n st (snd (lift r st)).
Proof. unfold lift. destruct r; apply sends_refl, R_refl. Qed.

Lemma modify_sends (f : Session -> Session) (n : nat) (st : state) :
  (forall s, R s (f s)) ->
  sends R P n st (snd (modify_session f st)).
Proof.
  intros Hf. split; [apply Hf|]. split; [reflexivity|].
  exists []. cbn. rewrite app_nil_r. repeat split; [constructor | lia].
Qed.

End SendsBind.

Lemma bare_get_password (s : Session) (url : str) (redirects : bool)
    (timeout : option nat) :
  password_to_sso (with_session s (mk_request "GET" url [] ∅ [] redirects
                                     timeout)).
Proof. intros [v Hv]. cbn in Hv. rewrite lookup_empty in Hv. discriminate Hv. Qed.

Lemma follow_redirects_sends (E : Oracle) (n : nat) (r : http_response)
    (st : state) :
  sends same_login password_to_sso n st (snd (follow_redirects E n r st)).
Proof.
  revert r st; induction n as [|n IH]; intros r st.
  - apply sends_refl, same_login_refl.
  - cbn [follow_redirects].
    destruct (is_redirect (status_code r));
      [|eapply sends_le; [|apply IH]; lia].
    destruct (PyStr.truthy_opt (location r));
      [|apply sends_refl, same_login_refl].
    change (S n) with (1 + n).
    apply bind_sends; [exact same_login_trans | | intros a st1; apply IH].
    apply send_sends;
      [exact same_login_cookies | apply bare_get_password].
Qed.

Lemma authenticate_sends (E : Oracle) (st : state) :
  sends same_login password_to_sso 8 st (snd (authenticate E st)).
Proof.
  unfold authenticate.
  change 8 with (0 + (1 + (1 + (3 + (1 + (1 + (1 + (0 + 0)))))))).
  apply bind_sends; [exact same_login_trans | |].
  { apply sends_refl, same_login_refl. }
  intros self st0.
  apply bind_sends; [exact same_login_trans | |].
  { apply send_sends; [exact same_login_cookies |].
    intros _. split; reflexivity. }
  intros _ st1.
  apply bind_sends; [exact same_login_trans | |].
  { apply send_sends; [exact same_login_cookies |].
    apply bare_get_password. }
  intros r st2.
  apply bind_sends; [exact same_login_trans | apply follow_redirects_sends|].
  intros _ st3.
  apply bind_sends; [exact same_login_trans | |].
  { apply send_sends; [exact same_login_cookies |].
    intros [v Hv]. cbn in Hv.
    rewrite !lookup_insert_ne, lookup_empty in Hv by discriminate.
    discriminate Hv. }
  intros _ st4.
  apply bind_sends; [exact same_login_trans | |].
  { apply send_sends; [exact same_login_cookies |].
    apply bare_get_password. }
  intros landing_response st5.
  apply bind_sends; [exact same_login_trans | |].
  { destruct (is_redirect (status_code landing_response));
      [|apply ret_sends, same_login_refl].
    destruct (PyStr.truthy_opt (location landing_response));
      [|apply raise_sends, same_login_refl].
    apply send_sends; [exact same_login_cookies |].
    apply bare_get_password. }
  intros final_response st6.
  apply bind_sends;
    [exact same_login_trans | apply lift_sends, same_login_refl|].
  intros soup st7.
  destruct (Soup.find_attr _ _ _ _) as [view_state_input|].
  - apply modify_sends. intros s. apply same_login_token.
  - apply raise_sends, same_login_refl.
Qed.



Lemma ensure_authenticated_flag (E : Oracle) (st : state) :
  match ensure_authenticated E st with
  | (Ok _, st') =>
      _is_authenticated (fst st') = true
      /\ ensure_authenticated E st' = (Ok tt, st')
  | (Raise _, st') =>
      _is_authenticated (fst st') = _is_authenticated (fst st)
  end.
Proof.
  assert (Hdone : forall st', _is_authenticated (fst st') = true ->
                    ensure_authenticated E st' = (Ok tt, st')).
  { intros st' H. unfold ensure_authenticated. run_m. rewrite H.
    reflexivity. }
  unfold ensure_authenticated at 1.
  unfold bind at 1, get_session at 1. cbn [fst snd].
  destruct (_is_authenticated (fst st)) eqn:Ha.
  { unfold ret. split; [exact Ha | apply Hdone, Ha]. }
  destruct (PyStr.truthy (cookie_header (fst st))).
  { unfold modify_session. cbn [fst snd]. split; [reflexivity|].
    apply Hdone. reflexivity. }
  destruct (negb (use_server_auth (fst st))); [unfold raise; exact Ha|].
  destruct (_ || _); [unfold raise; exact Ha|].
  unfold bind. pose proof (authenticate_sends E st) as ((_ & Hf) & _).
  destruct (authenticate E st) as [[[]|exc] st1]; cbn [fst snd] in *.
  - split; [reflexivity | apply Hdone; reflexivity].
  - congruence.
Qed.

(** After [ensure_authenticated] has returned the session is
    authenticated and calling it again does nothing; after it has raised
    the session is as authenticated as it was before, so that the next
    query tries again. *)
Theorem ensure_authenticated_once (E : Oracle) (st : state) :
  match ensure_authenticated E st with
  | (Ok _, st') =>
      _is_authenticated (fst st') = true
      /\ ensure_authenticated E st' = (Ok tt, st')
  | (Raise _, st') =>
      _is_authenticated (fst st') = _is_authenticated (fst st)
  end.
Proof. apply ensure_authenticated_flag. Qed.


(** ** The results of a batch *)

Lemma query_one_well_formed (E : Oracle) (rad : str) (st : state) :
  well_formed_result (unicode E) (fst (query_one E rad st)).
Proof.
  unfold query_one.
  destruct (get_info_for_radicado E rad (fst st, tick (snd st)))
    as [[[[raw normalizado] aseg]|exc] st'] eqn:Hq.
  - apply get_info_value in Hq. destruct Hq as (Hraw & -> & Haseg).
    destruct (normalize_estado_shape (unicode E) (Some raw)) as (Hne & Htrim).
    cbn [fst]. split; [|split]; cbn.
    + eexists. split; [reflexivity|]. split; assumption.
    + intros _. exists raw. repeat split; assumption.
    + discriminate.
  - assert (H : well_formed_result (unicode E)
                  (failed_result rad (utcnow_isoformat E (ticks (snd st)))
                     exc)).
    { split; [|split]; cbn.
      - eexists. split; [reflexivity|]. split; [discriminate | reflexivity].
      - discriminate.
      - intros _. repeat split. eexists; reflexivity. }
    destruct exc; exact H.
Qed.

Lemma batch_loop_well_formed (E : Oracle) (radicados : list str)
    (st : state) :
  Forall (well_formed_result (unicode E)) (fst (batch_loop E radicados [] st)).
Proof.
  revert st; induction radicados as [|rad rest IH]; intros st;
    [constructor|].
  rewrite batch_loop_cons. cbn [fst].
  constructor; [apply query_one_well_formed | apply IH].
Qed.

(** Every result of the loop of the endpoint, and every result in an
    answer of the endpoint, is well formed: the normalized status is
    present, not empty and trimmed; an [ok] result has a non-empty raw
    status whose normalization is the normalized status, and no error; a
    failed one has an error and neither raw status nor name. *)
Theorem batch_results_well_formed (E : Oracle) :
  (forall radicados st,
      Forall (well_formed_result (unicode E))
        (fst (batch_loop E radicados [] st)))
  /\ (forall request w,
         Forall (well_formed_result (unicode E))
           (response_results (fst (bolivar_radicados E request w)))).
Proof.
  split; [apply batch_loop_well_formed|].
  intros request w.
  destruct (bolivar_radicados E request w) as [resp w'] eqn:Hb.
  destruct resp as [detail|fetched_at count results]; [constructor|].
  apply bolivar_radicados_accepted in Hb.
  destruct Hb as (session & w0 & -> & _).
  apply batch_loop_well_formed.
Qed.


(** ** The calls of a batch *)

Lemma blank_query_run (E : Oracle) (radicado : str) (st : state) :
  all_space radicado = true ->
  get_info_for_radicado E radicado st
  = (Ok (NO_ENCONTRADO, NO_ENCONTRADO, None), st).
Proof.
  intros H. unfold get_info_for_radicado.
  rewrite (strip_all_space radicado H). reflexivity.
Qed.

Lemma ready_kept (E : Oracle) (radicado : str) (s : Session) (w : World) :
  ready s ->
  let st' := snd (get_info_for_radicado E radicado (s, w)) in
  ready (fst st')
  /\ sends same_config (is_query_request E (index_url s)) 2 (s, w) st'.
Proof.
  intros Hr. cbn zeta.
  destruct (all_space radicado) eqn:Hb.
  - rewrite (blank_query_run E radicado (s, w) Hb). cbn [snd fst].
    split; [exact Hr | apply sends_refl, same_config_refl].
  - destruct (query_trace_ready E radicado s w Hr Hb)
      as (Hc & Hf & Ht & Hs & _).
    split; [left; exact Hf|].
    split; [exact Hc|]. split; [exact Ht|].
    destruct Hs as [Hs | (post & resp & soup & form & Hs & Hp & _)].
    + exists [index_get s]. split; [exact Hs|]. split; [|cbn; lia].
      constructor; [left; apply index_get_is | constructor].
    + exists [index_get s; post]. split; [exact Hs|]. split; [|cbn; lia].
      constructor; [left; apply index_get_is|].
      constructor; [right; exact Hp | constructor].
Qed.

Lemma batch_sends_ready (E : Oracle) (radicados : list str)
    (s : Session) (w : World) :
  ready s ->
  let st' := snd (batch_loop E radicados [] (s, w)) in
  ready (fst st')
  /\ same_config s (fst st')
  /\ ticks (snd st') = ticks w + length radicados
  /\ exists extra,
      sent (snd st') = (sent w ++ extra)%list
      /\ Forall (is_query_request E (index_url s)) extra
      /\ length extra <= 2 * length radicados.
Proof.
  revert s w; induction radicados as [|rad rest IH]; intros s w Hr.
  - cbn. split; [exact Hr|]. split; [apply same_config_refl|].
    split; [lia|]. exists []. rewrite app_nil_r.
    split; [reflexivity|]. split; [constructor | cbn; lia].
  - cbn zeta. rewrite batch_loop_cons. cbn [snd].
    assert (Hq : snd (query_one E rad (s, w))
                 = snd (get_info_for_radicado E rad (s, tick w))).
    { unfold query_one. cbn [fst snd].
      destruct (get_info_for_radicado E rad (s, tick w))
        as [[[[raw normalizado] aseg]|exc] st1];
        [reflexivity | destruct exc; reflexivity]. }
    rewrite Hq.
    destruct (ready_kept E rad s (tick w) Hr)
      as (Hr1 & Hc1 & Ht1 & e1 & Hs1 & HP1 & Hn1).
    destruct (snd (get_info_for_radicado E rad (s, tick w))) as [s1 w1].
    cbn [fst snd] in *.
    destruct (IH s1 w1 Hr1) as (Hr2 & Hc2 & Ht2 & e2 & Hs2 & HP2 & Hn2).
    split; [exact Hr2|].
    split; [eapply same_config_trans; eassumption|].
    split; [rewrite Ht2, Ht1; cbn; lia|].
    exists (e1 ++ e2)%list. rewrite Hs2, Hs1, app_assoc.
    split; [reflexivity|]. split.
    + apply Forall_app. split; [exact HP1|].
      destruct Hc1 as (_ & _ & _ & _ & _ & _ & _ & Hurl).
      rewrite <- Hurl. exact HP2.
    + rewrite length_app. cbn [length]. lia.
Qed.

Lemma apply_cookie_header_world (E : Oracle) (cookie : str) (st : state) :
  let st' := snd (_apply_cookie_header E cookie st) in
  same_login (fst st) (fst st') /\ snd st' = snd st.
Proof.
  unfold _apply_cookie_header. cbn zeta.
  destruct (negb (PyStr.truthy (PyStr.strip cookie)));
    [split; [apply same_login_refl | reflexivity]|].
  run_m. destruct (simple_cookie_load E _) as [parsed|exc]; cbn [snd fst].
  - split; [apply same_login_cookies | reflexivity].
  - split; [apply same_login_refl | reflexivity].
Qed.

Lemma init_session (E : Oracle) (cookie : option str) (flag : bool)
    (w : World) :
  snd (__init__ E cookie flag w) = tick w
  /\ forall s, fst (__init__ E cookie flag w) = Ok s ->
       cookie_header s = PyStr.strip (PyStr.or_empty cookie)
       /\ use_server_auth s = flag
       /\ user_id s = getenv E "LIBERTADOR_USER"
       /\ password s = getenv E "LIBERTADOR_PASS"
       /\ index_url s = INDEX_URL
       /\ _is_authenticated s = false
       /\ (PyStr.strip (PyStr.or_empty cookie) = "" ->
           view_state_value s = None).
Proof.
  unfold __init__. cbn zeta. cbn [cookie_header].
  destruct (PyStr.truthy (PyStr.strip (PyStr.or_empty cookie))) eqn:Hc.
  - match goal with
    | |- context [_apply_cookie_header E ?c ?st] =>
        pose proof (apply_cookie_header_world E c st) as (Hl & Hw);
        destruct (_apply_cookie_header E c st) as [[[]|exc] [s1 w1]]
    end; cbn [fst snd] in *; subst w1.
    + split; [reflexivity|]. intros s [= <-].
      destruct Hl as ((_ & Hch & Hf & Hu & Hp & _ & _ & Hurl) & Ha).
      cbn in *. repeat split; try assumption.
      intros He. rewrite He in Hc. discriminate Hc.
    + split; [reflexivity | discriminate].
  - unfold ret. cbn [fst snd]. split; [reflexivity|].
    intros s [= <-]. cbn. repeat split.
Qed.

Lemma cookie_batch_calls (E : Oracle) (request : batch_request)
    (w : World) :
  _normalize_cookie_header (unicode E) (rq_cookie request) <> "" ->
  let w' := snd (bolivar_radicados E request w) in
  exists extra,
    sent w' = (sent w ++ extra)%list
    /\ Forall (is_query_request E INDEX_URL) extra
    /\ length extra
       <= 2 * length (_normalize_radicados (rq_radicados request)).
Proof.
  intros Hcookie. cbn zeta. unfold bolivar_radicados. cbn zeta.
  assert (Hnone : exists extra : list http_request,
             sent w = (sent w ++ extra)%list
             /\ Forall (is_query_request E INDEX_URL) extra
             /\ length extra
                <= 2 * length (_normalize_radicados (rq_radicados request))).
  { exists []. rewrite app_nil_r.
    split; [reflexivity|]. split; [constructor | cbn; lia]. }
  apply truthy_iff in Hcookie. rewrite Hcookie. cbn [negb andb].
  destruct (_normalize_radicados (rq_radicados request)) as [|rad rest] eqn:Hids;
    [exact Hnone|].
  destruct (init_session E
              (Some (_normalize_cookie_header (unicode E)
                       (rq_cookie request)))
              (rq_use_server_auth request) (tick w)) as (Hw & Hs).
  destruct (__init__ E _ _ (tick w)) as [[session|exc] w0];
    cbn [fst snd] in *; subst w0; [|exact Hnone].
  destruct (Hs session eq_refl) as (Hch & _ & _ & _ & Hurl & _).
  assert (Hr : ready session).
  { right. rewrite Hch. cbn [PyStr.or_empty from_option id].
    destruct (cookie_header_shape (unicode E) (rq_cookie request))
      as ([He | (_ & Ht)] & _).
    - rewrite He in Hcookie. discriminate Hcookie.
    - rewrite Ht. apply truthy_iff, Hcookie. }
  destruct (batch_sends_ready E (rad :: rest) session (tick (tick w)) Hr)
    as (_ & _ & _ & extra & Hsent & HP & Hn).
  destruct (batch_loop E (rad :: rest) [] (session, tick (tick w)))
    as [results st]. cbn [fst snd] in *.
  exists extra. rewrite Hsent, <- Hurl. repeat split; assumption.
Qed.


Lemma after_queries_ready (E : Oracle) (radicados : list str)
    (s : Session) (w : World) :
  ready s ->
  ready (fst (after_queries E radicados (s, w)))
  /\ same_config s (fst (after_queries E radicados (s, w))).
Proof.
  intros Hr. rewrite <- batch_loop_state.
  destruct (batch_sends_ready E radicados s w Hr) as (H1 & H2 & _).
  split; assumption.
Qed.

(** A request with a cookie is served from the pasted session alone,
    whether the server-auth flag is set or not: the calls of the whole
    batch are GETs of the landing page and POSTs of the search, at most two
    for each identifier, and no login is attempted; the address of a POST is
    what [urljoin] makes of the address of the landing page and of an
    action.  Whatever the queries before it have done, a query of a batch
    that started on a session with a cookie runs on a session that needs no
    login, configured as at the start, and so makes the calls of a single
    query: the GET, and then at most one POST to the address of the form
    found on the page the GET has brought. *)
Theorem cookie_batch_requests (E : Oracle) :
  (forall request w,
      _normalize_cookie_header (unicode E) (rq_cookie request) <> "" ->
      let w' := snd (bolivar_radicados E request w) in
      exists extra,
        sent w' = (sent w ++ extra)%list
        /\ Forall (is_query_request E INDEX_URL) extra
        /\ length extra
           <= 2 * length (_normalize_radicados (rq_radicados request)))
  /\ (forall radicados s w i rad,
         ready s ->
         radicados !! i = Some rad ->
         all_space rad = false ->
         let before := after_queries E (take i radicados) (s, w) in
         ready (fst before)
         /\ same_config s (fst before)
         /\ query_trace E (fst before) (tick (snd before))
              (get_info_for_radicado E rad
                 (fst before, tick (snd before)))).
Proof.
  split; [intros request w; apply cookie_batch_calls|].
  intros radicados s w i rad Hr _ Hblank before.
  destruct (after_queries_ready E (take i radicados) s w Hr) as (Hr' & Hc).
  fold before in Hr', Hc.
  split; [exact Hr'|]. split; [exact Hc|].
  apply query_trace_ready; assumption.
Qed.

Lemma cookie_batch_requests_witness :
  (exists extra,
      sent (snd (bolivar_radicados (Fixture.oracle "<index>")
                   {| rq_cookie := Some "JSESSIONID=abc";
                      rq_radicados := RList ["A-1"; "B-2"; "C-3"];
                      rq_use_server_auth := true |} Fixture.world0))
      = extra
      /\ Forall (is_query_request (Fixture.oracle "<index>") INDEX_URL) extra
      /\ length extra <= 6)
  /\ query_trace (Fixture.oracle "<index>")
       (fst (after_queries (Fixture.oracle "<index>") ["A-1"; "B-2"]
               (Fixture.cookie_session, Fixture.world0)))
       (tick (snd (after_queries (Fixture.oracle "<index>") ["A-1"; "B-2"]
                     (Fixture.cookie_session, Fixture.world0))))
       (get_info_for_radicado (Fixture.oracle "<index>") "C-3"
          (fst (after_queries (Fixture.oracle "<index>") ["A-1"; "B-2"]
                  (Fixture.cookie_session, Fixture.world0)),
           tick (snd (after_queries (Fixture.oracle "<index>")
                        ["A-1"; "B-2"]
                        (Fixture.cookie_session, Fixture.world0))))).
Proof.
  destruct (cookie_batch_requests (Fixture.oracle "<index>")) as (H1 & H2).
  split.
  - destruct (H1 {| rq_cookie := Some "JSESSIONID=abc";
                    rq_radicados := RList ["A-1"; "B-2"; "C-3"];
                    rq_use_server_auth := true |} Fixture.world0)
      as (extra & Hs & HP & Hn); [vm_compute; discriminate|].
    exists extra. split; [exact Hs|]. split; [exact HP | exact Hn].
  - apply (H2 ["A-1"; "B-2"; "C-3"] Fixture.cookie_session Fixture.world0
             2 "C-3");
      [right; discriminate | reflexivity | reflexivity].
Defined.

(** ** Server-side login without credentials *)

Lemma query_without_credentials (E : Oracle) (radicado : str)
    (s : Session) (w : World) :
  _is_authenticated s = false ->
  cookie_header s = "" ->
  use_server_auth s = true ->
  PyStr.truthy_opt (user_id s) = false
  \/ PyStr.truthy_opt (password s) = false ->
  all_space radicado = false ->
  get_info_for_radicado E radicado (s, w)
  = (Raise (ValueError MISSING_CREDENTIALS), (s, w)).
Proof.
  intros Ha Hc Hf Hcred Hb. unfold get_info_for_radicado. cbn zeta.
  rewrite (not_blank_truthy radicado Hb). cbn [negb].
  unfold bind at 1, ensure_authenticated. run_m.
  rewrite Ha, Hc, Hf. cbn [PyStr.truthy negb].
  destruct Hcred as [-> | ->]; rewrite ?orb_true_r; reflexivity.
Qed.

Lemma trimmed_not_blank (x : str) : trimmed x -> all_space x = false.
Proof.
  intros (Hne & Ht). destruct (all_space x) eqn:Hb; [|reflexivity].
  apply strip_all_space in Hb. congruence.
Qed.

Lemma batch_without_credentials (E : Oracle) (radicados : list str)
    (s : Session) (w : World) :
  _is_authenticated s = false ->
  cookie_header s = "" ->
  use_server_auth s = true ->
  PyStr.truthy_opt (user_id s) = false
  \/ PyStr.truthy_opt (password s) = false ->
  Forall trimmed radicados ->
  let out := batch_loop E radicados [] (s, w) in
  sent (snd (snd out)) = sent w
  /\ Forall (fun res => ok res = false
                        /\ error res = Some MISSING_CREDENTIALS)
       (fst out).
Proof.
  intros Ha Hc Hf Hcred Hrads. revert w.
  induction Hrads as [|rad rest Hrad Hrest IH]; intros w.
  - split; [reflexivity | constructor].
  - cbn zeta. rewrite batch_loop_cons.
    unfold query_one. cbn [fst snd].
    rewrite (query_without_credentials E rad s (tick w) Ha Hc Hf Hcred
               (trimmed_not_blank rad Hrad)).
    cbn [fst snd]. destruct (IH (tick w)) as (Hs & Hres).
    split; [exact Hs|]. constructor; [split; reflexivity | exact Hres].
Qed.

(** With the server-auth flag, no cookie, and the user or the password
    missing from the environment (or empty), the endpoint still answers
    with one result for each identifier: every one of them has failed with
    the message about the missing variables, and no call to the portal was
    made. *)
Theorem server_auth_without_credentials (E : Oracle)
    (request : batch_request) (w : World) :
  _normalize_cookie_header (unicode E) (rq_cookie request) = "" ->
  rq_use_server_auth request = true ->
  PyStr.truthy_opt (getenv E "LIBERTADOR_USER") = false
  \/ PyStr.truthy_opt (getenv E "LIBERTADOR_PASS") = false ->
  _normalize_radicados (rq_radicados request) <> [] ->
  exists fetched_at results w',
    bolivar_radicados E request w
    = (BatchResponse fetched_at (length results) results, w')
    /\ sent w' = sent w
    /\ map radicado results = _normalize_radicados (rq_radicados request)
    /\ Forall (fun res => ok res = false
                          /\ error res = Some MISSING_CREDENTIALS)
         results.
Proof.
  intros Hcookie Hflag Hcred Hids.
  assert (Htrim : Forall trimmed (_normalize_radicados (rq_radicados request))).
  { rewrite normalize_radicados_first_seen. apply List.Forall_forall.
    apply distinct_identifiers_trimmed. }
  unfold bolivar_radicados. cbn zeta. rewrite Hcookie, Hflag.
  cbn [PyStr.truthy negb andb].
  destruct (_normalize_radicados (rq_radicados request)) as [|rad rest];
    [contradiction|].
  destruct (init_session E None true (tick w)) as (Hw & Hs).
  destruct (init_without_cookie E None true (tick w) eq_refl)
    as (s & Hinit & Hc & Hf & Ha).
  rewrite Hinit in *. cbn [fst snd] in *.
  destruct (Hs s eq_refl) as (_ & _ & Hu & Hp & _).
  destruct (batch_without_credentials E (rad :: rest) s (tick (tick w))
              Ha Hc Hf) as (Hsent & Hres);
    [rewrite Hu, Hp; exact Hcred | exact Htrim |].
  pose proof (batch_loop_radicados E (rad :: rest) (s, tick (tick w))) as Hmap.
  destruct (batch_loop E (rad :: rest) [] (s, tick (tick w)))
    as [results st]. cbn [fst snd] in *.
  eexists _, results, _. rewrite map_to_result_dict.
  split; [reflexivity|]. repeat split; assumption.
Qed.

Lemma server_auth_without_credentials_witness :
  exists fetched_at results w',
    bolivar_radicados (Fixture.oracle "<index>")
      {| rq_cookie := None; rq_radicados := RStr "A-1, B-2";
         rq_use_server_auth := true |} Fixture.world0
    = (BatchResponse fetched_at (length results) results, w')
    /\ sent w' = []
    /\ map radicado results = ["A-1"; "B-2"]
    /\ Forall (fun res => ok res = false
                          /\ error res = Some MISSING_CREDENTIALS)
         results.
Proof.
  apply (server_auth_without_credentials (Fixture.oracle "<index>")
           {| rq_cookie := None; rq_radicados := RStr "A-1, B-2";
              rq_use_server_auth := true |} Fixture.world0).
  - reflexivity.
  - reflexivity.
  - left. reflexivity.
  - vm_compute. discriminate.
Defined.


(** ** The payload of the search, continued *)

Lemma hidden_step_lookup (E : Oracle) (payload : gmap str str) (inp : Soup.node)
    (n : str) :
  hidden_step E payload inp !! n
  = if bool_decide (is_replayed (unicode E) n inp)
    then Some (PyStr.or_empty (Soup.get "value" inp))
    else payload !! n.
Proof.
  unfold hidden_step, is_replayed.
  destruct (Soup.get "name" inp) as [name|] eqn:Hname;
    cbn [PyStr.truthy_opt PyStr.or_empty from_option id].
  2:{ rewrite bool_decide_eq_false_2; [reflexivity|].
      intros (H & _). discriminate H. }
  destruct name as [|c t];
    cbn [PyStr.truthy_opt PyStr.or_empty from_option id PyStr.truthy negb].
  { rewrite bool_decide_eq_false_2; [reflexivity|].
    intros (H & Hne & _). injection H as <-. contradiction. }
  destruct (str_eqb_spec (Str c t) VIEW_STATE) as [He|Hne].
  { rewrite bool_decide_eq_false_2; [reflexivity|].
    intros (H & _ & Hv & _). injection H as <-. contradiction. }
  destruct (str_eqb_spec
              (PyStr.lower (unicode E)
                 (PyStr.or_empty (Soup.get "type" inp))) "hidden")
    as [Hh|Hh].
  - destruct (decide (Str c t = n)) as [<-|Hn].
    + rewrite lookup_insert_eq, bool_decide_eq_true_2; [reflexivity|].
      repeat split; [discriminate | exact Hne | exact Hh].
    + rewrite lookup_insert_ne by exact Hn.
      rewrite bool_decide_eq_false_2; [reflexivity|].
      intros (H & _). congruence.
  - rewrite bool_decide_eq_false_2; [reflexivity|].
    intros (_ & _ & _ & H). contradiction.
Qed.

Lemma hidden_fold_lookup (E : Oracle) (inputs : list Soup.node)
    (payload : gmap str str) (n v : str) :
  fold_left (hidden_step E) inputs payload !! n = Some v ->
  payload !! n = Some v
  \/ exists inp,
      In inp inputs /\ is_replayed (unicode E) n inp
      /\ PyStr.or_empty (Soup.get "value" inp) = v.
Proof.
  revert payload; induction inputs as [|inp inputs IH]; intros payload H;
    [left; exact H|].
  cbn [fold_left] in H. destruct (IH _ H) as [H1 | (i & Hi & Hr & Hv)].
  - rewrite hidden_step_lookup in H1.
    destruct (bool_decide (is_replayed (unicode E) n inp)) eqn:Hd.
    + apply bool_decide_eq_true in Hd. injection H1 as <-.
      right. exists inp.
      split; [left; reflexivity | split; [exact Hd | reflexivity]].
    + left. exact H1.
  - right. exists i. split; [right; exact Hi | split; assumption].
Qed.

Lemma hidden_fold_some (E : Oracle) (inputs : list Soup.node)
    (payload : gmap str str) (n : str) :
  is_Some (payload !! n)
  \/ (exists inp, In inp inputs /\ is_replayed (unicode E) n inp) ->
  is_Some (fold_left (hidden_step E) inputs payload !! n).
Proof.
  revert payload; induction inputs as [|inp inputs IH]; intros payload H.
  - destruct H as [H | (i & [] & _)]. exact H.
  - cbn [fold_left]. apply IH.
    destruct H as [H | (i & [<- | Hi] & Hr)].
    + left. rewrite hidden_step_lookup.
      destruct (bool_decide _); [eexists; reflexivity | exact H].
    + left. rewrite hidden_step_lookup, bool_decide_eq_true_2 by exact Hr.
      eexists; reflexivity.
    + right. exists i. split; assumption.
Qed.

Lemma find_busqueda_name_not_empty (E : Oracle) (form : Soup.node) :
  find_busqueda_name E form <> "".
Proof.
  unfold find_busqueda_name. cbn zeta.
  destruct (negb (PyStr.truthy_opt _)) eqn:H; [discriminate|].
  apply negb_false_iff in H. apply truthy_iff, H.
Qed.

(** What the payload of the search is made of.  Its fields are the
    replayed hidden inputs, the search field, the token field and the
    submit control that was chosen, and nothing else.  A hidden input is
    replayed when its name is not empty and is not the token field, with
    its value ([""] when it has none); a field of the payload that comes
    from the form has the value of such an input.  The search field, whose
    name is never empty, carries the identifier, and a replayed field
    carries its value, unless the token field or the submit control has
    the same name. *)
Theorem payload_fields (E : Oracle) (form : Soup.node)
    (view_state solicitud : str) :
  let payload := build_payload E form view_state solicitud in
  let busqueda := find_busqueda_name E form in
  let submit := choose_submit E (submit_candidates E form) in
  (forall k,
      is_Some (payload !! k)
      <-> (exists inp, In inp (Soup.find_all ["input"] form)
                       /\ is_replayed (unicode E) k inp)
          \/ k = busqueda \/ k = VIEW_STATE \/ submit = Some k)
  /\ (forall k v,
         hidden_fields E form !! k = Some v ->
         exists inp,
           In inp (Soup.find_all ["input"] form)
           /\ is_replayed (unicode E) k inp
           /\ PyStr.or_empty (Soup.get "value" inp) = v)
  /\ busqueda <> ""
  /\ (busqueda <> VIEW_STATE -> submit <> Some busqueda ->
      payload !! busqueda = Some solicitud)
  /\ (forall k,
         k <> busqueda -> k <> VIEW_STATE -> submit <> Some k ->
         payload !! k = hidden_fields E form !! k).
Proof.
  cbn zeta.
  assert (Hhidden : forall k,
             is_Some (hidden_fields E form !! k)
             <-> exists inp, In inp (Soup.find_all ["input"] form)
                             /\ is_replayed (unicode E) k inp).
  { intros k. unfold hidden_fields. split.
    - intros (v & Hv). apply hidden_fold_lookup in Hv.
      destruct Hv as [Hv | (inp & Hi & Hr & _)].
      + rewrite lookup_empty in Hv. discriminate Hv.
      + exists inp. split; assumption.
    - intros H. apply hidden_fold_some. right. exact H. }
  assert (Hbase : forall k,
             k <> find_busqueda_name E form -> k <> VIEW_STATE ->
             choose_submit E (submit_candidates E form) <> Some k ->
             build_payload E form view_state solicitud !! k
             = hidden_fields E form !! k).
  { intros k Hb Hv Hs. unfold build_payload. cbn zeta.
    destruct (choose_submit E (submit_candidates E form)) as [n|].
    - rewrite lookup_insert_ne by congruence.
      rewrite !lookup_insert_ne by congruence. reflexivity.
    - rewrite !lookup_insert_ne by congruence. reflexivity. }
  split; [|split; [|split; [|split]]].
  - intros k. rewrite <- Hhidden.
    destruct (decide (choose_submit E (submit_candidates E form) = Some k))
      as [Hs|Hs].
    { split; [tauto|]. intros _. unfold build_payload. cbn zeta.
      rewrite Hs, lookup_insert_eq. eexists; reflexivity. }
    destruct (decide (k = VIEW_STATE)) as [->|Hv].
    { split; [tauto|]. intros _. apply build_payload_has_view_state. }
    destruct (decide (k = find_busqueda_name E form)) as [->|Hb].
    { split; [tauto|]. intros _. unfold build_payload. cbn zeta.
      destruct (choose_submit E (submit_candidates E form)) as [n|].
      - rewrite lookup_insert_ne by congruence.
        rewrite lookup_insert_ne by congruence.
        rewrite lookup_insert_eq. eexists; reflexivity.
      - rewrite lookup_insert_ne by congruence.
        rewrite lookup_insert_eq. eexists; reflexivity. }
    rewrite (Hbase k Hb Hv Hs). tauto.
  - intros k v Hv. unfold hidden_fields in Hv.
    apply hidden_fold_lookup in Hv. destruct Hv as [Hv | Hv]; [|exact Hv].
    rewrite lookup_empty in Hv. discriminate Hv.
  - apply find_busqueda_name_not_empty.
  - intros Hv Hs. unfold build_payload. cbn zeta.
    destruct (choose_submit E (submit_candidates E form)) as [n|].
    + rewrite lookup_insert_ne by congruence.
      rewrite lookup_insert_ne by congruence. apply lookup_insert_eq.
    + rewrite lookup_insert_ne by congruence. apply lookup_insert_eq.
  - exact Hbase.
Qed.

Lemma payload_fields_witness :
  build_payload (Fixture.oracle "<index>") Fixture.form_index "tok-menu"
    "A-100" !! "FormIndex:busqueda"
  = Some "A-100"
  /\ build_payload (Fixture.oracle "<index>") Fixture.form_index "tok-menu"
       "A-100" !! "FormIndex"
     = Some "FormIndex".
Proof.
  destruct (payload_fields (Fixture.oracle "<index>") Fixture.form_index
              "tok-menu" "A-100")
    as (_ & _ & _ & Hsearch & Hother).
  split.
  - apply Hsearch; vm_compute; congruence.
  - rewrite Hother; vm_compute; congruence.
Defined.


(** ** The submit control *)

Lemma submit_candidate_from (E : Oracle) (btn : Soup.node) (n text : str) :
  submit_candidate E btn = Some (n, text) ->
  n <> ""
  /\ PyStr.or_empty (py_or (Soup.get "name" btn) (Soup.get "id" btn)) = n
  /\ (Soup.is_tag_named ["input"] btn = true -> is_submit_type (unicode E) btn).
Proof.
  unfold submit_candidate, is_submit_type. cbn zeta.
  set (btype := PyStr.lower (unicode E) (PyStr.or_empty (Soup.get "type" btn))).
  destruct (Soup.is_tag_named ["input"] btn) eqn:Hin; cbn [andb].
  - destruct (PyStr.truthy btype) eqn:Ht; cbn [andb].
    + destruct (str_eqb_spec btype "submit") as [Hs|Hs]; cbn [orb negb].
      * destruct (negb (PyStr.truthy_opt _)) eqn:Hn; [discriminate|].
        intros [= <- _]. split; [|split; [reflexivity | auto]].
        apply negb_false_iff in Hn. apply truthy_iff, Hn.
      * destruct (str_eqb_spec btype "image") as [Hi|Hi]; cbn [negb];
          [|discriminate].
        destruct (negb (PyStr.truthy_opt _)) eqn:Hn; [discriminate|].
        intros [= <- _]. split; [|split; [reflexivity | auto]].
        apply negb_false_iff in Hn. apply truthy_iff, Hn.
    + destruct (negb (PyStr.truthy_opt _)) eqn:Hn; [discriminate|].
      intros [= <- _]. split; [|split; [reflexivity|]].
      * apply negb_false_iff in Hn. apply truthy_iff, Hn.
      * intros _. left. destruct btype; [reflexivity | discriminate Ht].
  - destruct (negb (PyStr.truthy_opt _)) eqn:Hn; [discriminate|].
    intros [= <- _]. split; [|split; [reflexivity | discriminate]].
    apply negb_false_iff in Hn. apply truthy_iff, Hn.
Qed.

Lemma choose_submit_in (E : Oracle) (candidates : list (str * str)) (n : str) :
  choose_submit E candidates = Some n ->
  exists text, In (n, text) candidates.
Proof.
  unfold choose_submit.
  destruct (List.find (has_search_keyword E) candidates) as [[n1 t1]|] eqn:H1.
  { cbn [fst]. intros H. injection H as ->. apply find_some in H1.
    exists t1. tauto. }
  destruct (List.find (fun c => Re.j_idt (unicode E) (fst c)) candidates)
    as [[n2 t2]|] eqn:H2.
  { cbn [fst]. intros H. injection H as ->. apply find_some in H2.
    exists t2. tauto. }
  destruct candidates as [|[n3 t3] [|c rest]]; try discriminate.
  cbn [fst]. intros H. injection H as ->. exists t3. left. reflexivity.
Qed.

(** The submit control that is chosen is a button or an input of the
    form, by its name or else its id, which is not empty; an input is
    chosen only when it has no type or the type "submit" or "image", so a
    hidden or a text input is never posted as the control. *)
Theorem submit_control_of_the_form (E : Oracle) (form : Soup.node) (n : str) :
  choose_submit E (submit_candidates E form) = Some n ->
  n <> ""
  /\ exists btn,
      In btn (Soup.find_all ["button"; "input"] form)
      /\ PyStr.or_empty (py_or (Soup.get "name" btn) (Soup.get "id" btn)) = n
      /\ (Soup.is_tag_named ["input"] btn = true ->
          is_submit_type (unicode E) btn).
Proof.
  intros H. apply choose_submit_in in H. destruct H as (text & Hin).
  unfold submit_candidates in Hin.
  apply list_elem_of_In, list_elem_of_omap in Hin.
  destruct Hin as (btn & Hbtn & Hc).
  apply submit_candidate_from in Hc. destruct Hc as (Hne & Hn & Ht).
  split; [exact Hne|]. exists btn.
  split; [apply list_elem_of_In, Hbtn | split; assumption].
Qed.

Lemma submit_control_of_the_form_witness :
  exists btn,
    In btn (Soup.find_all ["button"; "input"] Fixture.form_index)
    /\ PyStr.or_empty (py_or (Soup.get "name" btn) (Soup.get "id" btn))
       = "FormIndex:j_idt45".
Proof.
  destruct (submit_control_of_the_form (Fixture.oracle "<index>")
              Fixture.form_index "FormIndex:j_idt45")
    as (_ & btn & Hin & Hn & _); [vm_compute; reflexivity|].
  exists btn. split; assumption.
Defined.


(** ** The rows of an export *)

Lemma stripped_field_trimmed (item : list (str * Json.value))
    (key text : str) :
  stripped_field item key = Returned text -> PyStr.strip text = text.
Proof.
  unfold stripped_field.
  destruct (Json.get key item) as [v|]; [|intros [= <-]; reflexivity].
  destruct (Json.truthy v); [|intros [= <-]; reflexivity].
  destruct v; try discriminate. intros [= <-]. apply strip_idem.
Qed.

Lemma stripped_field_returns (item : list (str * Json.value))
    (key : str) :
  (exists text, stripped_field item key = Returned text)
  <-> (forall v, Json.get key item = Some v -> Json.truthy v = true ->
                 exists s, v = Json.JString s).
Proof.
  unfold stripped_field. destruct (Json.get key item) as [v|].
  - destruct (Json.truthy v) eqn:Ht.
    + split.
      * intros (text & H) v' [= <-] _. destruct v; try discriminate.
        eexists; reflexivity.
      * intros H. destruct (H v eq_refl Ht) as (s & ->).
        eexists; reflexivity.
    + split; [|intros _; eexists; reflexivity].
      intros _ v' [= <-] H. congruence.
  - split; [intros _ v H; discriminate H | intros _; eexists; reflexivity].
Qed.

Lemma sanitized_row_trimmed (item : list (str * Json.value))
    (row : export_row) :
  sanitized_row item = Returned row ->
  PyStr.strip (row_radicado row) = row_radicado row
  /\ PyStr.strip (row_estado_raw row) = row_estado_raw row
  /\ PyStr.strip (row_estado_normalizado row) = row_estado_normalizado row
  /\ PyStr.strip (row_asegurado row) = row_asegurado row
  /\ PyStr.strip (row_consulted_at row) = row_consulted_at row.
Proof.
  unfold sanitized_row, attempt_bind.
  destruct (stripped_field item "radicado") as [f1|] eqn:H1; [|discriminate].
  destruct (stripped_field item "estado_raw") as [f2|] eqn:H2;
    [|discriminate].
  destruct (stripped_field item "estado_normalizado") as [f3|] eqn:H3;
    [|discriminate].
  destruct (stripped_field item "asegurado") as [f4|] eqn:H4; [|discriminate].
  destruct (stripped_field item "consulted_at") as [f5|] eqn:H5;
    [|discriminate].
  intros [= <-]. cbn.
  repeat split; eapply stripped_field_trimmed; eassumption.
Qed.

Lemma sanitized_row_returns (item : list (str * Json.value)) :
  (exists row, sanitized_row item = Returned row) <-> exportable item.
Proof.
  unfold exportable, EXPORT_KEYS. split.
  - intros (row & H) key v Hkey Hget Ht.
    unfold sanitized_row, attempt_bind in H.
    destruct (stripped_field item "radicado") as [f1|] eqn:H1;
      [|discriminate].
    destruct (stripped_field item "estado_raw") as [f2|] eqn:H2;
      [|discriminate].
    destruct (stripped_field item "estado_normalizado") as [f3|] eqn:H3;
      [|discriminate].
    destruct (stripped_field item "asegurado") as [f4|] eqn:H4;
      [|discriminate].
    destruct (stripped_field item "consulted_at") as [f5|] eqn:H5;
      [|discriminate].
    cbn [In] in Hkey.
    destruct Hkey as [<- | [<- | [<- | [<- | [<- | []]]]]];
      match type of Hget with
      | Json.get ?k _ = _ =>
          refine (proj1 (stripped_field_returns item k) _ v Hget Ht);
          eexists; eassumption
      end.
  - intros H. unfold sanitized_row, attempt_bind.
    assert (Hk : forall key, In key
                   ["radicado"; "estado_raw"; "estado_normalizado";
                    "asegurado"; "consulted_at"] ->
                 exists text, stripped_field item key = Returned text).
    { intros key Hkey. apply stripped_field_returns.
      intros v Hget Ht. eapply H; eassumption. }
    destruct (Hk "radicado") as (f1 & ->); [cbn; tauto|].
    destruct (Hk "estado_raw") as (f2 & ->); [cbn; tauto|].
    destruct (Hk "estado_normalizado") as (f3 & ->); [cbn; tauto|].
    destruct (Hk "asegurado") as (f4 & ->); [cbn; tauto|].
    destruct (Hk "consulted_at") as (f5 & ->); [cbn; tauto|].
    eexists; reflexivity.
Qed.

Lemma sanitize_loop_returned (items : list Json.value)
    (acc rows : list export_row) :
  sanitize_loop items acc = Returned rows ->
  exists more,
    rows = (acc ++ more)%list
    /\ length more <= length items
    /\ Forall (fun r =>
                 PyStr.strip (row_radicado r) = row_radicado r
                 /\ PyStr.strip (row_estado_raw r) = row_estado_raw r
                 /\ PyStr.strip (row_estado_normalizado r)
                    = row_estado_normalizado r
                 /\ PyStr.strip (row_asegurado r) = row_asegurado r
                 /\ PyStr.strip (row_consulted_at r) = row_consulted_at r)
         more.
Proof.
  revert acc; induction items as [|v rest IH]; intros acc H.
  - injection H as <-. exists []. rewrite app_nil_r.
    split; [reflexivity|]. split; [cbn; lia | constructor].
  - assert (Hskip : sanitize_loop rest acc = Returned rows ->
              exists more, rows = (acc ++ more)%list
                /\ length more <= length (v :: rest)
                /\ Forall (fun r =>
                     PyStr.strip (row_radicado r) = row_radicado r
                     /\ PyStr.strip (row_estado_raw r) = row_estado_raw r
                     /\ PyStr.strip (row_estado_normalizado r)
                        = row_estado_normalizado r
                     /\ PyStr.strip (row_asegurado r) = row_asegurado r
                     /\ PyStr.strip (row_consulted_at r) = row_consulted_at r)
                   more).
    { intros H0. destruct (IH acc H0) as (more & -> & Hn & Hf).
      exists more. split; [reflexivity|]. split; [cbn; lia | exact Hf]. }
    destruct v as [| | | | | |item]; try (apply Hskip; exact H).
    cbn [sanitize_loop] in H. unfold attempt_bind in H.
    destruct (sanitized_row item) as [row|] eqn:Hrow; [|discriminate].
    destruct (IH _ H) as (more & -> & Hn & Hf).
    exists (row :: more). rewrite <- app_assoc.
    split; [reflexivity|]. split; [cbn; lia|].
    constructor; [apply sanitized_row_trimmed with item; exact Hrow | exact Hf].
Qed.

Lemma sanitize_loop_returns (items : list Json.value)
    (acc : list export_row) :
  (exists rows, sanitize_loop items acc = Returned rows)
  <-> forall item, In (Json.JObject item) items -> exportable item.
Proof.
  revert acc; induction items as [|v rest IH]; intros acc.
  - split; [intros _ item [] | intros _; eexists; reflexivity].
  - assert (Hskip : (forall item, v <> Json.JObject item) ->
              sanitize_loop (v :: rest) acc = sanitize_loop rest acc).
    { intros Hv. destruct v; try reflexivity. elim (Hv fields). reflexivity. }
    destruct v as [| | | | | |item];
      try (rewrite Hskip by discriminate; rewrite IH; split;
           [intros H item Hin; apply H;
            destruct Hin as [Hin | Hin]; [discriminate Hin | exact Hin]
           | intros H item Hin; apply H; right; exact Hin]).
    cbn [sanitize_loop]. unfold attempt_bind. split.
    + intros (rows & H) item' [[= <-] | Hin].
      * apply sanitized_row_returns.
        destruct (sanitized_row item); [eexists; reflexivity | discriminate].
      * destruct (sanitized_row item) as [row|]; [|discriminate].
        eapply IH; [eexists; exact H | exact Hin].
    + intros H.
      destruct (proj2 (sanitized_row_returns item)) as (row & ->);
        [apply H; left; reflexivity|].
      apply IH. intros item' Hin. apply H. right. exact Hin.
Qed.

Lemma sanitized_rows_clean (results : option Json.value)
    (rows : list export_row) :
  _sanitize_export_rows results = Returned rows ->
  Forall clean_row rows
  /\ forall items, results = Some (Json.JArray items) ->
                   length rows <= length items.
Proof.
  intros H.
  destruct results as [[| | | | |items|]|]; cbn [_sanitize_export_rows] in H;
    try (injection H as <-; split; [constructor | intros items0 H0;
                                                 discriminate H0]).
  unfold attempt_bind in H.
  destruct (sanitize_loop items []) as [all|] eqn:Hloop; [|discriminate].
  injection H as <-.
  apply sanitize_loop_returned in Hloop.
  destruct Hloop as (more & -> & Hn & Hf). cbn [app]. split.
  - apply List.Forall_forall. intros r Hr. apply filter_In in Hr.
    destruct Hr as (Hr & Ht). rewrite List.Forall_forall in Hf.
    split; [apply truthy_iff, Ht | apply Hf, Hr].
  - intros items0 [= <-].
    etransitivity; [apply List.filter_length_le | exact Hn].
Qed.

(** The rows an export works on.  What is not a list gives no row.  The
    sanitizer raises [AttributeError] exactly when some object of the list
    has, among its five fields, a value that is true and is not a string;
    otherwise it returns rows whose fields are trimmed and whose
    identifier is not empty, at most one for each element of the list. *)
Theorem sanitize_export_rows_clean (results : option Json.value) :
  ((forall items, results <> Some (Json.JArray items)) ->
   _sanitize_export_rows results = Returned [])
  /\ (forall items,
         results = Some (Json.JArray items) ->
         ((exists rows, _sanitize_export_rows results = Returned rows)
          <-> forall item, In (Json.JObject item) items -> exportable item))
  /\ (forall rows,
         _sanitize_export_rows results = Returned rows ->
         Forall clean_row rows
         /\ forall items, results = Some (Json.JArray items) ->
                          length rows <= length items).
Proof.
  split; [|split].
  - intros H. destruct results as [[]|]; try reflexivity.
    elim (H items). reflexivity.
  - intros items ->. cbn [_sanitize_export_rows]. unfold attempt_bind.
    rewrite <- (sanitize_loop_returns items []).
    split; intros (rows & H).
    + destruct (sanitize_loop items []); [eexists; reflexivity | discriminate].
    + rewrite H. eexists; reflexivity.
  - intros rows H. apply sanitized_rows_clean, H.
Qed.

Lemma sanitize_export_rows_clean_witness :
  exists rows,
    _sanitize_export_rows
      (Some (Json.JArray
               [Json.JObject [("radicado", Json.JString " A-1 ");
                              ("asegurado", Json.JNull)];
                Json.JNumber 7;
                Json.JObject [("estado_raw", Json.JString "Nuevo")]]))
    = Returned rows
    /\ Forall clean_row rows.
Proof.
  destruct (sanitize_export_rows_clean
              (Some (Json.JArray
                 [Json.JObject [("radicado", Json.JString " A-1 ");
                                ("asegurado", Json.JNull)];
                  Json.JNumber 7;
                  Json.JObject [("estado_raw", Json.JString "Nuevo")]])))
    as (_ & Hret & Hclean).
  destruct (proj2 (Hret _ eq_refl)) as (rows & Hrows).
  - intros item [[= <-] | [H | [[= <-] | []]]]; [|discriminate H|].
    + intros key v Hk Hg Ht. cbn in Hk.
      destruct Hk as [<- | [<- | [<- | [<- | [<- | []]]]]];
        vm_compute in Hg; try discriminate Hg; injection Hg as <-;
        try discriminate Ht; eexists; reflexivity.
    + intros key v Hk Hg Ht. cbn in Hk.
      destruct Hk as [<- | [<- | [<- | [<- | [<- | []]]]]];
        vm_compute in Hg; try discriminate Hg; injection Hg as <-;
        try discriminate Ht; eexists; reflexivity.
  - exists rows. split; [exact Hrows | apply (Hclean rows Hrows)].
Defined.


(** ** From the batch to the export *)

Lemma strip_empty : PyStr.strip "" = "".
Proof. reflexivity. Qed.

Lemma sanitized_result_json (r : BolivarResult) :
  sanitized_row
    [("radicado", Json.JString (radicado r));
     ("ok", Json.JBool (ok r));
     ("estado_raw", optional_json (estado_raw r));
     ("estado_normalizado", optional_json (estado_normalizado r));
     ("asegurado", optional_json (asegurado r));
     ("consulted_at", Json.JString (consulted_at r));
     ("error", optional_json (error r))]
  = Returned (row_of_result r).
Proof.
  unfold sanitized_row, stripped_field, row_of_result.
  cbn [Json.get Str.eqb N.eqb Bool.eqb].
  destruct (radicado r) as [|c1 s1], (estado_raw r) as [[|c2 s2]|],
    (estado_normalizado r) as [[|c3 s3]|], (asegurado r) as [[|c4 s4]|],
    (consulted_at r) as [|c5 s5]; reflexivity.
Qed.

Lemma sanitize_loop_results (results : list BolivarResult)
    (acc : list export_row) :
  sanitize_loop (map result_json results) acc
  = Returned (acc ++ map row_of_result results)%list.
Proof.
  revert acc; induction results as [|r rest IH]; intros acc.
  - cbn. rewrite app_nil_r. reflexivity.
  - cbn [map]. unfold result_json at 1. cbn [sanitize_loop].
    rewrite sanitized_result_json. cbn [attempt_bind].
    rewrite IH, <- app_assoc. reflexivity.
Qed.

Lemma sanitize_results (results : list BolivarResult) :
  Forall (fun r => trimmed (radicado r)) results ->
  _sanitize_export_rows (Some (Json.JArray (map result_json results)))
  = Returned (map row_of_result results).
Proof.
  intros H. cbn [_sanitize_export_rows].
  rewrite sanitize_loop_results. cbn [attempt_bind app]. f_equal.
  apply filter_all. intros row Hrow. apply in_map_iff in Hrow.
  destruct Hrow as (r & <- & Hr). rewrite List.Forall_forall in H.
  destruct (H r Hr) as (Hne & Hfix). cbn [row_of_result row_radicado].
  rewrite Hfix. apply truthy_iff, Hne.
Qed.

Lemma batch_results_shape (E : Oracle) (request : batch_request)
    (w w' : World) (fetched_at : str) (count : nat)
    (results : list BolivarResult) :
  bolivar_radicados E request w
  = (BatchResponse fetched_at count results, w') ->
  map radicado results = _normalize_radicados (rq_radicados request)
  /\ Forall (well_formed_result (unicode E)) results.
Proof.
  intros Hb. apply bolivar_radicados_accepted in Hb.
  destruct Hb as (session & w0 & -> & _).
  split; [apply batch_loop_radicados | apply batch_loop_well_formed].
Qed.

Lemma requested_format_string (U : PyStr.Unicode) (fmt : str) :
  requested_format U (Some (Json.JString fmt))
  = Returned (PyStr.lower U (PyStr.strip fmt)).
Proof. destruct fmt; reflexivity. Qed.

(** The answer of the batch endpoint can be sent back to the export as it
    is.  The sanitizer gives one row for each result, in the order of the
    results: its identifier is the identifier of the result, its status is
    the normalized status of the result, and a field that the result has not
    is empty.  With a format that is "xlsx" or "pdf" once it is trimmed and
    put in lower case, the export is not rejected: the renderer of that
    format is called on exactly these rows, and what it returns is sent as a
    file named after the time stamp. *)
Theorem export_of_batch_answer (E : Oracle) (request : batch_request)
    (w w' : World) (fetched_at : str) (count : nat)
    (results : list BolivarResult) :
  bolivar_radicados E request w
  = (BatchResponse fetched_at count results, w') ->
  let sent_back := Some (Json.JArray (map result_json results)) in
  let rows := map row_of_result results in
  _sanitize_export_rows sent_back = Returned rows
  /\ map row_radicado rows = _normalize_radicados (rq_radicados request)
  /\ map (fun row => Some (row_estado_normalizado row)) rows
     = map estado_normalizado results
  /\ (forall i r row,
         results !! i = Some r -> rows !! i = Some row ->
         (estado_raw r = None -> row_estado_raw row = "")
         /\ (asegurado r = None -> row_asegurado row = ""))
  /\ forall (R : Renderer) (fmt : str) (now : nat),
       (PyStr.lower (unicode E) (PyStr.strip fmt) = "xlsx" ->
        bolivar_radicados_export (unicode E) R
          {| rq_format := Some (Json.JString fmt); rq_results := sent_back |}
          now
        = attempt_bind (_export_xlsx_clean R rows) (fun payload =>
            Returned (Attachment payload
              "application/vnd.openxmlformats-officedocument.spreadsheetml.sheet"
              ("radicados_" +:+ strftime_stamp R now +:+ ".xlsx"))))
       /\ (PyStr.lower (unicode E) (PyStr.strip fmt) = "pdf" ->
           bolivar_radicados_export (unicode E) R
             {| rq_format := Some (Json.JString fmt);
                rq_results := sent_back |} now
           = attempt_bind
               (_export_pdf_clean R rows (isoformat_stamp R (S now)))
               (fun payload =>
                  Returned (Attachment payload "application/pdf"
                    ("radicados_" +:+ strftime_stamp R now +:+ ".pdf")))).
Proof.
  intros Hb. cbn zeta.
  assert (Hne : _normalize_radicados (rq_radicados request) <> []).
  { intros Hnil. unfold bolivar_radicados in Hb. cbn zeta in Hb.
    rewrite Hnil in Hb.
    destruct (negb _ && negb _) in Hb; discriminate Hb. }
  pose proof (batch_results_shape E request w w' fetched_at count results Hb)
    as (Hrad & Hwf).
  assert (Htrim : Forall (fun r => trimmed (radicado r)) results).
  { apply List.Forall_forall. intros r Hr.
    apply (distinct_identifiers_trimmed (rq_radicados request)).
    rewrite <- normalize_radicados_first_seen, <- Hrad.
    apply in_map, Hr. }
  assert (Hrows : _sanitize_export_rows
                    (Some (Json.JArray (map result_json results)))
                  = Returned (map row_of_result results))
    by (apply sanitize_results, Htrim).
  assert (Hids : map row_radicado (map row_of_result results)
                 = _normalize_radicados (rq_radicados request)).
  { rewrite <- Hrad, map_map. apply map_ext_in. intros r Hr.
    rewrite List.Forall_forall in Htrim. apply (Htrim r Hr). }
  split; [exact Hrows|]. split; [exact Hids|]. split; [|split].
  - rewrite map_map. apply map_ext_in. intros r Hr.
    rewrite List.Forall_forall in Hwf.
    destruct (Hwf r Hr) as ((n & Hn & _ & Hfix) & _).
    cbn [row_of_result row_estado_normalizado]. rewrite Hn.
    cbn [PyStr.or_empty from_option id]. rewrite Hfix. reflexivity.
  - intros i r row Hr Hrow. rewrite list_lookup_fmap, Hr in Hrow.
    injection Hrow as <-. cbn [row_of_result row_estado_raw row_asegurado].
    split; intros ->; reflexivity.
  - assert (Hsome : exists row rest,
               map row_of_result results = row :: rest).
    { destruct results as [|r rest]; [|eexists _, _; reflexivity].
      cbn in Hids. symmetry in Hids. elim (Hne Hids). }
    destruct Hsome as (row & rest & Hsome).
    intros R fmt now. unfold bolivar_radicados_export.
    cbn [rq_format rq_results]. rewrite requested_format_string, Hrows.
    cbn [attempt_bind]. rewrite Hsome.
    split; intros ->; reflexivity.
Qed.

Lemma export_of_batch_answer_witness :
  exists fetched_at count results w',
    bolivar_radicados (Fixture.oracle "<index>")
      (Fixture.cookie_request (RStr "B-2, A-1")) Fixture.world0
    = (BatchResponse fetched_at count results, w')
    /\ _sanitize_export_rows (Some (Json.JArray (map result_json results)))
       = Returned (map row_of_result results).
Proof.
  destruct (bolivar_radicados (Fixture.oracle "<index>")
              (Fixture.cookie_request (RStr "B-2, A-1")) Fixture.world0)
    as [[detail|fetched_at count results] w'] eqn:Hb; [vm_compute in Hb; discriminate Hb|].
  exists fetched_at, count, results, w'. split; [reflexivity|].
  apply (export_of_batch_answer (Fixture.oracle "<index>")
           (Fixture.cookie_request (RStr "B-2, A-1"))
           Fixture.world0 w' fetched_at count results Hb).
Defined.


(** ** The answers of the export *)

Lemma requested_format_returned (U : PyStr.Unicode)
    (v : option Json.value) (fmt : str) :
  requested_format U v = Returned fmt ->
  fmt <> "" ->
  exists s, v = Some (Json.JString s) /\ fmt = PyStr.lower U (PyStr.strip s).
Proof.
  unfold requested_format.
  destruct v as [v|]; [|intros [= <-] H; elim H; reflexivity].
  destruct (Json.truthy v);
    [|intros [= <-] H; elim H; reflexivity].
  destruct v; try discriminate.
  intros [= <-] _. eexists. split; reflexivity.
Qed.

(** What stands behind a file of the export.  When the export answers with
    a file, the format of the request was a string that, trimmed and in
    lower case, is "xlsx" or "pdf"; the results of the request were a list;
    the sanitizer kept at least one row, and every row it kept has a
    non-empty identifier and trimmed fields; the file is what the renderer
    of the format returned on exactly these rows (the PDF one with the clock
    read a second time); and its name is "radicados_", the time stamp, a
    dot and the format.  So no file is made for a request without a usable
    result, nor for another format. *)
Theorem export_file_from_clean_rows (U : PyStr.Unicode) (R : Renderer)
    (request : export_request) (now : nat)
    (payload content_type filename : str) :
  bolivar_radicados_export U R request now
  = Returned (Attachment payload content_type filename) ->
  exists written fmt items rows,
    rq_format request = Some (Json.JString written)
    /\ fmt = PyStr.lower U (PyStr.strip written)
    /\ rq_results request = Some (Json.JArray items)
    /\ _sanitize_export_rows (rq_results request) = Returned rows
    /\ rows <> [] /\ length rows <= length items
    /\ Forall clean_row rows
    /\ filename = "radicados_" +:+ strftime_stamp R now +:+ "." +:+ fmt
    /\ ((fmt = "xlsx"
         /\ _export_xlsx_clean R rows = Returned payload
         /\ content_type
            = "application/vnd.openxmlformats-officedocument.spreadsheetml.sheet")
        \/ (fmt = "pdf"
            /\ _export_pdf_clean R rows (isoformat_stamp R (S now))
               = Returned payload
            /\ content_type = "application/pdf")).
Proof.
  unfold bolivar_radicados_export, attempt_bind. intros H.
  destruct (requested_format U (rq_format request)) as [fmt|] eqn:Hfmt;
    [|discriminate].
  destruct (_sanitize_export_rows (rq_results request)) as [rows|] eqn:Hrows;
    [|discriminate].
  destruct (Str.eqb fmt "xlsx") eqn:Hx; cbn [orb negb] in H.
  - apply str_eqb_eq in Hx. subst fmt.
    destruct rows as [|row rest]; [discriminate|].
    destruct (_export_xlsx_clean R (row :: rest)) as [file|] eqn:Hfile;
      [|discriminate].
    injection H as <- <- <-.
    destruct (requested_format_returned _ _ _ Hfmt) as (written & Hw & Hl);
      [discriminate|].
    destruct (sanitized_rows_clean _ _ Hrows) as (Hclean & Hlen).
    assert (Hitems : exists items,
               rq_results request = Some (Json.JArray items)).
    { destruct (rq_results request) as [[| | | | |items|]|];
        try discriminate Hrows. eexists; reflexivity. }
    destruct Hitems as (items & Hitems).
    exists written, "xlsx", items, (row :: rest).
    split; [exact Hw|]. split; [exact Hl|]. split; [exact Hitems|].
    split; [reflexivity|]. split; [discriminate|].
    split; [apply Hlen, Hitems|]. split; [exact Hclean|].
    split; [reflexivity|]. left.
    split; [reflexivity|]. split; [exact Hfile | reflexivity].
  - destruct (Str.eqb fmt "pdf") eqn:Hp; cbn [negb] in H; [|discriminate].
    apply str_eqb_eq in Hp. subst fmt.
    destruct rows as [|row rest]; [discriminate|].
    cbn [Str.eqb N.eqb Bool.eqb] in H.
    destruct (_export_pdf_clean R (row :: rest) (isoformat_stamp R (S now)))
      as [file|] eqn:Hfile; [|discriminate].
    injection H as <- <- <-.
    destruct (requested_format_returned _ _ _ Hfmt) as (written & Hw & Hl);
      [discriminate|].
    destruct (sanitized_rows_clean _ _ Hrows) as (Hclean & Hlen).
    assert (Hitems : exists items,
               rq_results request = Some (Json.JArray items)).
    { destruct (rq_results request) as [[| | | | |items|]|];
        try discriminate Hrows. eexists; reflexivity. }
    destruct Hitems as (items & Hitems).
    exists written, "pdf", items, (row :: rest).
    split; [exact Hw|]. split; [exact Hl|]. split; [exact Hitems|].
    split; [reflexivity|]. split; [discriminate|].
    split; [apply Hlen, Hitems|]. split; [exact Hclean|].
    split; [reflexivity|]. right.
    split; [reflexivity|]. split; [exact Hfile | reflexivity].
Qed.

Lemma export_file_from_clean_rows_witness :
  exists rows,
    bolivar_radicados_export Fixture.database ExportFixture.renderer
      ExportFixture.request 0
    = Returned (Attachment "2024-05-01T12:00:00+00:00:A-1" "application/pdf"
                  "radicados_20240501_1200.pdf")
    /\ _sanitize_export_rows (rq_results ExportFixture.request)
       = Returned rows
    /\ Forall clean_row rows.
Proof.
  assert (Hrun : bolivar_radicados_export Fixture.database ExportFixture.renderer
                   ExportFixture.request 0
                 = Returned (Attachment "2024-05-01T12:00:00+00:00:A-1"
                               "application/pdf"
                               "radicados_20240501_1200.pdf"))
    by (vm_compute; reflexivity).
  destruct (export_file_from_clean_rows _ _ _ _ _ _ _ Hrun)
    as (written & fmt & items & rows & _ & _ & _ & Hrows & _ & _ & Hclean
        & _).
  exists rows. split; [exact Hrun|]. split; [exact Hrows | exact Hclean].
Defined.


(** ** The cookie header, from the endpoint to the session *)








